(** * NeMo G2P / FastPitch: data preparation and inference glue

    A shallow embedding of
    - [examples/tts/G2P/data/prepare_wiki_data.py]
      ([normalize_wikihomograph_data], [_prepare_wikihomograph_data] and the
      string helpers they call),
    - [nemo_text_processing/g2p/models/g2p_ctc.py]
      ([CTCG2PModel._infer], [CTCG2PModel.convert_graphemes_to_phonemes]),
    - [nemo/collections/tts/models/fastpitch_adversarial.py]
      ([FastPitchAdversarialModel.adversarial_loss]),
    together with the properties of these functions.

    Python strings are sequences of Unicode code points, Python exceptions are
    an error result threaded through a state monad, files are sequences of
    JSON objects, and everything that lives outside these three files (the
    text normalizer, the tokenizer, torch) is a parameter of the section that
    uses it. *)

From Stdlib Require Import String Ascii.
From Stdlib Require DecimalString.
From Stdlib Require Import List ZArith NArith Bool Lia PeanoNat.
From Stdlib Require Import Floats.PrimFloat.
Import ListNotations.



(* ================================================================== *)
(** ** Python [str] *)
(* ================================================================== *)

Module PyStr.

(** A [str] is a sequence of code points. *)
Definition char := N.
Definition pystr := list char.

Definition char_eqb (a b : char) : bool := N.eqb a b.

Fixpoint eqb (s t : pystr) : bool :=
  match s, t with
  | [], [] => true
  | a :: s', b :: t' => char_eqb a b && eqb s' t'
  | _, _ => false
  end.

(** String literals of the source are written as they are and decoded from
    UTF-8, so that [py "C₃"] is the two code points of the Python literal. *)
Fixpoint utf8_decode (s : string) (acc : N) (pending : nat) : pystr :=
  match s with
  | EmptyString => []
  | String a s' =>
      let b := N_of_ascii a in
      match pending with
      | S k =>
          let acc' := (acc * 64 + b mod 64)%N in
          match k with
          | O => acc' :: utf8_decode s' 0%N 0
          | S _ => utf8_decode s' acc' k
          end
      | O =>
          if (b <? 128)%N then b :: utf8_decode s' 0%N 0
          else if (b <? 224)%N then utf8_decode s' (b mod 32)%N 1
          else if (b <? 240)%N then utf8_decode s' (b mod 16)%N 2
          else utf8_decode s' (b mod 8)%N 3
      end
  end.

Definition py (s : string) : pystr := utf8_decode s 0%N 0.
Arguments py s%_string.

Definition dquote : char := 34%N.

(** [s.startswith(p)] *)
Fixpoint startswith (p s : pystr) : bool :=
  match p, s with
  | [], _ => true
  | a :: p', b :: s' => char_eqb a b && startswith p' s'
  | _ :: _, [] => false
  end.

(** Left-to-right scan shared by [replace] and [count]: [skip] is the number
    of characters of the current match still to be passed over. *)
Fixpoint replace_scan (old new s : pystr) (skip : nat) : pystr :=
  match s with
  | [] => []
  | c :: s' =>
      match skip with
      | S k => replace_scan old new s' k
      | O =>
          if startswith old s
          then new ++ replace_scan old new s' (length old - 1)
          else c :: replace_scan old new s' 0
      end
  end.

(** [s.replace(old, new)]: every non-overlapping occurrence, leftmost first.
    An empty [old] matches before every character and at the end. *)
Definition replace (s old new : pystr) : pystr :=
  match old with
  | [] => new ++ flat_map (fun c => c :: new) s
  | _ :: _ => replace_scan old new s 0
  end.

Fixpoint count_scan (sub s : pystr) (skip : nat) : nat :=
  match s with
  | [] => 0
  | _ :: s' =>
      match skip with
      | S k => count_scan sub s' k
      | O =>
          if startswith sub s
          then S (count_scan sub s' (length sub - 1))
          else count_scan sub s' 0
      end
  end.

(** [s.count(sub)]: non-overlapping occurrences; [len(s) + 1] for an empty
    [sub]. *)
Definition count (s sub : pystr) : nat :=
  match sub with
  | [] => S (length s)
  | _ :: _ => count_scan sub s 0
  end.

(** [s.find(sub)], with [None] for Python's [-1]. *)
Fixpoint find (s sub : pystr) : option nat :=
  if startswith sub s then Some 0
  else match s with
       | [] => None
       | _ :: s' => option_map S (find s' sub)
       end.

(** Python slice bounds: a negative bound counts from the end, and both
    bounds are clamped to [0, len]. *)
Definition slice_bound (len : nat) (i : Z) : nat :=
  if (i <? 0)%Z
  then Z.to_nat (Z.max 0 (i + Z.of_nat len))
  else Nat.min (Z.to_nat i) len.

(** [s[a:b]] *)
Definition slice (s : pystr) (a b : Z) : pystr :=
  let lo := slice_bound (length s) a in
  let hi := slice_bound (length s) b in
  firstn (hi - lo) (skipn lo s).

(** [s[:b]] *)
Definition slice_to (s : pystr) (b : Z) : pystr :=
  firstn (slice_bound (length s) b) s.

(** [s[a:]] *)
Definition slice_from (s : pystr) (a : Z) : pystr :=
  skipn (slice_bound (length s) a) s.

(** [str.lower] restricted to the ASCII letters.  The functions below take
    Python's own [lower] as a parameter; this one instantiates it on
    concrete ASCII inputs, where the two agree. *)
Definition ascii_lower_char (c : char) : char :=
  if ((65 <=? c) && (c <=? 90))%N then (c + 32)%N else c.

Definition ascii_lower (s : pystr) : pystr := map ascii_lower_char s.
End PyStr.

Import PyStr.


(* ================================================================== *)
(** ** JSON values and Python dictionaries *)
(* ================================================================== *)

Module Json.

#[local] Unset Elimination Schemes.

Inductive json : Type :=
| JNull
| JBool (b : bool)
| JInt (z : Z)
| JFloat (f : float)
| JStr (s : pystr)
| JList (l : list json)
| JObject (fields : list (string * json)).

#[local] Set Elimination Schemes.

(** A [dict] keeps its keys in insertion order, which is the order
    [json.dumps] writes them in. *)
Definition dict := list (string * json).

(** [k in d] and [d[k]] *)
Fixpoint dict_get (k : string) (d : dict) : option json :=
  match d with
  | [] => None
  | (k', v) :: d' => if String.eqb k k' then Some v else dict_get k d'
  end.

Definition dict_mem (k : string) (d : dict) : bool :=
  match dict_get k d with Some _ => true | None => false end.

(** [d[k] = v]: an existing key keeps its place, a new key goes last. *)
Fixpoint dict_set (k : string) (v : json) (d : dict) : dict :=
  match d with
  | [] => [(k, v)]
  | (k', v') :: d' =>
      if String.eqb k k' then (k', v) :: d' else (k', v') :: dict_set k v d'
  end.
End Json.

Import Json.


(* ================================================================== *)
(** ** Exceptions and state *)
(* ================================================================== *)

Module Py.

(** The exceptions the modelled code can raise.  [ExternalError] stands for
    whatever a library call outside the modelled files raises. *)
Inductive exn : Type :=
| UnboundLocalError (name : string)
| AssertionError
| IndexError
| KeyError (key : json)
| TypeError
| ValueError (msg : pystr)
| BdbQuit
| ExternalError (tag : pystr).

Inductive result (A : Type) : Type :=
| Ok (a : A)
| Raise (e : exn).

Arguments Ok {A} a.
Arguments Raise {A} e.

(** A computation over a store [St]: the store survives an exception, as
    files written and counters bumped before a [raise] do. *)
Definition M (St A : Type) : Type := St -> result A * St.

Definition ret {St A} (a : A) : M St A := fun s => (Ok a, s).

Definition bind {St A B} (m : M St A) (k : A -> M St B) : M St B :=
  fun s =>
    match m s with
    | (Ok a, s') => k a s'
    | (Raise e, s') => (Raise e, s')
    end.

Definition raise {St A} (e : exn) : M St A := fun s => (Raise e, s).

Definition get {St} : M St St := fun s => (Ok s, s).

Definition modify {St} (f : St -> St) : M St unit := fun s => (Ok tt, f s).

(** [try: body finally: cleanup] *)
Definition try_finally {St A} (body : M St A) (cleanup : M St unit) : M St A :=
  fun s =>
    match body s with
    | (r, s') =>
        match cleanup s' with
        | (Ok _, s'') => (r, s'')
        | (Raise e, s'') => (Raise e, s'')
        end
    end.

(** [try: body except: handler] with a bare [except]. *)
Definition try_except {St A} (body : M St A) (handler : M St A) : M St A :=
  fun s =>
    match body s with
    | (Ok a, s') => (Ok a, s')
    | (Raise _, s') => handler s'
    end.

(** [for i, x in enumerate(l): body], counting from [i]. *)
Fixpoint for_enumerate_from {St A} (i : nat) (l : list A)
  (body : nat -> A -> M St unit) : M St unit :=
  match l with
  | [] => ret tt
  | x :: l' => bind (body i x) (fun _ => for_enumerate_from (S i) l' body)
  end.

Definition for_enumerate {St A} (l : list A) (body : nat -> A -> M St unit)
  : M St unit := for_enumerate_from 0 l body.

Definition for_each {St A} (l : list A) (body : A -> M St unit) : M St unit :=
  for_enumerate l (fun _ => body).

(** [l[i]] *)
Definition getitem {St A} (l : list A) (i : nat) : M St A :=
  match nth_error l i with
  | Some x => ret x
  | None => raise IndexError
  end.

(** [d[k]] *)
Definition dict_getitem {St} (d : dict) (k : string) : M St json :=
  match dict_get k d with
  | Some v => ret v
  | None => raise (KeyError (JStr (py k)))
  end.

(** A string method applied to a value that has to be a [str]. *)
Definition as_str {St} (v : json) : M St pystr :=
  match v with
  | JStr s => ret s
  | _ => raise TypeError
  end.

(** Reading a local variable that may not have been assigned yet. *)
Definition read_local {St A} (name : string) (v : option A) : M St A :=
  match v with
  | Some a => ret a
  | None => raise (UnboundLocalError name)
  end.

Declare Scope py_scope.
Delimit Scope py_scope with py.

Notation "x <- c1 ;; c2" := (bind c1 (fun x => c2))
  (at level 61, c1 at next level, right associativity) : py_scope.
Notation "' pat <- c1 ;; c2" := (bind c1 (fun x => match x with pat => c2 end))
  (at level 61, pat pattern, c1 at next level, right associativity) : py_scope.
Notation "c1 ;; c2" := (bind c1 (fun _ => c2))
  (at level 61, right associativity) : py_scope.

(** *** Invariants of computations

    [preserves Inv m]: whatever [m] does, and whether it returns or raises,
    the store it leaves satisfies [Inv] if the store it started from did. *)

Definition preserves {St A} (Inv : St -> Prop) (m : M St A) : Prop :=
  forall s, Inv s -> Inv (snd (m s)).
(** [returns P m Q]: started from a store that satisfies [P], if [m] returns
    then its value and the store it leaves satisfy [Q]. *)
Definition returns {St A} (P : St -> Prop) (m : M St A) (Q : A -> St -> Prop) : Prop :=
  forall s, P s ->
    match m s with
    | (Ok a, s') => Q a s'
    | (Raise _, _) => True
    end.

End Py.

Import Py.

Local Open Scope py_scope.


(* ================================================================== *)
(** ** [examples/tts/G2P/data/prepare_wiki_data.py] *)
(* ================================================================== *)

Module PrepareWikiData.

(** *** String helpers *)

Definition pre_process (text : pystr) : pystr :=
  replace text (py "é") (py "e").

(** The chain of [.replace(old, new)] calls of [post_process_normalization],
    in the order they are applied. *)
Definition normalization_replacements : list (pystr * pystr) :=
  [
    (py "slash ", py "/ ");
    (py "–", py "-");
    (py " slash[", py " slash [");
    (py "—", py "-");
    (py "C₃", py "C three");
    (py "I²C", py "I two C");
    (py "α-methyl", py "alpha methyl");
    (py " /ʔ/", []);
    (py "B₁₀₅", py "B one hundred and five");
    (py "B₄₈", py "B forty eight");
    (py "B₂₈-B-B₂₈ (B₅₇)", py "B twenty eight B B twenty eight (B fifty seven)");
    (py "NF-κB", py "Nuclear factor kappa B");
    (py "PLCγ", py "Phosphoinositide phospholipase gamma");
    (py "#½", []);
    (py "pᵢ", py "p i");
    (py "RSO₂OH", py "R S O two O H");
    (py " 2ᵃˣⁱˢ", []);
    (py ": Гугутка", []);
    (py " ܕ, d-, da-.", []);
    (py " A⁰", []);
    (py "17β", py "seventeen beta");
    (py " (英米本位の平和主義を排す)", []);
    (py " (Russian: рекрутская повинность)", []);
    (py "πλατυς ", []);
    (py "(じいちゃん Jiichan)", []);
    (py "WCl₆", py "W C L six");
    (py " Ca(C₁₀H₁₂O₄N₅PO₄)", py " shown in the book");
    (py " (bda)Fe(CO)₃", []);
    (py "Tris(pentafluorophenyl)borane", py "Tris (pentafluorophenyl) borane");
    (py " (C₆F₅)₃B", []);
    (py " with the formula Na₂HPO₄", []);
    (py "ǀXam, ǂUngkue", py "Xam, Ungkue");
    (py "Ytterbium(III) chloride (YbCl₃)", py "Ytterbium chloride");
    (py " with the formula Cl₂O₇", []);
    (py " with formula (CH₃)₂C₆H₃NH₂", []);
    (py "C₆F₅XeF", py "this one");
    (py "C₄H₄S", py "this one");
    (py "PbCrO₄", py "this one");
    (py "PbS₂", py "this one");
    (py "Cd(CH₃)₂", py "shown in the book");
    (py "β", py "beta");
    (py "MΩ ", []);
    (py "K₂(C₂H₄O(COO)₂)", py "mentioned above");
    (py " (NI₃)", []);
    (py " with formula KC₅H₈NO₄", []);
    (py " Gin'iro Doresu (銀色ドレス Silver Dress)", py " Silver Dress");
    (py "ρ-", py "p ");
    (py "σ2B (the " ++ [dquote] ++ py "Breeding expectations" ++ [dquote] ++ py " variance) and σ2δ (the " ++ [dquote] ++ py "Breeding deviations" ++ [dquote] ++ py " variance)", py "the " ++ [dquote] ++ py "Breeding expectations" ++ [dquote] ++ py " variance and the " ++ [dquote] ++ py "Breeding deviations" ++ [dquote] ++ py " variance");
    (py " CaCl₂", []);
    (py "copper(II) acetate to copper(I) oxide (Cu₂O)", py "copper acetate to copper oxide");
    (py "CuSO₄", py "C u S O four");
    (py "The function eᵃˣ", py "This function");
    (py "R⁴", py "R to the forth power");
    (py "₀", py " zero ");
    (py "₁", py " one ");
    (py "₂", py " two ");
    (py "₃", py " three ");
    (py "₄", py " four");
    (py "₅", py " five ");
    (py "₆", py " six ");
    (py "₇", py " seven ");
    (py "δ-", py "delta");
    (py "πr²", py "pi r squared");
    (py "km³", py "cubic kilometers");
    (py "CU mi", py "cubic miles");
    (py "³", py " cubed");
    (py "ʻo", []);
    (py " (Hangul: 화경숙빈최씨; Hanja: 和瓊淑嬪崔氏)", []);
    (py "(Bulgarian: Смилцена) ", []);
    (py "(Мисс CCCP) ", []);
    (py "σ", py " sigma ");
    (py "α", py " alpha ");
    (py "γ", py " gamma ");
    (py "κ", py " kappa ");
    (py "μeff", py "effective magnetic moment");
    (py "Београдски Синдикат", []);
    (py "(モンキーマジック) ", []);
    (py "P⁵", py "P to the fifth power");
    (py "ΛᵏV", py "lambda V");
    (py "I-695", py "I-six hundred ninety five");
    (py "501", py "five hundred and one");
    (py "2009", py "twenty oh nine");
    (py "ᵢ", py " i ");
    (py "µg/mL", py "microgram per milliliter");
    (py "ρε", py "re");
    (py "ς", py "s");
    (py "for g¹(q;τ)", []);
    (py "G(Γ)", py "G");
    (py "π", py "pi");
    (py ":جامعة المغتربين", []);
    (py "TᵏM", py "T M")
  ].

Definition post_process_normalization (text : pystr) : pystr :=
  let text :=
    fold_left (fun t p => replace t (fst p) (snd p)) normalization_replacements text in
  replace text (py "  ") (py " ").

Definition is_cjk (c : char) : bool := ((19968 <=? c) && (c <=? 40959))%N.

(** [re.findall] of the pattern for one or more characters in the range
    U+4E00 to U+9FFF: the maximal runs of CJK ideographs, left to right.  [run] is the run being read, reversed. *)
Fixpoint findall_cjk (text : pystr) (run : pystr) : list pystr :=
  match text with
  | [] => match run with [] => [] | _ :: _ => [rev run] end
  | c :: text' =>
      if is_cjk c then findall_cjk text' (c :: run)
      else match run with
           | [] => findall_cjk text' []
           | _ :: _ => rev run :: findall_cjk text' []
           end
  end.

Definition remove_cjk (text : pystr) : pystr :=
  let cjk := findall_cjk text [] in
  fold_left (fun t cjk_ => replace t cjk_ []) cjk text.

(** [os.path.basename] on a POSIX path: what follows the last slash. *)
Fixpoint basename_from (path : pystr) (acc : pystr) : pystr :=
  match path with
  | [] => rev acc
  | c :: path' =>
      if char_eqb c 47%N then basename_from path' [] else basename_from path' (c :: acc)
  end.

Definition basename (path : pystr) : pystr := basename_from path [].

Definition replace_token : pystr := py "[]".

(** *** [normalize_wikihomograph_data] *)

(** What the function does to the outside world, in the order it does it. *)
Inductive event : Type :=
| EvOpenW (path : pystr)                  (* open(output_f, "w") *)
| EvWrite (path : pystr) (entry : dict)   (* f_out.write(json.dumps(entry) + "\n") *)
| EvPrintTNError (sentence : pystr)       (* print("TN ERROR: ", sentence_to_normalize) *)
| EvPdbSetTrace (file_name : pystr) (row : nat)   (* pdb.set_trace() *)
| EvPrintSummary (output_dir : pystr) (removed : nat).

(** The locals that outlive one loop iteration, the paths that exist in the
    output directory, and the events so far (latest first). *)
Record state : Type := mkState {
  num_removed : nat;
  norm_text : option pystr;
  existing : list pystr;
  trace : list event
}.

Definition emit (e : event) : M state unit :=
  modify (fun s => mkState (num_removed s) (norm_text s) (existing s) (e :: trace s)).

Definition incr_num_removed : M state unit :=
  modify (fun s => mkState (S (num_removed s)) (norm_text s) (existing s) (trace s)).

Definition set_norm_text (t : pystr) : M state unit :=
  modify (fun s => mkState (num_removed s) (Some t) (existing s) (trace s)).

Definition open_w (path : pystr) : M state unit :=
  modify (fun s => mkState (num_removed s) (norm_text s) (path :: existing s)
                     (EvOpenW path :: trace s)).

Definition path_exists (path : pystr) : M state bool :=
  s <- get ;; ret (existsb (eqb path) (existing s)).

Definition initial_state (existing : list pystr) : state :=
  mkState 0 None existing [].

(** What the function calls but this file does not define.
    - [lower]: [str.lower], Unicode-aware in Python.
    - [normalize]: [Normalizer(lang="en", input_case="cased").normalize] with
      the keyword arguments of line 168; [None] when it raises.
    - [correct_wikihomograph_data], [read_wikihomograph_file]: from
      [nemo.collections.tts.torch.g2p_utils.data_utils]; the latter returns
      sentences, start/end indices, homographs and word ids.
    - [pdb_resume]: the operator's answer at the [pdb.set_trace()] breakpoint
      reached in the given file and row: [true] resumes the run, [false]
      quits the debugger, which raises [BdbQuit]. *)
Class NormalizeEnv : Type := {
  lower : pystr -> pystr;
  normalize : pystr -> option pystr;
  correct_wikihomograph_data : pystr -> Z -> Z -> pystr * Z * Z;
  read_wikihomograph_file :
    pystr -> list pystr * list (Z * Z) * list pystr * list json;
  pdb_resume : pystr -> nat -> bool
}.

Section Normalize.

Context {env : NormalizeEnv}.

Definition pdb_set_trace (file_name : pystr) (i : nat) : M state unit :=
  emit (EvPdbSetTrace file_name i) ;;
  if pdb_resume file_name i then ret tt else raise BdbQuit.

Definition homograph_of (file_name : pystr) : pystr :=
  replace file_name (py ".tsv") [].

Definition make_entry (norm_text homograph_span : pystr) (start end_ : Z)
  (word_id : json) : dict :=
  [ ("text_graphemes", JStr norm_text);
    ("norm_text_graphemes", JStr (replace norm_text replace_token homograph_span));
    ("start_end", JList [JInt start; JInt end_]);
    ("homograph_span", JStr homograph_span);
    ("word_id", word_id) ]%string.

(** The relocation of lines 152-156: when the span does not match and the
    homograph occurs exactly once in the lower-cased sentence, take that
    occurrence instead. *)
Definition relocate (sent homograph : pystr) (start end_ : Z)
  : M state (Z * Z * pystr) :=
  let homograph_span := slice sent start end_ in
  if negb (eqb (lower homograph_span) homograph)
     && Nat.eqb (count (lower sent) homograph) 1
  then
    match find (lower sent) homograph with
    | None => raise (ValueError (py "substring not found"))
    | Some idx =>
        let start := Z.of_nat idx in
        let end_ := (start + Z.of_nat (length homograph))%Z in
        let homograph_span := lower (slice sent start end_) in
        if eqb homograph (lower homograph_span)
        then ret (start, end_, homograph_span)
        else raise AssertionError
    end
  else ret (start, end_, homograph_span).

(** The [else] branch of lines 166-183: normalize the sentence with the
    span replaced by the placeholder, and write the entry. *)
Definition write_normalized (output_f : pystr) (word_ids : list json) (i : nat)
  (sent : pystr) (start end_ : Z) (homograph_span : pystr) : M state unit :=
  let sentence_to_normalize :=
    slice_to sent start ++ replace_token ++ slice_from sent end_ in
  match normalize sentence_to_normalize with
  | Some t => set_norm_text t
  | None => emit (EvPrintTNError sentence_to_normalize) ;; incr_num_removed
  end ;;
  s <- get ;;
  t <- read_local "norm_text" (norm_text s) ;;
  let t := post_process_normalization t in
  set_norm_text t ;;
  word_id <- getitem word_ids i ;;
  emit (EvWrite output_f (make_entry t homograph_span start end_ word_id)).

(** The body of the loop over [enumerate(sentences)], lines 145-183. *)
Definition process_row (file_name output_f : pystr)
  (start_end_indices : list (Z * Z)) (word_ids : list json)
  (i : nat) (sent : pystr) : M state unit :=
  '(start, end_) <- getitem start_end_indices i ;;
  let '(sent, start, end_) := correct_wikihomograph_data sent start end_ in
  let sent := pre_process sent in
  let homograph := homograph_of file_name in
  '(start, end_, homograph_span) <- relocate sent homograph start end_ ;;
  if negb (eqb (lower homograph_span) homograph) then
    pdb_set_trace file_name i ;;
    incr_num_removed
  else
    write_normalized output_f word_ids i sent start end_ homograph_span.

(** [output_f] of line 138, for the path [file] of a TSV file. *)
Definition output_path (output_dir file : pystr) : pystr :=
  output_dir ++ py "/" ++ replace (basename file) (py ".tsv") (py ".json").

(** The body of the loop over the globbed files, lines 137-183. *)
Definition process_file (output_dir : pystr) (file : pystr) : M state unit :=
  let file_name := basename file in
  let output_f := output_path output_dir file in
  present <- path_exists output_f ;;
  if present then ret tt
  else
    let '(sentences, start_end_indices, _, word_ids) := read_wikihomograph_file file in
    open_w output_f ;;
    for_enumerate sentences (process_row file_name output_f start_end_indices word_ids).

Definition BASE_DIR : pystr := py "/home/ebakhturina/g2p_scripts/".

Definition output_dir_of (subset post_fix data_folder : pystr) : pystr :=
  BASE_DIR ++ py "/WikipediaHomographData-master/" ++ data_folder ++ py "/"
    ++ subset ++ py "_" ++ post_fix.

(** [normalize_wikihomograph_data(subset, post_fix, data_folder)], with the
    result of the [glob] call as [files].  Creating the output directory and
    building the normalizer come first in the source and have no part in
    what follows. *)
Definition normalize_wikihomograph_data (subset post_fix data_folder : pystr)
  (files : list pystr) : M state unit :=
  let output_dir := output_dir_of subset post_fix data_folder in
  for_each files (process_file output_dir) ;;
  s <- get ;;
  emit (EvPrintSummary output_dir (num_removed s)).

(** *** What a run wrote *)

Definition writes_of (events : list event) : list (pystr * dict) :=
  flat_map (fun e => match e with EvWrite p d => [(p, d)] | _ => [] end) (rev events).

(** The lines written, with the file each went to, in the order written. *)
Definition written (s : state) : list (pystr * dict) := writes_of (trace s).

(** The sentences reported as normalization errors. *)
Definition tn_errors (s : state) : list pystr :=
  flat_map (fun e => match e with EvPrintTNError t => [t] | _ => [] end) (rev (trace s)).

(** Rows dropped according to the counter, plus lines written. *)
Definition accounted (s : state) : nat := num_removed s + length (written s).

(** Replacing the placeholder in [text_graphemes] by [homograph_span] gives
    [norm_text_graphemes]. *)
Definition roundtrip (entry : dict) : Prop :=
  exists text span norm,
    dict_get "text_graphemes" entry = Some (JStr text) /\
    dict_get "homograph_span" entry = Some (JStr span) /\
    dict_get "norm_text_graphemes" entry = Some (JStr norm) /\
    replace text replace_token span = norm.

(** The entry's [homograph_span], lower-cased, is the homograph the file is
    named after. *)
Definition span_matches (file_name : pystr) (entry : dict) : Prop :=
  exists span,
    dict_get "homograph_span" entry = Some (JStr span) /\
    lower span = homograph_of file_name.

(** The claim's words for the target homograph: the base name of the TSV
    file without its [.tsv] extension. *)
Definition without_tsv_extension (file_name : pystr) : pystr :=
  let n := length file_name - 4 in
  if eqb (skipn n file_name) (py ".tsv") then firstn n file_name else file_name.

(** [.tsv] occurs in the file name as its extension and nowhere else. *)
Definition tsv_only_as_extension (file_name : pystr) : Prop :=
  exists stem, file_name = stem ++ py ".tsv" /\ count stem (py ".tsv") = 0.

(** The entry's [homograph_span], lower-cased, is the file name without its
    extension. *)
Definition span_is_stem (file_name : pystr) (entry : dict) : Prop :=
  exists span,
    dict_get "homograph_span" entry = Some (JStr span) /\
    lower span = without_tsv_extension file_name.

Definition sentences_of (file : pystr) : list pystr :=
  let '(sentences, _, _, _) := read_wikihomograph_file file in sentences.

(** The number of rows a run reads: those of the files whose output file
    does not exist yet when their turn comes. *)
Fixpoint rows_read (output_dir : pystr) (files existing : list pystr) : nat :=
  match files with
  | [] => 0
  | file :: files' =>
      if existsb (eqb (output_path output_dir file)) existing
      then rows_read output_dir files' existing
      else length (sentences_of file)
           + rows_read output_dir files' (output_path output_dir file :: existing)
  end.

(** [k] rows are accounted for and the files at [paths] exist. *)
Definition accounts (k : nat) (paths : list pystr) (s : state) : Prop :=
  accounted s = k /\ existing s = paths.

(** Every line written so far satisfies [P]. *)
Definition writes_satisfy (P : pystr -> dict -> Prop) (s : state) : Prop :=
  forall p d, In (EvWrite p d) (trace s) -> P p d.

End Normalize.

(** *** [_prepare_wikihomograph_data] *)

(** The locals that outlive one loop iteration ([drop], [graphemes_]), the
    lines written to the manifest (latest first), and the closing report with
    [len(drop)], once printed. *)
Record prep_state : Type := mkPrep {
  drop : list pystr;
  graphemes_ : option pystr;
  manifest_out : list dict;
  reported : option nat
}.

(** [line["duration"] = 0.001]: the double nearest to one thousandth. *)
#[warnings="-inexact-float"]
Definition duration_value : float := 0.001%float.

Definition initial_prep_state : prep_state := mkPrep [] None [] None.

Definition manifest_lines (s : prep_state) : list dict := rev (manifest_out s).

Definition set_graphemes_ (g : pystr) : M prep_state unit :=
  modify (fun s => mkPrep (drop s) (Some g) (manifest_out s) (reported s)).

Definition drop_append (g : pystr) : M prep_state unit :=
  modify (fun s => mkPrep (drop s ++ [g]) (graphemes_ s) (manifest_out s) (reported s)).

Definition write_line (line : dict) : M prep_state unit :=
  modify (fun s => mkPrep (drop s) (graphemes_ s) (line :: manifest_out s) (reported s)).

Definition report_dropped : M prep_state unit :=
  modify (fun s => mkPrep (drop s) (graphemes_ s) (manifest_out s)
                     (Some (length (drop s)))).

(** What the function calls but this file does not define, all from
    [data_preparation_utils].
    - [wordid_to_nemo_cmu]: the dictionary [get_wordid_to_nemo_cmu] loads,
      from word id to IPA form, as its lookup.
    - [ipa_tok]: the tokenizer [setup_tokenizer] builds, applied to the
      graphemes and that dictionary; it returns phonemes and graphemes.
    - [is_valid], [post_process].
    - [read_manifest]: the lines of a normalized file, each parsed by
      [json.loads]. *)
Class PrepareEnv : Type := {
  wordid_to_nemo_cmu : pystr -> option pystr;
  ipa_tok : pystr -> pystr * pystr;
  is_valid : pystr -> bool;
  post_process : pystr -> pystr;
  read_manifest : pystr -> list json
}.

Section Prepare.

Context {env : PrepareEnv}.

(** [wordid_to_nemo_cmu[word_id]]: a list or an object is unhashable, any
    other key that is not in the dictionary is a [KeyError]. *)
Definition lookup_wordid (word_id : json) : M prep_state pystr :=
  match word_id with
  | JStr w =>
      match wordid_to_nemo_cmu w with
      | Some ipa => ret ipa
      | None => raise (KeyError word_id)
      end
  | JList _ | JObject _ => raise TypeError
  | _ => raise (KeyError word_id)
  end.

(** The body of the loop over the lines of a file, lines 202-221. *)
Definition prepare_line (line : json) : M prep_state unit :=
  match line with
  | JObject line =>
      graphemes <- dict_getitem line "text_graphemes" ;;
      graphemes <- as_str graphemes ;;
      let graphemes := remove_cjk graphemes in
      if negb (is_valid graphemes) then
        s <- get ;;
        g <- read_local "graphemes_" (graphemes_ s) ;;
        drop_append g
      else
        let '(ipa_, g_) := ipa_tok graphemes in
        set_graphemes_ g_ ;;
        span <- dict_getitem line "homograph_span" ;;
        span <- as_str span ;;
        let g_ := replace g_ replace_token span in
        set_graphemes_ g_ ;;
        word_id <- dict_getitem line "word_id" ;;
        heteronym_ipa <- lookup_wordid word_id ;;
        let ipa_ := replace ipa_ replace_token heteronym_ipa in
        let g_ := post_process g_ in
        set_graphemes_ g_ ;;
        let line := dict_set "text_graphemes" (JStr g_) line in
        let line := dict_set "text" (JStr (post_process ipa_)) line in
        let line := dict_set "duration" (JFloat duration_value) line in
        let line := dict_set "audio_filepath" (JStr (py "n/a")) line in
        write_line line
  | _ => raise TypeError
  end.

(** [_prepare_wikihomograph_data], with the result of the [glob] call as
    [files]; it returns the path of the manifest. *)
Definition _prepare_wikihomograph_data (output_dir split : pystr)
  (files : list pystr) : M prep_state pystr :=
  let manifest := output_dir ++ py "/" ++ split ++ py "_wikihomograph.json" in
  for_each files (fun file => for_each (read_manifest file) prepare_line) ;;
  report_dropped ;;
  ret manifest.

(** The fields of a manifest line, as they derive from the line [input] of a
    normalized file; [start_end] is as it is in [input], there or not. *)
Definition manifest_line_of (input out : dict) : Prop :=
  exists graphemes span word_id heteronym_ipa,
    dict_get "text_graphemes" input = Some (JStr graphemes) /\
    dict_get "homograph_span" input = Some (JStr span) /\
    dict_get "word_id" input = Some (JStr word_id) /\
    wordid_to_nemo_cmu word_id = Some heteronym_ipa /\
    dict_get "text_graphemes" out =
      Some (JStr (post_process
                    (replace (snd (ipa_tok (remove_cjk graphemes))) replace_token span))) /\
    dict_get "text" out =
      Some (JStr (post_process
                    (replace (fst (ipa_tok (remove_cjk graphemes))) replace_token
                       heteronym_ipa))) /\
    dict_get "homograph_span" out = Some (JStr span) /\
    dict_get "word_id" out = Some (JStr word_id) /\
    dict_get "start_end" out = dict_get "start_end" input /\
    dict_get "duration" out = Some (JFloat duration_value) /\
    dict_get "audio_filepath" out = Some (JStr (py "n/a")).

(** Every line of the manifest derives from one of the [inputs]. *)
Definition lines_derive_from (inputs : list json) (s : prep_state) : Prop :=
  Forall (fun out => exists input,
              In (JObject input) inputs /\ manifest_line_of input out)
    (manifest_out s).

(** The lines of the normalized files, in the order they are read. *)
Definition input_lines (files : list pystr) : list json :=
  flat_map read_manifest files.

(** A line of a normalized file that carries the field [start_end], as the
    entries of [normalize_wikihomograph_data] do. *)
Definition has_start_end (line : json) : Prop :=
  match line with
  | JObject d => dict_mem "start_end" d = true
  | _ => True
  end.

End Prepare.

End PrepareWikiData.

(* ================================================================== *)
(** ** [prepare_wiki_data.py]: what the properties below speak of *)
(* ================================================================== *)

Module PrepareWikiDataMore.

Import PrepareWikiData.

(** [c not in s] *)
Definition lacks (c : char) (s : pystr) : bool :=
  forallb (fun x => negb (char_eqb x c)) s.

(** One step of the chain of [post_process_normalization]. *)
Definition replace_pair (t : pystr) (p : pystr * pystr) : pystr :=
  replace t (fst p) (snd p).

(** A chain of replacements gets rid of [c] for good when one of them
    replaces [c] alone and neither it nor a later one writes [c]. *)
Fixpoint eliminates (c : char) (chain : list (pystr * pystr)) : bool :=
  match chain with
  | [] => false
  | (old, new) :: rest =>
      (eqb old [c] && lacks c new && forallb (fun p => lacks c (snd p)) rest)
      || eliminates c rest
  end.

(** Subscript digits, the superscript three, Greek letters and dashes that
    [post_process_normalization] spells out. *)
Definition spelled_out : pystr := py "₀₁₂₃₄₅₆₇³σαγκπβςᵢ–—".

Definition not_cjk (c : char) : bool := negb (is_cjk c).

(** The files opened for writing, latest first. *)
Definition opened_of (events : list event) : list pystr :=
  flat_map (fun e => match e with EvOpenW p => [p] | _ => [] end) events.

Definition opened (s : state) : list pystr := opened_of (trace s).

(** The output directory as a run keeps it: the paths that exist are those
    the run opened and those that were there before, no path was opened
    twice or was there before, and every line went to a file the run
    opened. *)
Definition fresh_outputs (existing0 : list pystr) (s : state) : Prop :=
  existing s = opened s ++ existing0 /\
  NoDup (opened s) /\
  (forall p, In p (opened s) -> ~ In p existing0) /\
  (forall p d, In (EvWrite p d) (trace s) -> In p (opened s)).

(** The files opened and the paths that exist are as given. *)
Definition same_outputs (paths existing : list pystr) (s : state) : Prop :=
  opened s = paths /\ PrepareWikiData.existing s = existing.

Section NormalizeMore.

Context {env : NormalizeEnv}.

(** The breakpoints after which the operator resumed the run. *)
Definition resumed_breakpoints (s : state) : list (pystr * nat) :=
  flat_map (fun e => match e with
                     | EvPdbSetTrace f i => if pdb_resume f i then [(f, i)] else []
                     | _ => []
                     end)
    (trace s).

(** The counter stands at the normalization errors reported plus the
    breakpoints resumed. *)
Definition counter_explained (s : state) : Prop :=
  num_removed s = length (tn_errors s) + length (resumed_breakpoints s).

(** Lower-casing goes with slicing on the sentence [sent]: a slice of the
    sentence, lower-cased, is that slice of the lower-cased sentence.  It is
    a property of the sentence: Python's [lower] has it on a sentence whose
    characters lower-case one by one, each to one character, and not on one
    with a capital I with a dot above, which lower-cases to two. *)
Definition lower_goes_with_slicing (sent : pystr) : Prop :=
  forall a b, lower (slice sent a b) = slice (lower sent) a b.

End NormalizeMore.

(** [k] lines were written to the manifest or put on [drop]. *)
Definition handled (k : nat) (s : prep_state) : Prop :=
  length (manifest_out s) + length (drop s) = k.

(** [g] is the [text_graphemes] of a line of the manifest. *)
Definition is_written_text (s : prep_state) (g : pystr) : Prop :=
  exists line, In line (manifest_out s) /\
               dict_get "text_graphemes" line = Some (JStr g).

(** What is on [drop], and what [graphemes_] holds between two lines, is
    text of lines of the manifest. *)
Definition drop_is_written_text (s : prep_state) : Prop :=
  Forall (is_written_text s) (drop s) /\
  (forall g, graphemes_ s = Some g -> is_written_text s g).

(** Only what is on [drop] is still known to be text of the manifest: a
    valid line is being processed and [graphemes_] is in the making. *)
Definition drop_only (s : prep_state) : Prop := Forall (is_written_text s) (drop s).

End PrepareWikiDataMore.

(* ================================================================== *)
(** ** [nemo_text_processing/g2p/models/g2p_ctc.py] *)
(* ================================================================== *)

Module G2PCTC.

Inductive device : Type := cuda | cpu.

(** The [nn.Module] side of a [CTCG2PModel]: the [training] flag and
    everything else the module holds (weights, sub-modules, placement). *)
Record module (net : Type) : Type := mkModule {
  training : bool;
  rest : net
}.

Arguments mkModule {net} training rest.
Arguments training {net} m.
Arguments rest {net} m.

(** What [logging] receives. *)
Inductive log_event : Type :=
| LogErrorTargetFieldMissing (target_field : string) (manifest_filepath : pystr)
| LogInfoOverallPER (per : float)
| LogDebugSaved (output_manifest_filepath : pystr).

(** The model, the files (a path and the JSON objects of its lines, latest
    binding first) and the log (latest first). *)
Record state (net : Type) : Type := mkState {
  model : module net;
  fs : list (pystr * list dict);
  log : list log_event
}.

Arguments mkState {net} model fs log.
Arguments model {net} s.
Arguments fs {net} s.
Arguments log {net} s.

Fixpoint fs_lookup (files : list (pystr * list dict)) (path : pystr)
  : option (list dict) :=
  match files with
  | [] => None
  | (p, lines) :: files' => if eqb path p then Some lines else fs_lookup files' path
  end.

(** What the two methods call but this file does not define.  Calls on the
    model may change the module in any way and may raise.
    - [cuda_is_available]: [torch.cuda.is_available()].
    - [train_children]: what [nn.Module.train(mode)] does below the module
      itself, where it sets [training] on every sub-module.
    - [module_to]: [self.to(device)].
    - [make_batches]: the batches of the data loader that
      [_setup_infer_dataloader] builds over the manifest, whose content is
      given ([None] when there is no such file).
    - [forward]: [self.forward] on a batch moved to the device.
    - [ctc_decoder_predictions_tensor]: the strings decoded from its output.
    - [word_error_rate]: [None] when it raises. *)
Class InferEnv : Type := {
  net : Type;
  batch : Type;
  log_probs : Type;
  cuda_is_available : bool;
  train_children : bool -> net -> net;
  module_to : device -> M (module net) unit;
  make_batches : option (list dict) -> nat -> nat -> M (module net) (list batch);
  forward : batch -> device -> M (module net) log_probs;
  ctc_decoder_predictions_tensor : log_probs -> M (module net) (list pystr);
  word_error_rate : list pystr -> list json -> option float
}.

Section Infer.

Context {env : InferEnv}.

(** A call on the model, run on the model of the state. *)
Definition on_model {A} (m : M (module net) A) : M (state net) A :=
  fun s =>
    match m (model s) with
    | (r, mdl) => (r, mkState mdl (fs s) (log s))
    end.

(** [self.train(mode)] of [nn.Module], for a boolean [mode]. *)
Definition train (mode : bool) : M (state net) unit :=
  on_model (modify (fun mdl => mkModule mode (train_children mode (rest mdl)))).

(** [self.eval()] is [self.train(False)]. *)
Definition eval : M (state net) unit := train false.

(** The loop over the batches of [_infer], lines 345-360, with the
    predictions gathered so far. *)
Fixpoint infer_batches (dev : device) (batches : list batch) (all_preds : list pystr)
  : M (state net) (list pystr) :=
  match batches with
  | [] => ret all_preds
  | b :: batches' =>
      lp <- on_model (forward b dev) ;;
      preds_str <- on_model (ctc_decoder_predictions_tensor lp) ;;
      infer_batches dev batches' (all_preds ++ preds_str)
  end.

(** [CTCG2PModel._infer] *)
Definition _infer (manifest_filepath : pystr) (batch_size num_workers : nat)
  : M (state net) (list pystr) :=
  s <- get ;;
  let mode := training (model s) in
  try_finally
    (let dev := if cuda_is_available then cuda else cpu in
     eval ;;
     on_model (module_to dev) ;;
     infer_datalayer <-
       on_model (make_batches (fs_lookup (fs s) manifest_filepath) batch_size num_workers) ;;
     infer_batches dev infer_datalayer [])
    (train mode).

Definition emit_log (e : log_event) : M (state net) unit :=
  modify (fun s => mkState (model s) (fs s) (e :: log s)).

(** [open(path, "r")]: the file has to exist. *)
Definition open_r (path : pystr) : M (state net) unit :=
  s <- get ;;
  match fs_lookup (fs s) path with
  | Some _ => ret tt
  | None => raise (ExternalError (py "FileNotFoundError"))
  end.

(** [open(path, "w")]: the file is created or truncated. *)
Definition open_w (path : pystr) : M (state net) unit :=
  modify (fun s => mkState (model s) ((path, []) :: fs s) (log s)).

(** What iterating over the file opened for reading yields. *)
Definition read_lines (path : pystr) : M (state net) (list dict) :=
  s <- get ;;
  match fs_lookup (fs s) path with
  | Some lines => ret lines
  | None => ret []
  end.

(** [f_out.write(json.dumps(line, ensure_ascii=False) + "\n")] *)
Definition write_line (path : pystr) (line : dict) : M (state net) unit :=
  modify (fun s =>
            let lines := match fs_lookup (fs s) path with
                         | Some lines => lines
                         | None => []
                         end in
            mkState (model s) ((path, lines ++ [line]) :: fs s) (log s)).

Definition getitem_json (d : dict) (k : string) : M (state net) json :=
  dict_getitem d k.

(** The body of the loop over the lines, lines 390-405; it returns
    [all_targets]. *)
Definition convert_line (manifest_filepath output_manifest_filepath : pystr)
  (target_field : option string) (all_preds : list pystr)
  (all_targets : list json) (i : nat) (line : dict)
  : M (state net) (list json) :=
  '(line, all_targets) <-
    match target_field with
    | None => ret (line, all_targets)
    | Some tf =>
        if negb (dict_mem tf line) then
          (if Nat.eqb i 0
           then emit_log (LogErrorTargetFieldMissing tf manifest_filepath)
           else ret tt) ;;
          ret (line, all_targets)
        else
          text <- getitem_json line "text" ;;
          let line := dict_set "graphemes" text line in
          target <- getitem_json line tf ;;
          let line := dict_set "text" target line in
          pred <- getitem all_preds i ;;
          target <- getitem_json line tf ;;
          match word_error_rate [pred] [target] with
          | None => raise (ExternalError (py "word_error_rate"))
          | Some per =>
              let line := dict_set "PER" (JFloat per) line in
              target <- getitem_json line tf ;;
              ret (line, all_targets ++ [target])
          end
    end ;;
  pred <- getitem all_preds i ;;
  let line := dict_set "pred_text" (JStr pred) line in
  write_line output_manifest_filepath line ;;
  ret all_targets.

Fixpoint convert_lines (manifest_filepath output_manifest_filepath : pystr)
  (target_field : option string) (all_preds : list pystr)
  (all_targets : list json) (i : nat) (lines : list dict)
  : M (state net) (list json) :=
  match lines with
  | [] => ret all_targets
  | line :: lines' =>
      all_targets <- convert_line manifest_filepath output_manifest_filepath
                       target_field all_preds all_targets i line ;;
      convert_lines manifest_filepath output_manifest_filepath target_field
        all_preds all_targets (S i) lines'
  end.

(** [CTCG2PModel.convert_graphemes_to_phonemes] *)
Definition convert_graphemes_to_phonemes
  (manifest_filepath output_manifest_filepath : pystr)
  (batch_size num_workers : nat) (target_field : option string)
  : M (state net) (list pystr) :=
  all_preds <- _infer manifest_filepath batch_size num_workers ;;
  open_r manifest_filepath ;;
  open_w output_manifest_filepath ;;
  lines <- read_lines manifest_filepath ;;
  all_targets <- convert_lines manifest_filepath output_manifest_filepath
                   target_field all_preds [] 0 lines ;;
  match target_field with
  | None => ret tt
  | Some _ =>
      match word_error_rate all_preds all_targets with
      | None => raise (ExternalError (py "word_error_rate"))
      | Some per => emit_log (LogInfoOverallPER per)
      end
  end ;;
  emit_log (LogDebugSaved output_manifest_filepath) ;;
  ret all_preds.

(** The files and the log are as given. *)
Definition same_files (files : list (pystr * list dict)) (l : list log_event)
  (s : state net) : Prop :=
  fs s = files /\ log s = l.

(** The line of the output manifest for an input line and its prediction:
    the input object with [pred_text] set. *)
Definition with_pred_text (line : dict) (pred : pystr) : dict :=
  dict_set "pred_text" (JStr pred) line.

(** One output line per input line, in order, each with the prediction of
    the same index. *)
Fixpoint expected_output (lines : list dict) (all_preds : list pystr) : list dict :=
  match lines, all_preds with
  | line :: lines', pred :: preds' => with_pred_text line pred :: expected_output lines' preds'
  | _, _ => []
  end.

End Infer.

End G2PCTC.

(* ================================================================== *)
(** ** [g2p_ctc.py]: the character vocabulary, and what the properties
    below speak of *)
(* ================================================================== *)

Module G2PCTCMore.

Import G2PCTC.

(** How often the missing target field was reported. *)
Definition target_missing_errors (l : list log_event) : nat :=
  length (filter (fun e => match e with
                           | LogErrorTargetFieldMissing _ _ => true
                           | _ => false
                           end) l).

(** The model is in the given mode. *)
Definition in_mode {net : Type} (mode : bool) (s : state net) : Prop :=
  training (model s) = mode.

(** *** [setup_grapheme_tokenizer], in a mode other than [byt5] *)

(** [string.ascii_lowercase], [string.ascii_uppercase] and
    [string.punctuation] of the standard library. *)
Definition ascii_lowercase : pystr := py "abcdefghijklmnopqrstuvwxyz".
Definition ascii_uppercase : pystr := py "ABCDEFGHIJKLMNOPQRSTUVWXYZ".
Definition punctuation : pystr :=
  py "!" ++ [dquote] ++ py "#$%&'()*+,-./:;<=>?@[" ++ [92%N] ++ py "]^_`{|}~".

(** The fields of [cfg.tokenizer_grapheme] that the method reads. *)
Record tokenizer_grapheme : Type := mkTokenizerGrapheme {
  unk_token : option pystr;
  do_lower : bool;
  add_punctuation : bool
}.

(** [chars] of lines 127-135. *)
Definition grapheme_chars (cfg : tokenizer_grapheme) : pystr :=
  let grapheme_unk_token := match unk_token cfg with Some u => u | None => [] end in
  let chars := ascii_lowercase ++ grapheme_unk_token ++ py " " ++ py "'" in
  let chars := if negb (do_lower cfg) then chars ++ ascii_uppercase else chars in
  if add_punctuation cfg then
    let punctuation_marks :=
      replace (replace (replace punctuation [dquote] []) [92%N] []) (py "'") [] in
    chars ++ punctuation_marks
  else chars.

(** What lines 138-140 write to the vocabulary file, one string per call of
    [f.write]: every character between double quotes, then the double quote
    itself, escaped. *)
Definition char_vocab_lines (cfg : tokenizer_grapheme) : list pystr :=
  map (fun ch => [dquote; ch; dquote; 10%N]) (grapheme_chars cfg)
  ++ [[dquote; 92%N; dquote; dquote; 10%N]].

(** All the characters the vocabulary can hold besides the unknown token. *)
Definition base_chars : pystr :=
  ascii_lowercase ++ py " " ++ py "'" ++ ascii_uppercase ++ punctuation.

(** There is no unknown token, or it is one character that the vocabulary
    does not hold anyway and that does not break a line: neither a line feed
    nor a carriage return, which a reader of the file takes for the end of a
    line too. *)
Definition unk_is_one_new_char (cfg : tokenizer_grapheme) : Prop :=
  match unk_token cfg with
  | None => True
  | Some u => exists c, u = [c] /\ ~ In c base_chars /\ c <> 10%N /\ c <> 13%N
  end.

(** The text of the vocabulary file: what the calls of [f.write] wrote, one
    after the other. *)
Definition char_vocab_text (cfg : tokenizer_grapheme) : pystr :=
  concat (char_vocab_lines cfg).

(** The lines of a text, each up to its line feed and with it; what follows
    the last line feed is a line when it is not empty.  [cur] is the line
    read so far, latest character first. *)
Fixpoint lines_from (text cur : pystr) : list pystr :=
  match text with
  | [] => match cur with [] => [] | _ :: _ => [rev cur] end
  | c :: text' =>
      if N.eqb c 10 then rev (c :: cur) :: lines_from text' []
      else lines_from text' (c :: cur)
  end.

Definition file_lines (text : pystr) : list pystr := lines_from text [].

(** What follows the unknown token in [chars]. *)
Definition chars_after_unk (cfg : tokenizer_grapheme) : pystr :=
  py " " ++ py "'"
  ++ (if do_lower cfg then [] else ascii_uppercase)
  ++ (if add_punctuation cfg
      then replace (replace (replace punctuation [dquote] []) [92%N] []) (py "'") []
      else []).

Fixpoint distinct (s : pystr) : bool :=
  match s with
  | [] => true
  | c :: s' => negb (existsb (N.eqb c) s') && distinct s'
  end.

End G2PCTCMore.

(* ================================================================== *)
(** ** [nemo/collections/tts/models/fastpitch_adversarial.py] *)
(* ================================================================== *)

Module FastPitchAdversarial.

Inductive fill : Type := Ones | Zeros.

(** [torch.ones(rows, cols).type_as(like)] and
    [torch.zeros(rows, cols).type_as(like)]: a tensor of the given shape whose
    entries all are one, or all are zero, with the type of [like]. *)
Record label_tensor (tensor : Type) : Type := mkLabel {
  entries : fill;
  shape : nat * nat;
  typed_as : tensor
}.

Arguments mkLabel {tensor} entries shape typed_as.
Arguments entries {tensor} l.
Arguments shape {tensor} l.
Arguments typed_as {tensor} l.

(** The part of torch the method uses.  A call returns or raises, and what
    it raises is torch's own business: a [RuntimeError] (an [ExternalError]
    here), an [IndexError], and also a [ValueError], as
    [binary_cross_entropy] does for a target whose size is not the size of
    the input.
    - [vstack]: [torch.vstack] of a list of tensors.
    - [size0]: [pred.size(0)].
    - [binary_cross_entropy]: [torch.nn.functional.binary_cross_entropy]. *)
Class TorchEnv : Type := {
  tensor : Type;
  loss : Type;
  vstack : list tensor -> result tensor;
  size0 : tensor -> result nat;
  binary_cross_entropy : tensor -> label_tensor tensor -> result loss
}.

(** The argument [pred]: a list of tensors or a tensor. *)
Inductive pred_arg (tensor : Type) : Type :=
| PredList (l : list tensor)
| PredTensor (t : tensor).

Arguments PredList {tensor} l.
Arguments PredTensor {tensor} t.

(** [str(n)] for an [int]. *)
Definition str_of_int (n : Z) : pystr :=
  py (DecimalString.NilZero.string_of_int (Z.to_int n)).

Definition labels_error_message (labels : Z) : pystr :=
  py "labels can take value either 0 or 1 but got " ++ str_of_int labels.

Section AdversarialLoss.

Context {env : TorchEnv}.

(** A call of torch: its outcome, value or exception, as it is. *)
Definition torch_call {A} (r : result A) : M unit A := fun u => (r, u).

(** Lines 312-313: a list of predictions is stacked first. *)
Definition stacked (pred : pred_arg tensor) : result tensor :=
  match pred with
  | PredList l => vstack l
  | PredTensor t => Ok t
  end.

(** [FastPitchAdversarialModel.adversarial_loss] *)
Definition adversarial_loss (pred : pred_arg tensor) (labels : Z) : M unit loss :=
  pred <- torch_call (stacked pred) ;;
  label_tensor <-
    (if (labels =? 1)%Z then
       n <- torch_call (size0 pred) ;;
       ret (mkLabel Ones (n, 1) pred)
     else if (labels =? 0)%Z then
       n <- torch_call (size0 pred) ;;
       ret (mkLabel Zeros (n, 1) pred)
     else
       raise (ValueError (labels_error_message labels))) ;;
  torch_call (binary_cross_entropy pred label_tensor).

(** The loss of the predictions [pred] against a label tensor of shape
    (number of predictions, 1) filled as [f] says. *)
Definition compare_against (pred : tensor) (f : fill) : M unit loss :=
  n <- torch_call (size0 pred) ;;
  torch_call (binary_cross_entropy pred (mkLabel f (n, 1) pred)).

Definition raises_ValueError {A} (r : result A) : Prop :=
  exists msg, r = Raise (ValueError msg).

End AdversarialLoss.

End FastPitchAdversarial.

(* ================================================================== *)
(** ** [fastpitch_adversarial.py]: the random splices and the
    TensorBoard logger *)
(* ================================================================== *)

Module FastPitchMore.

(** *** The splices of [training_step] and [validation_step] *)

Section Splices.

(** The entries of a spectrogram. *)
Variable X : Type.

(** A spectrogram of shape (channels, frames): [n_frames] is [m.size(1)]. *)
Record mel : Type := mkMel {
  n_frames : nat;
  rows : list (list X)
}.

Definition well_shaped (m : mel) : Prop :=
  Forall (fun r => length r = n_frames m) (rows m).

(** [r[a:b]] for a row. *)
Definition slice_row (r : list X) (a b : Z) : list X :=
  let lo := slice_bound (length r) a in
  let hi := slice_bound (length r) b in
  firstn (hi - lo) (skipn lo r).

(** [m[:, a:b]] *)
Definition slice_frames (m : mel) (a b : Z) : mel :=
  let lo := slice_bound (n_frames m) a in
  let hi := slice_bound (n_frames m) b in
  mkMel (hi - lo) (map (fun r => slice_row r a b) (rows m)).

(** The numbers that [np.random] draws, in the order they are asked for;
    the state is how many were drawn. *)
Variable tape : nat -> Z.

(** [np.random.randint(low=0, high=high)]: a number from 0 up to, and not
    including, [high]; [ValueError] when there is no such number. *)
Definition randint (high : Z) : M nat Z :=
  if (high <=? 0)%Z then raise (ValueError (py "low >= high"))
  else
    k <- get ;;
    modify S ;;
    ret (tape k mod high)%Z.

(** The loop of lines 355-357 (and 360-362, 396-398, 513-515): a random
    window of [splice_length] frames out of every spectrogram. *)
Fixpoint random_splices (splice_length : Z) (mels : list mel) : M nat (list mel) :=
  match mels with
  | [] => ret []
  | m :: mels' =>
      start <- randint (Z.of_nat (n_frames m) - splice_length) ;;
      let p := slice_frames m start (start + splice_length) in
      preds <- random_splices splice_length mels' ;;
      ret (p :: preds)
  end.

End Splices.

Arguments mkMel {X} n_frames rows.
Arguments n_frames {X} m.
Arguments rows {X} m.
Arguments well_shaped {X} m.
Arguments slice_frames {X} m a b.
Arguments random_splices {X} tape splice_length mels.

(** *** The property [tb_logger] *)

Section TbLogger.

(** What a logger's [experiment] is. *)
Variable experiment_t : Type.

(** A logger of the trainer, with its [experiment] ([None] for Python's
    [None]): a TensorBoardLogger or a logger of another class. *)
Inductive member_logger : Type :=
| TensorBoardLogger (experiment : option experiment_t)
| OtherLogger (experiment : option experiment_t).

(** [self.logger]: one logger, or a LoggerCollection with its own
    [experiment] and the loggers it iterates over. *)
Inductive logger : Type :=
| Single (l : member_logger)
| LoggerCollection (experiment : option experiment_t) (members : list member_logger).

Definition member_experiment (l : member_logger) : option experiment_t :=
  match l with
  | TensorBoardLogger e => e
  | OtherLogger e => e
  end.

Definition logger_experiment (l : logger) : option experiment_t :=
  match l with
  | Single m => member_experiment m
  | LoggerCollection e _ => e
  end.

(** The loop of lines 180-183: the experiment of the first
    TensorBoardLogger, [tb_logger] when there is none. *)
Fixpoint first_tensorboard (members : list member_logger)
  (tb_logger : option experiment_t) : option experiment_t :=
  match members with
  | [] => tb_logger
  | TensorBoardLogger e :: _ => e
  | OtherLogger _ :: members' => first_tensorboard members' tb_logger
  end.

(** [self.logger], which the property reads and does not change. *)
Variable the_logger : option logger.

(** The property [tb_logger]; the state is [self._tb_logger].  With no
    logger, the second operand of the [and] of line 176 reads [experiment]
    off [None]. *)
Definition tb_logger : M (option experiment_t) (option experiment_t) :=
  cached <- get ;;
  match cached with
  | Some _ => ret cached
  | None =>
      match the_logger with
      | None => raise (ExternalError (py "AttributeError"))
      | Some lg =>
          let tb := logger_experiment lg in
          let tb := match lg with
                    | LoggerCollection _ members => first_tensorboard members tb
                    | Single _ => tb
                    end in
          modify (fun _ => tb) ;;
          s <- get ;;
          ret s
      end
  end.

End TbLogger.

Arguments TensorBoardLogger {experiment_t} experiment.
Arguments OtherLogger {experiment_t} experiment.
Arguments Single {experiment_t} l.
Arguments LoggerCollection {experiment_t} experiment members.
Arguments tb_logger {experiment_t} the_logger.
Arguments first_tensorboard {experiment_t} members tb_logger.
Arguments logger_experiment {experiment_t} l.
Arguments member_experiment {experiment_t} l.

End FastPitchMore.

(* ================================================================== *)
(** ** Concrete inputs *)
(* ================================================================== *)

Module Scenarios.

(** *** The homograph [bass]

    One TSV file, [bass.tsv], read as the given rows.  Lower-casing is the
    ASCII one, index correction changes nothing, and the normalizer raises on
    a sentence with a section sign and returns any other sentence as it is. *)

Definition tsv_rows : Type := list pystr * list (Z * Z) * list pystr * list json.

Definition wiki_env (rows : tsv_rows) (resume : bool) : PrepareWikiData.NormalizeEnv := {|
  PrepareWikiData.lower := ascii_lower;
  PrepareWikiData.normalize := fun s =>
    if Nat.ltb 0 (count s (py "§")) then None else Some s;
  PrepareWikiData.correct_wikihomograph_data := fun sent start end_ => (sent, start, end_);
  PrepareWikiData.read_wikihomograph_file := fun _ => rows;
  PrepareWikiData.pdb_resume := fun _ _ => resume
|}.

Definition bass_tsv : pystr := py "in/bass.tsv".

(** The output file of [bass.tsv] for the subset [train], the suffix [norm]
    and the data folder [data]. *)
Definition bass_json : pystr :=
  py "/home/ebakhturina/g2p_scripts//WikipediaHomographData-master/data/train_norm/bass.json".

Definition run_normalize (rows : tsv_rows) (resume : bool)
  : result unit * PrepareWikiData.state :=
  PrepareWikiData.normalize_wikihomograph_data (env := wiki_env rows resume)
    (py "train") (py "norm") (py "data") [bass_tsv]
    (PrepareWikiData.initial_state []).

(** Two well-aligned rows; the normalizer raises on the second. *)
Definition rows_second_fails : tsv_rows :=
  ([py "He plays bass well"; py "The § bass swam"],
   [(9, 13); (6, 10)]%Z,
   [py "bass"; py "bass"],
   [JStr (py "bass_1"); JStr (py "bass_2")]).

(** The same rows in the other order: the normalizer raises on the first. *)
Definition rows_first_fails : tsv_rows :=
  ([py "The § bass swam"; py "He plays bass well"],
   [(6, 10); (9, 13)]%Z,
   [py "bass"; py "bass"],
   [JStr (py "bass_2"); JStr (py "bass_1")]).

(** A row whose indices are wrong and whose sentence has the homograph
    twice, followed by a well-aligned row. *)
Definition rows_first_misaligned : tsv_rows :=
  ([py "Bass and bass"; py "He plays bass well"],
   [(0, 3); (9, 13)]%Z,
   [py "bass"; py "bass"],
   [JStr (py "bass_2"); JStr (py "bass_1")]).

(** Two well-aligned rows that the normalizer accepts; the second needs its
    span relocated. *)
Definition rows_all_fine : tsv_rows :=
  ([py "He plays bass well"; py "A Bass swam"],
   [(9, 13); (0, 1)]%Z,
   [py "bass"; py "bass"],
   [JStr (py "bass_1"); JStr (py "bass_2")]).

(** *** The second stage on normalized lines

    The tokenizer spells graphemes as they are and writes every [a] of the
    phonemes as [æ]; a line is valid unless it has an at sign; post-processing
    strips nothing. *)
Definition prep_env (lines : list json) : PrepareWikiData.PrepareEnv := {|
  PrepareWikiData.wordid_to_nemo_cmu := fun w =>
    if eqb w (py "bass_1") then Some (py "ˈbeɪs")
    else if eqb w (py "bass_2") then Some (py "ˈbæs")
    else None;
  PrepareWikiData.ipa_tok := fun g => (replace g (py "a") (py "æ"), g);
  PrepareWikiData.is_valid := fun g => Nat.eqb (count g (py "@")) 0;
  PrepareWikiData.post_process := fun s => s;
  PrepareWikiData.read_manifest := fun _ => lines
|}.

Definition run_prepare (lines : list json)
  : result pystr * PrepareWikiData.prep_state :=
  PrepareWikiData._prepare_wikihomograph_data (env := prep_env lines)
    (py "TMP") (py "eval") [bass_json] PrepareWikiData.initial_prep_state.

(** The lines the first stage writes for [rows_all_fine]. *)
Definition normalized_lines : list json :=
  map (fun pd => JObject (snd pd))
    (PrepareWikiData.written (snd (run_normalize rows_all_fine true))).

(** A line that fails the validity check, followed by a valid one. *)
Definition lines_first_invalid : list json :=
  [ JObject (PrepareWikiData.make_entry (py "mail me@[] now") (py "bass") 8 12
               (JStr (py "bass_1")));
    JObject (PrepareWikiData.make_entry (py "He plays [] well") (py "bass") 9 13
               (JStr (py "bass_1"))) ].

(** A TSV file whose name has [.tsv] twice. *)
Definition bass_tsv_tsv : pystr := py "in/bass.tsv.tsv".

(** A line of a normalized file without the field [start_end]. *)
Definition lines_without_start_end : list json :=
  [ JObject [ ("text_graphemes", JStr (py "He plays [] well"));
              ("homograph_span", JStr (py "bass"));
              ("word_id", JStr (py "bass_1")) ]%string ].

(** A lower-casing that, as Python's does, takes the capital I with a dot
    above (U+0130) to two code points, and every other character to one. *)
Definition dotted_lower (s : pystr) : pystr :=
  flat_map (fun c => if N.eqb c 304 then [105; 775]%N else [ascii_lower_char c]) s.

Definition dotted_env : PrepareWikiData.NormalizeEnv := {|
  PrepareWikiData.lower := dotted_lower;
  PrepareWikiData.normalize := fun s => Some s;
  PrepareWikiData.correct_wikihomograph_data := fun sent start end_ => (sent, start, end_);
  PrepareWikiData.read_wikihomograph_file := fun _ => ([], [], [], []);
  PrepareWikiData.pdb_resume := fun _ _ => true
|}.

(** Torch as far as shapes go: a tensor is its shape, and a loss records
    which label tensor the predictions were compared against.
    - [torch.vstack] needs at least one tensor, takes each to two dimensions
      at least, needs all of them to agree on every dimension but the first,
      and adds the first dimensions up; otherwise [RuntimeError].
    - [size(0)] of a tensor without dimensions is an [IndexError].
    - [binary_cross_entropy] raises [ValueError] when the size of the target
      is not the size of the input. *)
Definition atleast_2d (s : list nat) : list nat :=
  match s with
  | [] => [1; 1]
  | [n] => [1; n]
  | _ => s
  end.

Definition vstack_shapes (l : list (list nat)) : result (list nat) :=
  match map atleast_2d l with
  | (n :: rest) :: l' =>
      if forallb (fun s => if list_eq_dec Nat.eq_dec (tl s) rest then true else false) l'
      then Ok (fold_left (fun acc s => acc + hd 0 s) l' n :: rest)
      else Raise (ExternalError (py "RuntimeError"))
  | _ => Raise (ExternalError (py "RuntimeError"))
  end.

(** [str(t.size())] *)
Definition str_of_size (s : list nat) : pystr :=
  py "torch.Size(["
  ++ concat (match map (fun n => FastPitchAdversarial.str_of_int (Z.of_nat n)) s with
             | [] => []
             | d :: ds => d :: map (fun x => py ", " ++ x) ds
             end)
  ++ py "])".

Definition size_mismatch_message (target input : list nat) : pystr :=
  py "Using a target size (" ++ str_of_size target
  ++ py ") that is different to the input size (" ++ str_of_size input
  ++ py ") is deprecated. Please ensure they have the same size.".

Definition shape_torch : FastPitchAdversarial.TorchEnv := {|
  FastPitchAdversarial.tensor := list nat;
  FastPitchAdversarial.loss := FastPitchAdversarial.fill;
  FastPitchAdversarial.vstack := vstack_shapes;
  FastPitchAdversarial.size0 := fun t =>
    match t with
    | [] => Raise IndexError
    | n :: _ => Ok n
    end;
  FastPitchAdversarial.binary_cross_entropy := fun input target =>
    let target_size := [fst (FastPitchAdversarial.shape target);
                        snd (FastPitchAdversarial.shape target)] in
    if list_eq_dec Nat.eq_dec target_size input
    then Ok (FastPitchAdversarial.entries target)
    else Raise (ValueError (size_mismatch_message target_size input))
|}.

(** A toy G2P model: one batch per manifest line, and the prediction for a
    line is its [text_graphemes] read backwards.  With [healthy] false the
    forward pass raises. *)
Definition graphemes_of (line : dict) : pystr :=
  match dict_get "text_graphemes" line with
  | Some (JStr g) => g
  | _ => []
  end.

Definition toy_g2p (healthy : bool) : G2PCTC.InferEnv := {|
  G2PCTC.net := unit;
  G2PCTC.batch := dict;
  G2PCTC.log_probs := pystr;
  G2PCTC.cuda_is_available := false;
  G2PCTC.train_children := fun _ n => n;
  G2PCTC.module_to := fun _ => ret tt;
  G2PCTC.make_batches := fun content _ _ =>
    match content with
    | Some lines => ret lines
    | None => raise (ExternalError (py "FileNotFoundError"))
    end;
  G2PCTC.forward := fun b _ =>
    if healthy then ret (graphemes_of b) else raise (ExternalError (py "forward"));
  G2PCTC.ctc_decoder_predictions_tensor := fun lp => ret [rev lp];
  G2PCTC.word_error_rate := fun _ _ => Some 0%float
|}.

Definition in_manifest : pystr := py "in.json".
Definition out_manifest : pystr := py "out.json".

Definition g2p_lines : list dict :=
  [ [("text_graphemes", JStr (py "abc")); ("text", JStr (py "x")); ("phonemes", JStr (py "ph1"))];
    [("text_graphemes", JStr (py "de")); ("text", JStr (py "y")); ("phonemes", JStr (py "ph2"))]
  ]%string.

Definition g2p_state (is_training : bool) : G2PCTC.state unit :=
  G2PCTC.mkState (G2PCTC.mkModule is_training tt) [(in_manifest, g2p_lines)] [].

(** A valid line followed by one that fails the validity check. *)
Definition lines_second_invalid : list json :=
  [ JObject (PrepareWikiData.make_entry (py "He plays [] well") (py "bass") 9 13
               (JStr (py "bass_1")));
    JObject (PrepareWikiData.make_entry (py "mail me@[] now") (py "bass") 8 12
               (JStr (py "bass_1"))) ].

(** A toy G2P model whose data loader leaves out the lines with more
    graphemes than [max_source_len]. *)
Definition filtering_g2p (max_source_len : nat) : G2PCTC.InferEnv := {|
  G2PCTC.net := unit;
  G2PCTC.batch := dict;
  G2PCTC.log_probs := pystr;
  G2PCTC.cuda_is_available := false;
  G2PCTC.train_children := fun _ n => n;
  G2PCTC.module_to := fun _ => ret tt;
  G2PCTC.make_batches := fun content _ _ =>
    match content with
    | Some lines =>
        ret (filter (fun line => Nat.leb (length (graphemes_of line)) max_source_len) lines)
    | None => raise (ExternalError (py "FileNotFoundError"))
    end;
  G2PCTC.forward := fun b _ => ret (graphemes_of b);
  G2PCTC.ctc_decoder_predictions_tensor := fun lp => ret [rev lp];
  G2PCTC.word_error_rate := fun _ _ => Some 0%float
|}.

End Scenarios.

(* ================================================================== *)
(** ** Facts about strings *)
(* ================================================================== *)

Module PyStrFacts.

Lemma eqb_eq (s t : pystr) : eqb s t = true <-> s = t.
Proof.
  revert t; induction s as [|a s IH]; intros [|b t]; simpl; split; intros H;
    try reflexivity; try discriminate.
  - apply andb_true_iff in H as [Hab Hst].
    apply N.eqb_eq in Hab. apply IH in Hst. now subst.
  - injection H as -> ->. apply andb_true_iff; split.
    + apply N.eqb_refl.
    + now apply IH.
Qed.

Lemma eqb_refl (s : pystr) : eqb s s = true.
Proof. now apply eqb_eq. Qed.


Example py_ascii : py "[]" = [91; 93]%N.
Proof. reflexivity. Qed.

Example py_two_byte : py "é" = [233]%N.
Proof. reflexivity. Qed.

Example py_three_byte : py "C₃" = [67; 8323]%N.
Proof. reflexivity. Qed.

Example replace_nonoverlapping : replace (py "aaaa") (py "aa") (py "b") = py "bb".
Proof. reflexivity. Qed.

Example replace_empty_old : replace (py "abc") [] (py "-") = py "-a-b-c-".
Proof. reflexivity. Qed.

Example count_nonoverlapping : count (py "aaa") (py "aa") = 1.
Proof. reflexivity. Qed.

Example find_first : find (py "a bass, bass") (py "bass") = Some 2.
Proof. reflexivity. Qed.

Example slice_negative : slice (py "hello") (-3) (-1) = py "ll".
Proof. reflexivity. Qed.

Example slice_clamped : slice (py "hello") 3 100 = py "lo".
Proof. reflexivity. Qed.

(** *** [startswith], [find] and [count] *)

Lemma startswith_firstn (p s : pystr) :
  startswith p s = true <-> firstn (length p) s = p.
Proof.
  revert s; induction p as [|a p IH]; intros [|b s]; simpl; split; intros H;
    try reflexivity; try discriminate.
  - apply andb_true_iff in H as [Hab Hps]. apply N.eqb_eq in Hab. subst b.
    f_equal. now apply IH.
  - injection H as -> H. apply andb_true_iff. split.
    + apply N.eqb_refl.
    + now apply IH.
Qed.

Lemma startswith_length (p s : pystr) :
  startswith p s = true -> length p <= length s.
Proof.
  revert s; induction p as [|a p IH]; intros [|b s] H; simpl in *;
    try lia; try discriminate.
  apply andb_true_iff in H as [_ H]. apply IH in H. lia.
Qed.

(** [find] returns the start of an occurrence. *)
Lemma find_occurrence (s sub : pystr) (i : nat) :
  find s sub = Some i ->
  firstn (length sub) (skipn i s) = sub /\ i + length sub <= length s.
Proof.
  revert i; induction s as [|c s IH]; intros i H; simpl in H.
  - destruct (startswith sub []) eqn:E; [|discriminate].
    injection H as <-. split.
    + now apply startswith_firstn.
    + apply startswith_length in E. simpl in *. lia.
  - destruct (startswith sub (c :: s)) eqn:E.
    + injection H as <-. split.
      * now apply startswith_firstn.
      * apply startswith_length in E. simpl in *. lia.
    + destruct (find s sub) as [j|] eqn:Hj; [|discriminate].
      injection H as <-. destruct (IH j eq_refl) as [H1 H2].
      split; [exact H1 | simpl; lia].
Qed.

(** Where [count] sees an occurrence, [find] finds one. *)
Lemma count_scan_find (sub s : pystr) (skip : nat) :
  0 < count_scan sub s skip -> find s sub <> None.
Proof.
  revert skip; induction s as [|c s IH]; intros skip H; simpl in *; [lia|].
  destruct (startswith sub (c :: s)) eqn:E; [discriminate|].
  destruct skip as [|k].
  - apply IH in H. destruct (find s sub); [discriminate | contradiction].
  - apply IH in H. destruct (find s sub); [discriminate | contradiction].
Qed.

Lemma count_find (s sub : pystr) :
  0 < count s sub -> exists i, find s sub = Some i.
Proof.
  intros H. destruct sub as [|a sub].
  - exists 0. destruct s; reflexivity.
  - apply count_scan_find in H. destruct (find s (a :: sub)) as [i|]; [now exists i | contradiction].
Qed.

(** *** [replace] *)

(** Every character of the result comes from the string or from [new]. *)
Lemma In_replace_scan (old new s : pystr) (skip : nat) (x : char) :
  In x (replace_scan old new s skip) -> In x s \/ In x new.
Proof.
  revert skip; induction s as [|c s IH]; intros skip H; simpl in H; [contradiction|].
  destruct skip as [|k].
  - destruct (startswith old (c :: s)).
    + apply in_app_or in H as [H|H]; [now right|].
      apply IH in H as [H|H]; [left; now right | now right].
    + destruct H as [H|H]; [left; now left|].
      apply IH in H as [H|H]; [left; now right | now right].
  - apply IH in H as [H|H]; [left; now right | now right].
Qed.

Lemma In_replace (s old new : pystr) (x : char) :
  In x (replace s old new) -> In x s \/ In x new.
Proof.
  destruct old as [|a old]; simpl.
  - intros H. apply in_app_or in H as [H|H]; [now right|].
    apply in_flat_map in H as [c [Hc [H|H]]]; [subst; now left | now right].
  - apply In_replace_scan.
Qed.

(** Replacing a single character by a string without it leaves none. *)
Lemma replace_removes_char (s new : pystr) (c : char) :
  ~ In c new -> ~ In c (replace s [c] new).
Proof.
  intros Hnew. unfold replace. induction s as [|x s IH]; simpl; [tauto|].
  unfold char_eqb. destruct (N.eqb c x) eqn:E; simpl.
  - intros H. apply in_app_or in H as [H|H]; tauto.
  - intros [H|H]; [|tauto]. subst x. now rewrite N.eqb_refl in E.
Qed.

(** A one-character replacement works character by character. *)
Lemma replace_single (s : pystr) (a b : char) :
  replace s [a] [b] = map (fun c => if char_eqb a c then b else c) s.
Proof.
  unfold replace. induction s as [|x s IH]; simpl; [reflexivity|].
  destruct (char_eqb a x); simpl; now rewrite IH.
Qed.

(** A string in which [old] does not occur is left as it is. *)
Lemma replace_no_occurrence (s old new : pystr) :
  count s old = 0 -> replace s old new = s.
Proof.
  destruct old as [|a old]; simpl; [discriminate|].
  induction s as [|x s IH]; simpl; [reflexivity|].
  destruct (char_eqb a x && startswith old s); [discriminate|].
  intros H. now rewrite IH.
Qed.

(** *** Slices *)

Lemma slice_bound_le (len : nat) (i : Z) : slice_bound len i <= len.
Proof. unfold slice_bound. destruct (Z.ltb_spec i 0); lia. Qed.

Lemma slice_map (f : char -> char) (s : pystr) (a b : Z) :
  slice (map f s) a b = map f (slice s a b).
Proof.
  unfold slice. rewrite length_map, skipn_map, firstn_map. reflexivity.
Qed.

(** The part before a slice, the slice and the part after it make up the
    string, when the bounds come in order. *)
Lemma slice_parts (s : pystr) (a b : Z) :
  slice_bound (length s) a <= slice_bound (length s) b ->
  slice_to s a ++ slice s a b ++ slice_from s b = s.
Proof.
  unfold slice_to, slice, slice_from. intros H.
  set (lo := slice_bound (length s) a) in *.
  set (hi := slice_bound (length s) b) in *.
  rewrite <- (firstn_skipn lo s) at 4.
  f_equal.
  rewrite <- (firstn_skipn (hi - lo) (skipn lo s)) at 2.
  f_equal. rewrite skipn_skipn. f_equal. lia.
Qed.

Lemma slice_bound_nonneg (len : nat) (i : Z) :
  (0 <= i)%Z -> slice_bound len i = Nat.min (Z.to_nat i) len.
Proof. intros H. unfold slice_bound. destruct (Z.ltb_spec i 0); [lia | reflexivity]. Qed.

(** The slice at an occurrence that [find] returned is the substring. *)
Lemma slice_at_find (s sub : pystr) (i : nat) :
  find s sub = Some i ->
  slice s (Z.of_nat i) (Z.of_nat i + Z.of_nat (length sub)) = sub.
Proof.
  intros H. apply find_occurrence in H as [Hsub Hlen].
  unfold slice. rewrite !slice_bound_nonneg by lia.
  replace (Nat.min (Z.to_nat (Z.of_nat i)) (length s)) with i by lia.
  replace (Nat.min (Z.to_nat (Z.of_nat i + Z.of_nat (length sub))) (length s))
    with (i + length sub) by lia.
  replace (i + length sub - i) with (length sub) by lia.
  exact Hsub.
Qed.

Lemma In_firstn_part (n : nat) (s : pystr) (x : char) : In x (firstn n s) -> In x s.
Proof. intros H. rewrite <- (firstn_skipn n s). apply in_or_app. now left. Qed.

Lemma In_skipn_part (n : nat) (s : pystr) (x : char) : In x (skipn n s) -> In x s.
Proof. intros H. rewrite <- (firstn_skipn n s). apply in_or_app. now right. Qed.

End PyStrFacts.

Import PyStrFacts.

(* ================================================================== *)
(** ** Facts about dictionaries *)
(* ================================================================== *)

Module JsonFacts.

Lemma dict_get_set_eq (k : string) (v : json) (d : dict) :
  dict_get k (dict_set k v d) = Some v.
Proof.
  induction d as [|[k' v'] d IH]; simpl.
  - now rewrite String.eqb_refl.
  - destruct (String.eqb k k') eqn:E; simpl; now rewrite E.
Qed.

Lemma dict_get_set_neq (k k' : string) (v : json) (d : dict) :
  k <> k' -> dict_get k (dict_set k' v d) = dict_get k d.
Proof.
  intros Hne. induction d as [|[k0 v0] d IH]; simpl.
  - destruct (String.eqb k k') eqn:E; [apply String.eqb_eq in E; contradiction | reflexivity].
  - destruct (String.eqb k' k0) eqn:E'; simpl.
    + apply String.eqb_eq in E'; subst k0.
      destruct (String.eqb k k') eqn:E; [apply String.eqb_eq in E; contradiction | reflexivity].
    + now rewrite IH.
Qed.

End JsonFacts.

Import JsonFacts.

(* ================================================================== *)
(** ** Invariants of computations *)
(* ================================================================== *)

Module PyFacts.

Lemma preserves_ret {St A} (Inv : St -> Prop) (a : A) : preserves Inv (ret a).
Proof. intros s H; exact H. Qed.

Lemma preserves_raise {St A} (Inv : St -> Prop) (e : exn) :
  preserves Inv (@raise St A e).
Proof. intros s H; exact H. Qed.

Lemma preserves_get {St} (Inv : St -> Prop) : preserves Inv (@get St).
Proof. intros s H; exact H. Qed.

Lemma preserves_bind {St A B} (Inv : St -> Prop) (m : M St A) (k : A -> M St B) :
  preserves Inv m -> (forall a, preserves Inv (k a)) -> preserves Inv (bind m k).
Proof.
  intros Hm Hk s H. unfold bind.
  specialize (Hm s H). destruct (m s) as [[a|e] s']; simpl in *.
  - now apply Hk.
  - exact Hm.
Qed.

Lemma preserves_modify {St} (Inv : St -> Prop) (f : St -> St) :
  (forall s, Inv s -> Inv (f s)) -> preserves Inv (modify f).
Proof. intros Hf s0 H; simpl; auto. Qed.

Lemma preserves_getitem {St A} (Inv : St -> Prop) (l : list A) (i : nat) :
  preserves Inv (@getitem St A l i).
Proof. unfold getitem. destruct (nth_error l i); intros s H; exact H. Qed.

Lemma preserves_dict_getitem {St} (Inv : St -> Prop) (d : dict) (k : string) :
  preserves Inv (@dict_getitem St d k).
Proof. unfold dict_getitem. destruct (dict_get k d); intros s H; exact H. Qed.

Lemma preserves_as_str {St} (Inv : St -> Prop) (v : json) :
  preserves Inv (@as_str St v).
Proof. destruct v; intros s0 H; exact H. Qed.

Lemma preserves_read_local {St A} (Inv : St -> Prop) (name : string) (v : option A) :
  preserves Inv (@read_local St A name v).
Proof. destruct v; intros s0 H; exact H. Qed.

Lemma preserves_for_enumerate_from {St A} (Inv : St -> Prop) (l : list A)
  (body : nat -> A -> M St unit) :
  (forall i x, In x l -> preserves Inv (body i x)) ->
  forall i, preserves Inv (for_enumerate_from i l body).
Proof.
  induction l as [|x l IH]; intros Hbody i; simpl.
  - apply preserves_ret.
  - apply preserves_bind.
    + apply Hbody; now left.
    + intros _. apply IH. intros j y Hy. apply Hbody; now right.
Qed.

Lemma preserves_for_each {St A} (Inv : St -> Prop) (l : list A)
  (body : A -> M St unit) :
  (forall x, In x l -> preserves Inv (body x)) ->
  preserves Inv (for_each l body).
Proof.
  intros Hbody. unfold for_each, for_enumerate.
  apply preserves_for_enumerate_from. intros _ x Hx. now apply Hbody.
Qed.

Lemma preserves_try_finally {St A} (Inv : St -> Prop) (body : M St A)
  (cleanup : M St unit) :
  preserves Inv body -> preserves Inv cleanup ->
  preserves Inv (try_finally body cleanup).
Proof.
  intros Hb Hc s H. unfold try_finally.
  specialize (Hb s H). destruct (body s) as [r s']; simpl in Hb.
  specialize (Hc s' Hb). destruct (cleanup s') as [[u|e] s'']; exact Hc.
Qed.

(** The store after [try: body finally: cleanup] is the one [cleanup] leaves,
    started from the one [body] left. *)
Lemma try_finally_store {St A} (body : M St A) (cleanup : M St unit) (s : St) :
  snd (try_finally body cleanup s) = snd (cleanup (snd (body s))).
Proof.
  unfold try_finally. destruct (body s) as [r s']; simpl.
  destruct (cleanup s') as [[u|e] s'']; reflexivity.
Qed.

Lemma bind_get_store {St A} (k : St -> M St A) (s : St) :
  bind get k s = k s s.
Proof. reflexivity. Qed.

Lemma bind_run {St A B} (m : M St A) (k : A -> M St B) (s s' : St) (a : A) :
  m s = (Ok a, s') -> bind m k s = k a s'.
Proof. intros H. unfold bind. now rewrite H. Qed.

Lemma bind_run_raise {St A B} (m : M St A) (k : A -> M St B) (s s' : St) (e : exn) :
  m s = (Raise e, s') -> bind m k s = (Raise e, s').
Proof. intros H. unfold bind. now rewrite H. Qed.

Lemma preserves_bind_ret {St A B} (Inv : St -> Prop) (a : A) (k : A -> M St B) :
  preserves Inv (k a) -> preserves Inv (bind (ret a) k).
Proof. intros H s Hs. exact (H s Hs). Qed.

Lemma preserves_bind_raise {St A B} (Inv : St -> Prop) (e : exn) (k : A -> M St B) :
  preserves Inv (bind (raise e) k).
Proof. intros s Hs. exact Hs. Qed.

(** *** What a computation that returns has done *)

Lemma returns_ret {St A} (P : St -> Prop) (a : A) :
  returns P (ret a) (fun a' s => a' = a /\ P s).
Proof. intros s H. simpl. now split. Qed.

Lemma returns_raise {St A} (P : St -> Prop) (e : exn) (Q : A -> St -> Prop) :
  returns P (raise e) Q.
Proof. intros s H. exact I. Qed.

Lemma returns_bind {St A B} (P : St -> Prop) (Q : A -> St -> Prop)
  (R : B -> St -> Prop) (m : M St A) (k : A -> M St B) :
  returns P m Q -> (forall a, returns (Q a) (k a) R) -> returns P (bind m k) R.
Proof.
  intros Hm Hk s H. unfold bind. specialize (Hm s H).
  destruct (m s) as [[a|e] s']; [|exact I].
  exact (Hk a s' Hm).
Qed.

Lemma returns_weaken {St A} (P P' : St -> Prop) (Q Q' : A -> St -> Prop) (m : M St A) :
  returns P m Q -> (forall s, P' s -> P s) -> (forall a s, Q a s -> Q' a s) ->
  returns P' m Q'.
Proof.
  intros Hm HP HQ s H. specialize (Hm s (HP s H)).
  destruct (m s) as [[a|e] s']; [now apply HQ | exact I].
Qed.

(** A computation that leaves the store alone. *)
Lemma returns_pure {St A} (P : St -> Prop) (m : M St A) :
  (forall s, snd (m s) = s) -> returns P m (fun _ => P).
Proof.
  intros Hm s H. specialize (Hm s). destruct (m s) as [[a|e] s']; [|exact I].
  simpl in Hm. now subst.
Qed.

Lemma returns_get {St} (P : St -> Prop) :
  returns P get (fun a s => a = s /\ P s).
Proof. intros s H. simpl. now split. Qed.

Lemma returns_modify {St} (P Q : St -> Prop) (f : St -> St) :
  (forall s, P s -> Q (f s)) -> returns P (modify f) (fun _ => Q).
Proof. intros Hf s0 H. simpl. now apply Hf. Qed.

Lemma getitem_pure {St A} (l : list A) (i : nat) (s : St) :
  snd (getitem l i s) = s.
Proof. unfold getitem. destruct (nth_error l i); reflexivity. Qed.

Lemma read_local_pure {St A} (name : string) (v : option A) (s : St) :
  snd (read_local name v s) = s.
Proof. destruct v; reflexivity. Qed.

(** A loop whose every iteration takes [I k] to [I (S k)] takes [I k] to
    [I (k + length l)]. *)
Lemma returns_for_enumerate_from {St A} (I : nat -> St -> Prop) (l : list A)
  (body : nat -> A -> M St unit) :
  (forall k i x, returns (I k) (body i x) (fun _ => I (S k))) ->
  forall k i, returns (I k) (for_enumerate_from i l body) (fun _ => I (k + length l)).
Proof.
  intros Hbody. induction l as [|x l IH]; intros k i; simpl.
  - intros s H. simpl. now rewrite Nat.add_0_r.
  - apply returns_bind with (Q := fun _ => I (S k)); [apply Hbody|]. intros u.
    eapply returns_weaken; [apply (IH (S k) (S i)) | auto |].
    intros u' s H. now rewrite Nat.add_succ_r.
Qed.

End PyFacts.

Import PyFacts.

(* ================================================================== *)
(** ** Properties of [prepare_wiki_data.py] *)
(* ================================================================== *)

Module PrepareWikiDataSpec.

Import PrepareWikiData.

(** *** The homograph of a file name *)

(** An occurrence of [.tsv] that starts in [s] lies in [s]: no character of
    [.tsv] after the first is a dot. *)
Lemma startswith_tsv_within (s : pystr) :
  s <> [] ->
  startswith (py ".tsv") (s ++ py ".tsv") = true ->
  startswith (py ".tsv") s = true.
Proof.
  change (py ".tsv") with [46; 116; 115; 118]%N.
  destruct s as [|a [|b [|c [|d s]]]]; intros Hne H; [contradiction| | | |exact H];
    cbn in H; rewrite ?andb_false_r in H; discriminate.
Qed.

(** For a file name with [.tsv] as its extension and nowhere else,
    [homograph_of] is the name without the extension. *)
Lemma homograph_of_stem (stem : pystr) :
  count stem (py ".tsv") = 0 ->
  homograph_of (stem ++ py ".tsv") = stem.
Proof.
  unfold homograph_of, count, replace.
  change (py ".tsv") with [46; 116; 115; 118]%N.
  induction stem as [|c stem IH]; intros H; [reflexivity|].
  cbn [count_scan] in H.
  destruct (startswith [46; 116; 115; 118]%N (c :: stem)) eqn:Hs; [discriminate|].
  change ((c :: stem) ++ [46; 116; 115; 118]%N)
    with (c :: (stem ++ [46; 116; 115; 118]%N)).
  cbn [replace_scan].
  destruct (startswith [46; 116; 115; 118]%N (c :: stem ++ [46; 116; 115; 118]%N)) eqn:Hs'.
  - apply (startswith_tsv_within (c :: stem)) in Hs'; [|discriminate].
    change (py ".tsv") with [46; 116; 115; 118]%N in Hs'. congruence.
  - now rewrite IH.
Qed.

Lemma without_tsv_extension_stem (stem : pystr) :
  without_tsv_extension (stem ++ py ".tsv") = stem.
Proof.
  unfold without_tsv_extension. cbv zeta.
  replace (length (stem ++ py ".tsv") - 4) with (length stem)
    by (rewrite length_app; change (length (py ".tsv")) with 4; lia).
  rewrite skipn_app, firstn_app, skipn_all, firstn_all, Nat.sub_diag.
  cbn [skipn firstn app]. rewrite eqb_refl. apply app_nil_r.
Qed.

Section NormalizeFacts.

Context {env : NormalizeEnv}.

(** *** Invariants of the normalization stage *)

Lemma written_iff (s : state) (p : pystr) (d : dict) :
  In (p, d) (written s) <-> In (EvWrite p d) (trace s).
Proof.
  unfold written, writes_of. rewrite in_flat_map. split.
  - intros [e [He Hin]]. apply in_rev in He.
    destruct e; simpl in Hin; try contradiction.
    destruct Hin as [Heq|[]]. now inversion Heq; subst.
  - intros H. exists (EvWrite p d). split; [now apply in_rev in H | now left].
Qed.

Lemma writes_satisfy_initial (P : pystr -> dict -> Prop) (existing0 : list pystr) :
  writes_satisfy P (initial_state existing0).
Proof. intros p d []. Qed.

Lemma preserves_emit (P : pystr -> dict -> Prop) (e : event) :
  match e with EvWrite p d => P p d | _ => True end ->
  preserves (writes_satisfy P) (emit e).
Proof.
  intros He. apply preserves_modify. intros s Hs p d [Heq|Hin]; [|now apply Hs].
  subst e. exact He.
Qed.

Lemma preserves_incr_num_removed (P : pystr -> dict -> Prop) :
  preserves (writes_satisfy P) incr_num_removed.
Proof. apply preserves_modify. intros s Hs. exact Hs. Qed.

Lemma preserves_set_norm_text (P : pystr -> dict -> Prop) (t : pystr) :
  preserves (writes_satisfy P) (set_norm_text t).
Proof. apply preserves_modify. intros s Hs. exact Hs. Qed.

Lemma preserves_open_w (P : pystr -> dict -> Prop) (path : pystr) :
  preserves (writes_satisfy P) (open_w path).
Proof.
  apply preserves_modify. intros s Hs p d [Heq|Hin]; [discriminate | now apply Hs].
Qed.

Lemma preserves_pdb_set_trace (P : pystr -> dict -> Prop) (file_name : pystr) (i : nat) :
  preserves (writes_satisfy P) (pdb_set_trace file_name i).
Proof.
  unfold pdb_set_trace. apply preserves_bind.
  - now apply preserves_emit.
  - intros _. destruct (pdb_resume file_name i);
      [apply preserves_ret | apply preserves_raise].
Qed.

Lemma preserves_relocate (P : pystr -> dict -> Prop) (sent homograph : pystr)
  (start end_ : Z) :
  preserves (writes_satisfy P) (relocate sent homograph start end_).
Proof.
  unfold relocate.
  destruct (negb (eqb (lower (slice sent start end_)) homograph)
            && Nat.eqb (count (lower sent) homograph) 1).
  - destruct (find (lower sent) homograph); [|apply preserves_raise].
    match goal with |- context [if ?c then _ else _] => destruct c end;
      [apply preserves_ret | apply preserves_raise].
  - apply preserves_ret.
Qed.

(** A row writes at most the entry built from a span that matches the
    homograph: if all such entries satisfy [P], the row keeps the invariant. *)
Lemma preserves_process_row (P : pystr -> dict -> Prop) (file_name output_f : pystr)
  (start_end_indices : list (Z * Z)) (word_ids : list json) (i : nat) (sent : pystr) :
  (forall t span start end_ word_id,
      lower span = homograph_of file_name ->
      P output_f (make_entry t span start end_ word_id)) ->
  preserves (writes_satisfy P)
    (process_row file_name output_f start_end_indices word_ids i sent).
Proof.
  intros HP. unfold process_row.
  apply preserves_bind; [apply preserves_getitem|]. intros [start end_].
  destruct (correct_wikihomograph_data sent start end_) as [[sent' start'] end'].
  apply preserves_bind; [apply preserves_relocate|]. intros [[start'' end''] span].
  destruct (negb (eqb (lower span) (homograph_of file_name))) eqn:Hspan.
  - apply preserves_bind; [apply preserves_pdb_set_trace|]. intros _.
    apply preserves_incr_num_removed.
  - apply negb_false_iff, eqb_eq in Hspan. unfold write_normalized.
    apply preserves_bind.
    { destruct (normalize _).
      - apply preserves_set_norm_text.
      - apply preserves_bind; [now apply preserves_emit|]. intros _.
        apply preserves_incr_num_removed. }
    intros _. apply preserves_bind; [apply preserves_get|]. intros s.
    apply preserves_bind; [apply preserves_read_local|]. intros t.
    apply preserves_bind; [apply preserves_set_norm_text|]. intros _.
    apply preserves_bind; [apply preserves_getitem|]. intros word_id.
    apply preserves_emit. now apply HP.
Qed.

Lemma preserves_process_file (P : pystr -> dict -> Prop) (output_dir file : pystr) :
  (forall t span start end_ word_id,
      lower span = homograph_of (basename file) ->
      P (output_path output_dir file) (make_entry t span start end_ word_id)) ->
  preserves (writes_satisfy P) (process_file output_dir file).
Proof.
  intros HP. unfold process_file.
  apply preserves_bind.
  { unfold path_exists. apply preserves_bind; [apply preserves_get|].
    intros s. apply preserves_ret. }
  intros [|]; [apply preserves_ret|].
  destruct (read_wikihomograph_file file) as [[[sentences sei] hs] wids].
  apply preserves_bind; [apply preserves_open_w|]. intros _.
  unfold for_enumerate. apply preserves_for_enumerate_from.
  intros i sent _. apply preserves_process_row. exact HP.
Qed.

Lemma preserves_normalize_wikihomograph_data (P : pystr -> dict -> Prop)
  (subset post_fix data_folder : pystr) (files : list pystr) :
  (forall file t span start end_ word_id,
      In file files ->
      lower span = homograph_of (basename file) ->
      P (output_path (output_dir_of subset post_fix data_folder) file)
        (make_entry t span start end_ word_id)) ->
  preserves (writes_satisfy P)
    (normalize_wikihomograph_data subset post_fix data_folder files).
Proof.
  intros HP. unfold normalize_wikihomograph_data.
  apply preserves_bind.
  { apply preserves_for_each. intros file Hfile.
    apply preserves_process_file. intros; now apply HP. }
  intros _. apply preserves_bind; [apply preserves_get|]. intros s.
  now apply preserves_emit.
Qed.

Lemma make_entry_has_start_end (t span : pystr) (start end_ : Z) (word_id : json) :
  has_start_end (JObject (make_entry t span start end_ word_id)).
Proof. reflexivity. Qed.

(** The entries of the first stage are lines the second stage takes. *)
Lemma written_entries_have_start_end (subset post_fix data_folder : pystr)
  (files existing0 : list pystr) :
  Forall (fun pd => has_start_end (JObject (snd pd)))
    (written (snd (normalize_wikihomograph_data subset post_fix data_folder files
                     (initial_state existing0)))).
Proof.
  apply Forall_forall. intros [p d] Hin. apply written_iff in Hin. simpl.
  revert p d Hin.
  change (writes_satisfy (fun _ d => dict_mem "start_end" d = true)
            (snd (normalize_wikihomograph_data subset post_fix data_folder files
                    (initial_state existing0)))).
  apply preserves_normalize_wikihomograph_data.
  - intros. reflexivity.
  - apply writes_satisfy_initial.
Qed.

Lemma make_entry_roundtrip (t span : pystr) (start end_ : Z) (word_id : json) :
  roundtrip (make_entry t span start end_ word_id).
Proof.
  exists t, span, (replace t replace_token span). repeat split; reflexivity.
Qed.

(** C3. For every entry that [normalize_wikihomograph_data] writes, replacing
    every occurrence of the placeholder token in [text_graphemes] by
    [homograph_span] yields exactly [norm_text_graphemes].  This holds of every
    run, from any content of the output directory, also of a run that an
    exception ends early. *)
Theorem written_entries_roundtrip (subset post_fix data_folder : pystr)
  (files existing0 : list pystr) :
  Forall (fun pd => roundtrip (snd pd))
    (written (snd (normalize_wikihomograph_data subset post_fix data_folder files
                     (initial_state existing0)))).
Proof.
  apply Forall_forall. intros [p d] Hin. apply written_iff in Hin. simpl.
  revert p d Hin.
  change (writes_satisfy (fun _ d => roundtrip d)
            (snd (normalize_wikihomograph_data subset post_fix data_folder files
                    (initial_state existing0)))).
  apply preserves_normalize_wikihomograph_data.
  - intros. apply make_entry_roundtrip.
  - apply writes_satisfy_initial.
Qed.

Lemma written_spans_match (subset post_fix data_folder : pystr)
  (files existing0 : list pystr) :
  Forall (fun pd =>
            exists file,
              In file files /\
              fst pd = output_path (output_dir_of subset post_fix data_folder) file /\
              span_matches (basename file) (snd pd))
    (written (snd (normalize_wikihomograph_data subset post_fix data_folder files
                     (initial_state existing0)))).
Proof.
  apply Forall_forall. intros [p d] Hin. apply written_iff in Hin. simpl.
  revert p d Hin.
  change (writes_satisfy
            (fun p d => exists file,
                 In file files /\
                 p = output_path (output_dir_of subset post_fix data_folder) file /\
                 span_matches (basename file) d)
            (snd (normalize_wikihomograph_data subset post_fix data_folder files
                    (initial_state existing0)))).
  apply preserves_normalize_wikihomograph_data.
  - intros file t span start end_ word_id Hfile Hspan.
    exists file. repeat split; trivial.
    exists span. split; [reflexivity | exact Hspan].
  - apply writes_satisfy_initial.
Qed.

(** C4, amended.  Every line that [normalize_wikihomograph_data] writes goes
    to the output file of one of the input TSV files, and its
    [homograph_span], lower-cased, equals the target homograph, which is the
    base name of that TSV file with every [.tsv] removed.  That is the base
    name without the [.tsv] extension when [.tsv] occurs in the base name as
    its extension and nowhere else. *)
Theorem written_span_is_homograph (subset post_fix data_folder : pystr)
  (files existing0 : list pystr) :
  Forall (fun pd =>
            exists file,
              In file files /\
              fst pd = output_path (output_dir_of subset post_fix data_folder) file /\
              span_matches (basename file) (snd pd) /\
              (tsv_only_as_extension (basename file) ->
               span_is_stem (basename file) (snd pd)))
    (written (snd (normalize_wikihomograph_data subset post_fix data_folder files
                     (initial_state existing0)))).
Proof.
  eapply Forall_impl; [|apply written_spans_match].
  intros pd [file [Hfile [Hpath Hmatch]]].
  exists file. repeat split; trivial.
  intros [stem [Hname Hcount]].
  destruct Hmatch as [span [Hget Hlower]].
  exists span. split; [exact Hget|].
  rewrite Hlower, Hname, without_tsv_extension_stem.
  now apply homograph_of_stem.
Qed.

(** *** A span that does not match

    The row reaches the breakpoint of line 163 and nothing else happens
    before the operator answers: no message, no line written. *)

Lemma mismatched_row (file_name output_f : pystr) (start_end_indices : list (Z * Z))
  (word_ids : list json) (i : nat) (sent sent' : pystr)
  (start end_ start' end' start'' end'' : Z) (span : pystr) (s : state) :
  nth_error start_end_indices i = Some (start, end_) ->
  correct_wikihomograph_data sent start end_ = (sent', start', end') ->
  relocate (pre_process sent') (homograph_of file_name) start' end' s
    = (Ok (start'', end'', span), s) ->
  eqb (lower span) (homograph_of file_name) = false ->
  process_row file_name output_f start_end_indices word_ids i sent s
  = if pdb_resume file_name i
    then (Ok tt,
          mkState (S (num_removed s)) (norm_text s) (existing s)
            (EvPdbSetTrace file_name i :: trace s))
    else (Raise BdbQuit,
          mkState (num_removed s) (norm_text s) (existing s)
            (EvPdbSetTrace file_name i :: trace s)).
Proof.
  intros Hidx Hcorrect Hrelocate Hspan. unfold process_row, getitem.
  rewrite Hidx. unfold bind at 1. simpl. rewrite Hcorrect.
  unfold bind at 1. rewrite Hrelocate. rewrite Hspan. simpl.
  unfold pdb_set_trace, bind, emit, incr_num_removed, modify. simpl.
  destruct (pdb_resume file_name i); reflexivity.
Qed.

(** *** A normalization failure

    The handler of line 171 reports the sentence and counts the row as
    removed; control then falls through to line 175, which reads [norm_text]. *)

Lemma tn_failure_with_stale_text (output_f : pystr) (word_ids : list json) (i : nat)
  (sent : pystr) (start end_ : Z) (span : pystr) (s : state) (t : pystr) (w : json) :
  normalize (slice_to sent start ++ replace_token ++ slice_from sent end_) = None ->
  norm_text s = Some t ->
  nth_error word_ids i = Some w ->
  write_normalized output_f word_ids i sent start end_ span s
  = (Ok tt,
     mkState (S (num_removed s)) (Some (post_process_normalization t)) (existing s)
       (EvWrite output_f
          (make_entry (post_process_normalization t) span start end_ w)
        :: EvPrintTNError (slice_to sent start ++ replace_token ++ slice_from sent end_)
        :: trace s)).
Proof.
  intros Hn Ht Hw. unfold write_normalized. rewrite Hn.
  unfold bind, emit, incr_num_removed, set_norm_text, modify, get, read_local, getitem.
  simpl. rewrite Ht. simpl. rewrite Hw. reflexivity.
Qed.

Lemma tn_failure_without_text (output_f : pystr) (word_ids : list json) (i : nat)
  (sent : pystr) (start end_ : Z) (span : pystr) (s : state) :
  normalize (slice_to sent start ++ replace_token ++ slice_from sent end_) = None ->
  norm_text s = None ->
  write_normalized output_f word_ids i sent start end_ span s
  = (Raise (UnboundLocalError "norm_text"),
     mkState (S (num_removed s)) None (existing s)
       (EvPrintTNError (slice_to sent start ++ replace_token ++ slice_from sent end_)
        :: trace s)).
Proof.
  intros Hn Ht. unfold write_normalized. rewrite Hn.
  unfold bind, emit, incr_num_removed, set_norm_text, modify, get, read_local.
  simpl. rewrite Ht. reflexivity.
Qed.

(** *** Rows and lines, when the normalizer does not raise *)

Lemma writes_of_cons (e : event) (events : list event) :
  writes_of (e :: events)
  = writes_of events ++ match e with EvWrite p d => [(p, d)] | _ => [] end.
Proof.
  unfold writes_of. simpl. rewrite flat_map_app. simpl. now rewrite app_nil_r.
Qed.

Lemma accounts_emit (k : nat) (paths : list pystr) (e : event) :
  returns (accounts k paths) (emit e)
    (fun _ => accounts (match e with EvWrite _ _ => S k | _ => k end) paths).
Proof.
  apply returns_modify. intros s [Hk Hp]. split; [|exact Hp].
  unfold accounted, written in *. simpl. rewrite writes_of_cons, length_app.
  destruct e; simpl; lia.
Qed.

Lemma accounts_incr_num_removed (k : nat) (paths : list pystr) :
  returns (accounts k paths) incr_num_removed (fun _ => accounts (S k) paths).
Proof.
  apply returns_modify. intros s [Hk Hp]. split; [|exact Hp].
  unfold accounted, written in *. simpl. lia.
Qed.

Lemma accounts_set_norm_text (k : nat) (paths : list pystr) (t : pystr) :
  returns (accounts k paths) (set_norm_text t) (fun _ => accounts k paths).
Proof. apply returns_modify. intros s H. exact H. Qed.

Lemma relocate_pure (sent homograph : pystr) (start end_ : Z) (s : state) :
  snd (relocate sent homograph start end_ s) = s.
Proof.
  unfold relocate.
  destruct (negb (eqb (lower (slice sent start end_)) homograph)
            && Nat.eqb (count (lower sent) homograph) 1); [|reflexivity].
  destruct (find (lower sent) homograph); [|reflexivity].
  match goal with |- context [if ?c then _ else _] => destruct c end; reflexivity.
Qed.

Lemma accounts_pdb_set_trace (k : nat) (paths : list pystr) (file_name : pystr) (i : nat) :
  returns (accounts k paths) (pdb_set_trace file_name i) (fun _ => accounts k paths).
Proof.
  unfold pdb_set_trace.
  apply returns_bind with (Q := fun _ => accounts k paths).
  - apply (accounts_emit k paths (EvPdbSetTrace file_name i)).
  - intros u. destruct (pdb_resume file_name i).
    + apply returns_pure. reflexivity.
    + apply returns_raise.
Qed.

(** A row that returns is either counted as removed or written, when the
    normalizer does not raise. *)
Lemma accounts_process_row (k : nat) (paths : list pystr) (file_name output_f : pystr)
  (start_end_indices : list (Z * Z)) (word_ids : list json) (i : nat) (sent : pystr) :
  (forall text, normalize text <> None) ->
  returns (accounts k paths)
    (process_row file_name output_f start_end_indices word_ids i sent)
    (fun _ => accounts (S k) paths).
Proof.
  intros Hnorm. unfold process_row.
  apply returns_bind with (Q := fun _ => accounts k paths).
  { apply returns_pure. apply getitem_pure. }
  intros [start end_].
  destruct (correct_wikihomograph_data sent start end_) as [[sent' start'] end'].
  apply returns_bind with (Q := fun _ => accounts k paths).
  { apply returns_pure. apply relocate_pure. }
  intros [[start'' end''] span].
  destruct (negb (eqb (lower span) (homograph_of file_name))).
  - apply returns_bind with (Q := fun _ => accounts k paths).
    + apply accounts_pdb_set_trace.
    + intros u. apply accounts_incr_num_removed.
  - unfold write_normalized.
    destruct (normalize _) as [t|] eqn:Ht; [|now apply Hnorm in Ht].
    apply returns_bind with (Q := fun _ => accounts k paths).
    { apply accounts_set_norm_text. }
    intros u. apply returns_bind with (Q := fun _ => accounts k paths).
    { apply returns_pure. reflexivity. }
    intros s0. apply returns_bind with (Q := fun _ => accounts k paths).
    { apply returns_pure. apply read_local_pure. }
    intros t0. apply returns_bind with (Q := fun _ => accounts k paths).
    { apply accounts_set_norm_text. }
    intros u0. apply returns_bind with (Q := fun _ => accounts k paths).
    { apply returns_pure. apply getitem_pure. }
    intros word_id.
    apply (accounts_emit k paths (EvWrite output_f _)).
Qed.

Lemma accounts_process_file (k : nat) (paths : list pystr) (output_dir file : pystr) :
  (forall text, normalize text <> None) ->
  returns (accounts k paths) (process_file output_dir file)
    (fun _ s =>
       if existsb (eqb (output_path output_dir file)) paths
       then accounts k paths s
       else accounts (k + length (sentences_of file))
              (output_path output_dir file :: paths) s).
Proof.
  intros Hnorm. unfold process_file.
  apply returns_bind
    with (Q := fun b s => b = existsb (eqb (output_path output_dir file)) paths
                          /\ accounts k paths s).
  { unfold path_exists. intros s [Hk Hp]. simpl. rewrite Hp. now repeat split. }
  intros present s [Hpresent Hs]. subst present.
  destruct (existsb (eqb (output_path output_dir file)) paths).
  { exact Hs. }
  unfold sentences_of.
  destruct (read_wikihomograph_file file) as [[[sentences sei] hs] wids].
  revert s Hs.
  apply returns_bind
    with (Q := fun _ => accounts k (output_path output_dir file :: paths)).
  { apply returns_modify. intros s [Hk Hp]. split; [|simpl; now rewrite Hp].
    unfold accounted, written in *. simpl. rewrite writes_of_cons, length_app.
    simpl. lia. }
  intros u. unfold for_enumerate.
  eapply returns_weaken.
  - apply (returns_for_enumerate_from
             (fun n => accounts (k + n) (output_path output_dir file :: paths))
             sentences) with (k := 0).
    intros n j x. cbv beta. rewrite Nat.add_succ_r. now apply accounts_process_row.
  - intros s Hs. cbv beta. now rewrite Nat.add_0_r.
  - intros a s Hs. exact Hs.
Qed.

Lemma accounts_files (output_dir : pystr) (files : list pystr) :
  (forall text, normalize text <> None) ->
  forall (k i : nat) (paths : list pystr),
    returns (accounts k paths)
      (for_enumerate_from i files (fun _ => process_file output_dir))
      (fun _ s => accounted s = k + rows_read output_dir files paths).
Proof.
  intros Hnorm. induction files as [|file files IH]; intros k i paths; simpl.
  - intros s [Hk _]. simpl. lia.
  - eapply returns_bind; [now apply accounts_process_file|].
    intros u. simpl.
    destruct (existsb (eqb (output_path output_dir file)) paths).
    + apply IH.
    + eapply returns_weaken;
        [apply (IH (k + length (sentences_of file)) (S i)
                  (output_path output_dir file :: paths)) | auto |].
      intros a s H. simpl in H. lia.
Qed.

(** The counter is right as long as the normalizer does not raise: when a
    run returns, the rows counted as removed and the lines written add up to
    the rows read. *)
Theorem num_removed_when_normalizer_total (subset post_fix data_folder : pystr)
  (files existing0 : list pystr) :
  (forall text, normalize text <> None) ->
  let run := normalize_wikihomograph_data subset post_fix data_folder files
               (initial_state existing0) in
  fst run = Ok tt ->
  num_removed (snd run) + length (written (snd run))
  = rows_read (output_dir_of subset post_fix data_folder) files existing0.
Proof.
  intros Hnorm run Hok.
  assert (H : returns (accounts 0 existing0)
                (normalize_wikihomograph_data subset post_fix data_folder files)
                (fun _ s => accounted s
                            = rows_read (output_dir_of subset post_fix data_folder)
                                files existing0)).
  { unfold normalize_wikihomograph_data.
    eapply returns_bind.
    - unfold for_each, for_enumerate. now apply accounts_files.
    - intros u. simpl.
      apply returns_bind
        with (Q := fun _ s => accounted s
                              = rows_read (output_dir_of subset post_fix data_folder)
                                  files existing0).
      + apply returns_pure. reflexivity.
      + intros s0. apply returns_modify. intros s Hs.
        unfold accounted, written in *. simpl.
        rewrite writes_of_cons, length_app. simpl. lia. }
  specialize (H (initial_state existing0)). fold run in H.
  destruct run as [[u|e] s']; simpl in *; [|discriminate].
  apply H. split; reflexivity.
Qed.

End NormalizeFacts.

Section PrepareFacts.

Context {env : PrepareEnv}.

(** *** Invariants of the second stage *)

Lemma dict_mem_get (k : string) (d : dict) :
  dict_mem k d = true -> exists v, dict_get k d = Some v.
Proof.
  unfold dict_mem. destruct (dict_get k d) as [v|]; [now exists v | discriminate].
Qed.

Ltac dict_lookup :=
  repeat (rewrite dict_get_set_neq by discriminate);
  try rewrite dict_get_set_eq; try reflexivity; try assumption.

Lemma preserves_prepare_line (inputs : list json) (line : json) :
  In line inputs ->
  preserves (lines_derive_from inputs) (prepare_line line).
Proof.
  intros Hin. destruct line as [| | | | |l|d]; try apply preserves_raise.
  unfold prepare_line, dict_getitem.
  destruct (dict_get "text_graphemes" d) as [[| | | |graphemes| |]|] eqn:Hg;
    try apply preserves_bind_raise; apply preserves_bind_ret;
    try apply preserves_bind_raise; apply preserves_bind_ret.
  destruct (negb (is_valid (remove_cjk graphemes))).
  { apply preserves_bind; [apply preserves_get|]. intros s.
    apply preserves_bind; [apply preserves_read_local|]. intros g.
    apply preserves_modify. intros s0 Hs0. exact Hs0. }
  destruct (ipa_tok (remove_cjk graphemes)) as [ipa_ g_] eqn:Htok.
  apply preserves_bind; [apply preserves_modify; intros s0 Hs0; exact Hs0|]. intros _.
  destruct (dict_get "homograph_span" d) as [[| | | |span| |]|] eqn:Hspan;
    try apply preserves_bind_raise; apply preserves_bind_ret;
    try apply preserves_bind_raise; apply preserves_bind_ret.
  apply preserves_bind; [apply preserves_modify; intros s0 Hs0; exact Hs0|]. intros _.
  destruct (dict_get "word_id" d) as [word_id|] eqn:Hword;
    try apply preserves_bind_raise; apply preserves_bind_ret.
  unfold lookup_wordid.
  destruct word_id as [| | | |w| |]; try apply preserves_bind_raise.
  destruct (wordid_to_nemo_cmu w) as [heteronym_ipa|] eqn:Hipa;
    try apply preserves_bind_raise; apply preserves_bind_ret.
  apply preserves_bind; [apply preserves_modify; intros s0 Hs0; exact Hs0|]. intros _.
  apply preserves_modify. intros s0 Hs0. unfold lines_derive_from. simpl.
  constructor; [|exact Hs0].
  exists d. split; [exact Hin|].
  exists graphemes, span, w, heteronym_ipa.
  rewrite Htok. simpl.
  repeat split; dict_lookup.
Qed.

(** A line that fails the validity check: line 208 appends [graphemes_], the
    graphemes of the last valid line, and raises when there was none. *)
Lemma invalid_line (line : dict) (graphemes : pystr) (s : prep_state) :
  dict_get "text_graphemes" line = Some (JStr graphemes) ->
  is_valid (remove_cjk graphemes) = false ->
  prepare_line (JObject line) s
  = match graphemes_ s with
    | Some g =>
        (Ok tt, mkPrep (drop s ++ [g]) (graphemes_ s) (manifest_out s) (reported s))
    | None => (Raise (UnboundLocalError "graphemes_"), s)
    end.
Proof.
  intros Hg Hvalid. unfold prepare_line, dict_getitem. rewrite Hg.
  unfold bind at 1. simpl. unfold bind at 1. simpl. rewrite Hvalid. simpl.
  unfold bind, get, read_local, drop_append, modify, ret, raise. simpl.
  destruct (graphemes_ s) eqn:E; simpl; rewrite ?E; reflexivity.
Qed.

(** C7, amended.  Every line that [_prepare_wikihomograph_data] writes to
    the manifest is the object of a line of the normalized files with
    [text_graphemes] (the tokenizer's graphemes with the placeholder replaced
    by the homograph span, post-processed), [text] (its phonemes with the
    placeholder replaced by the IPA form of the word id, post-processed),
    [homograph_span] and [word_id] (as they were), [duration] equal to 0.001
    and [audio_filepath] equal to n/a.  [start_end] is carried over: the
    written line has it, with the same value, exactly when the line read
    has it. *)
Theorem manifest_lines_have_fields (output_dir split : pystr) (files : list pystr) :
  Forall (fun out => exists input,
              In (JObject input) (input_lines files) /\ manifest_line_of input out)
    (manifest_lines
       (snd (_prepare_wikihomograph_data output_dir split files initial_prep_state))).
Proof.
  unfold manifest_lines. apply Forall_rev.
  change (lines_derive_from (input_lines files)
            (snd (_prepare_wikihomograph_data output_dir split files initial_prep_state))).
  assert (Hrun : preserves (lines_derive_from (input_lines files))
                   (_prepare_wikihomograph_data output_dir split files)).
  { unfold _prepare_wikihomograph_data.
    apply preserves_bind.
    - apply preserves_for_each. intros file Hfile.
      apply preserves_for_each. intros line Hline.
      assert (Hin : In line (input_lines files)).
      { unfold input_lines. apply in_flat_map. now exists file. }
      now apply preserves_prepare_line.
    - intros _. apply preserves_bind.
      + apply preserves_modify. intros s0 Hs0. exact Hs0.
      + intros _. apply preserves_ret. }
  apply Hrun. constructor.
Qed.

End PrepareFacts.

Import Scenarios.

(** *** The runs on [bass.tsv] *)

Example bass_is_the_homograph : homograph_of (basename bass_tsv) = py "bass".
Proof. reflexivity. Qed.

Example bass_json_is_the_output :
  output_path (output_dir_of (py "train") (py "norm") (py "data")) bass_tsv = bass_json.
Proof. reflexivity. Qed.

(** Two rows without trouble: both are written, the second with its span
    relocated, and nothing is counted as removed. *)
Example all_fine_written :
  run_normalize rows_all_fine true
  = (Ok tt,
     mkState 0 (Some (py "A [] swam")) [bass_json]
       [ EvPrintSummary (output_dir_of (py "train") (py "norm") (py "data")) 0;
         EvWrite bass_json
           (make_entry (py "A [] swam") (py "bass") 2 6 (JStr (py "bass_2")));
         EvWrite bass_json
           (make_entry (py "He plays [] well") (py "bass") 9 13 (JStr (py "bass_1")));
         EvOpenW bass_json ]).
Proof. reflexivity. Qed.

(** C1, at a row whose normalization raises after a row that went through.
    The failure is caught, reported and counted in [num_removed], but the row
    is not dropped: a line is written for it (the second one below), with its
    own span and word id and the normalized text of the row before. *)
Theorem tn_failure_row_is_written :
  let s := snd (run_normalize rows_second_fails true) in
  tn_errors s = [py "The § [] swam"] /\
  num_removed s = 1 /\
  written s
  = [ (bass_json, make_entry (py "He plays [] well") (py "bass") 9 13 (JStr (py "bass_1")));
      (bass_json, make_entry (py "He plays [] well") (py "bass") 6 10 (JStr (py "bass_2"))) ].
Proof. vm_compute. repeat split. Qed.

(** C2, on the same run.  It returns, two rows were read and two lines were
    written, and [num_removed] is 1 where the difference is 0. *)
Theorem num_removed_miscounts :
  let run := run_normalize rows_second_fails true in
  fst run = Ok tt /\
  rows_read (env := wiki_env rows_second_fails true)
    (output_dir_of (py "train") (py "norm") (py "data")) [bass_tsv] [] = 2 /\
  length (written (snd run)) = 2 /\
  num_removed (snd run) = 1.
Proof. vm_compute. repeat split. Qed.

(** C5, at a row whose span does not match the homograph and that cannot be
    relocated.  Nothing is logged for the row: the run stops at the
    [pdb.set_trace()] breakpoint.  When the debugger is quit, [BdbQuit] ends
    the run before the counter is touched and the next row, which is fine,
    is never read; the row is dropped and counted, and the run goes on, only
    when the operator resumes it. *)
Theorem misaligned_row_hits_breakpoint :
  run_normalize rows_first_misaligned false
  = (Raise BdbQuit,
     mkState 0 None [bass_json] [EvPdbSetTrace (py "bass.tsv") 0; EvOpenW bass_json]) /\
  run_normalize rows_first_misaligned true
  = (Ok tt,
     mkState 1 (Some (py "He plays [] well")) [bass_json]
       [ EvPrintSummary (output_dir_of (py "train") (py "norm") (py "data")) 1;
         EvWrite bass_json
           (make_entry (py "He plays [] well") (py "bass") 9 13 (JStr (py "bass_1")));
         EvPdbSetTrace (py "bass.tsv") 0;
         EvOpenW bass_json ]).
Proof. vm_compute. split; reflexivity. Qed.

(** C6, at a batch whose first row fails.  In the first stage the
    normalization error is caught, but line 175 then reads [norm_text],
    which no row has assigned yet; in the second stage the branch of the
    failed validity check reads [graphemes_], which no line has assigned
    yet.  Either way [UnboundLocalError] leaves the function, and the row
    that follows, which is fine, is never processed. *)
Theorem first_row_failure_is_fatal :
  run_normalize rows_first_fails true
  = (Raise (UnboundLocalError "norm_text"),
     mkState 1 None [bass_json] [EvPrintTNError (py "The § [] swam"); EvOpenW bass_json]) /\
  run_prepare lines_first_invalid
  = (Raise (UnboundLocalError "graphemes_"), initial_prep_state).
Proof. vm_compute. split; reflexivity. Qed.

(** The lines of the first stage go through the second. *)
Example normalized_lines_prepared :
  map (dict_get "text") (manifest_lines (snd (run_prepare normalized_lines)))
  = [Some (JStr (py "He plæys ˈbeɪs well")); Some (JStr (py "A ˈbæs swæm"))].
Proof. reflexivity. Qed.

(** C4, as the claim states it, at a file whose name has [.tsv] twice (a
    name the pattern [*.tsv] of line 136 takes): both rows are written with
    the span [bass], while the base name without its extension is
    [bass.tsv]. *)
Lemma written_span_is_not_stem_counterexample :
  let run := normalize_wikihomograph_data (env := wiki_env rows_all_fine true)
               (py "train") (py "norm") (py "data") [bass_tsv_tsv] (initial_state []) in
  fst run = Ok tt /\
  map (fun pd => dict_get "homograph_span" (snd pd)) (written (snd run))
  = [Some (JStr (py "bass")); Some (JStr (py "bass"))] /\
  lower (NormalizeEnv := wiki_env rows_all_fine true) (py "bass") = py "bass" /\
  without_tsv_extension (basename bass_tsv_tsv) = py "bass.tsv" /\
  Forall (fun pd => ~ span_is_stem (env := wiki_env rows_all_fine true)
                      (basename bass_tsv_tsv) (snd pd))
    (written (snd run)).
Proof.
  cbv zeta. split; [vm_compute; reflexivity|]. split; [vm_compute; reflexivity|].
  split; [reflexivity|]. split; [vm_compute; reflexivity|].
  apply Forall_forall. intros pd Hin [span [Hget Hlower]].
  assert (Hspans : Forall (fun pd => dict_get "homograph_span" (snd pd)
                                     = Some (JStr (py "bass")))
                     (written (snd (normalize_wikihomograph_data
                                      (env := wiki_env rows_all_fine true)
                                      (py "train") (py "norm") (py "data")
                                      [bass_tsv_tsv] (initial_state []))))).
  { vm_compute. repeat constructor. }
  rewrite Forall_forall in Hspans. rewrite (Hspans pd Hin) in Hget.
  injection Hget as <-. vm_compute in Hlower. discriminate.
Qed.

(** With [.tsv] as the extension only, the span is the base name without
    it. *)
Example bass_is_the_stem :
  tsv_only_as_extension (basename bass_tsv) /\
  without_tsv_extension (basename bass_tsv) = py "bass".
Proof. split; [exists (py "bass"); split; reflexivity | reflexivity]. Qed.

(** C7, as the claim states it, at a normalized file whose line has no
    [start_end]: the line is written, with every other field, and without
    [start_end]. *)
Lemma manifest_line_without_start_end_counterexample :
  let run := run_prepare lines_without_start_end in
  fst run = Ok (py "TMP/eval_wikihomograph.json") /\
  map (dict_get "start_end") (manifest_lines (snd run)) = [None] /\
  map (dict_get "text") (manifest_lines (snd run))
  = [Some (JStr (py "He plæys ˈbeɪs well"))] /\
  map (dict_get "audio_filepath") (manifest_lines (snd run)) = [Some (JStr (py "n/a"))].
Proof. vm_compute. repeat split. Qed.

End PrepareWikiDataSpec.

(* ================================================================== *)
(** ** Properties of the string helpers of [prepare_wiki_data.py] *)
(* ================================================================== *)

Module PrepareHelpersSpec.

Import PrepareWikiData PrepareWikiDataMore.

(** *** [pre_process] *)

(** X1. [pre_process] keeps the length of the text and commutes with
    slicing, so that indices into the raw sentence address the same span
    afterwards; and its result has no e with acute accent. *)
Theorem pre_process_keeps_indices (text : pystr) (a b : Z) :
  length (pre_process text) = length text /\
  slice (pre_process text) a b = pre_process (slice text a b) /\
  ~ In 233%N (pre_process text).
Proof.
  unfold pre_process. change (py "é") with [233%N]. change (py "e") with [101%N].
  split; [|split].
  - rewrite replace_single. apply length_map.
  - rewrite !replace_single. apply slice_map.
  - apply replace_removes_char. simpl. intros [H|[]]. discriminate.
Qed.

(** *** [post_process_normalization] *)

Lemma chain_no_occurrence (chain : list (pystr * pystr)) (text : pystr) :
  (forall p, In p chain -> count text (fst p) = 0) ->
  fold_left (fun t p => replace t (fst p) (snd p)) chain text = text.
Proof.
  induction chain as [|p chain IH]; intros H; simpl; [reflexivity|].
  rewrite replace_no_occurrence by (apply H; now left).
  apply IH. intros q Hq. apply H. now right.
Qed.

(** X2. A text in which none of the strings that [post_process_normalization]
    looks for occurs, two spaces in a row included, comes back as it is. *)
Theorem post_process_normalization_clean_text (text : pystr) :
  (forall p, In p normalization_replacements -> count text (fst p) = 0) ->
  count text (py "  ") = 0 ->
  post_process_normalization text = text.
Proof.
  intros Hchain Hspaces. unfold post_process_normalization.
  rewrite chain_no_occurrence by exact Hchain.
  now apply replace_no_occurrence.
Qed.

Lemma post_process_normalization_clean_text_witness :
  (forall p, In p normalization_replacements ->
             count (py "He plays [] well") (fst p) = 0) /\
  count (py "He plays [] well") (py "  ") = 0 /\
  post_process_normalization (py "He plays [] well") = py "He plays [] well".
Proof.
  assert (H1 : forall p, In p normalization_replacements ->
                         count (py "He plays [] well") (fst p) = 0).
  { intros p Hp.
    assert (Hall : forallb (fun q => Nat.eqb (count (py "He plays [] well") (fst q)) 0)
                     normalization_replacements = true) by (vm_compute; reflexivity).
    rewrite forallb_forall in Hall. apply Nat.eqb_eq. now apply Hall. }
  assert (H2 : count (py "He plays [] well") (py "  ") = 0) by reflexivity.
  split; [exact H1|]. split; [exact H2|].
  exact (post_process_normalization_clean_text (py "He plays [] well") H1 H2).
Defined.

Lemma lacks_In (c : char) (s : pystr) : lacks c s = true <-> ~ In c s.
Proof.
  unfold lacks. rewrite forallb_forall. split.
  - intros H Hin. specialize (H c Hin). unfold char_eqb in H.
    now rewrite N.eqb_refl in H.
  - intros H x Hx. apply negb_true_iff. unfold char_eqb.
    apply N.eqb_neq. intros ->. contradiction.
Qed.

Lemma chain_keeps_lacking (c : char) (chain : list (pystr * pystr)) (s : pystr) :
  forallb (fun p => lacks c (snd p)) chain = true ->
  ~ In c s ->
  ~ In c (fold_left (fun t p => replace t (fst p) (snd p)) chain s).
Proof.
  revert s; induction chain as [|[old new] chain IH]; intros s Hchain Hs; simpl;
    [exact Hs|].
  simpl in Hchain. apply andb_true_iff in Hchain as [Hnew Hrest].
  apply IH; [exact Hrest|].
  intros Hin. apply In_replace in Hin as [Hin|Hin]; [contradiction|].
  apply lacks_In in Hnew. contradiction.
Qed.

Lemma eliminates_sound (c : char) (chain : list (pystr * pystr)) :
  eliminates c chain = true ->
  forall s, ~ In c (fold_left (fun t p => replace t (fst p) (snd p)) chain s).
Proof.
  induction chain as [|[old new] chain IH]; intros H s; simpl in *; [discriminate|].
  apply orb_true_iff in H as [H|H].
  - apply andb_true_iff in H as [H Hrest]. apply andb_true_iff in H as [Hold Hnew].
    apply eqb_eq in Hold. subst old.
    apply chain_keeps_lacking; [exact Hrest|].
    apply replace_removes_char. now apply lacks_In.
  - now apply IH.
Qed.

(** X3. Whatever the text, the result of [post_process_normalization] has
    none of the subscript digits zero to seven, the superscript three, the
    Greek letters sigma, alpha, gamma, kappa, pi, beta and final sigma, the
    subscript i, the en dash and the em dash. *)
Theorem post_process_normalization_spells_out (text : pystr) :
  Forall (fun c => ~ In c (post_process_normalization text)) spelled_out.
Proof.
  apply Forall_forall. intros c Hc.
  assert (Hall : forallb (fun c => eliminates c normalization_replacements
                                   && lacks c (py " "))
                   spelled_out = true) by (vm_compute; reflexivity).
  rewrite forallb_forall in Hall. specialize (Hall c Hc).
  apply andb_true_iff in Hall as [Helim Hspace].
  unfold post_process_normalization. cbv zeta. intros Hin.
  apply In_replace in Hin. destruct Hin as [Hin|Hin].
  - exact (eliminates_sound c normalization_replacements Helim text Hin).
  - apply lacks_In in Hspace. exact (Hspace Hin).
Qed.

(** *** [remove_cjk] *)

Lemma flat_map_singleton (s : pystr) : flat_map (fun c => [c]) s = s.
Proof. induction s as [|c s IH]; simpl; [reflexivity | now rewrite IH]. Qed.

(** Erasing the occurrences of a string of ideographs touches no other
    character.  The characters still to be skipped are those of a match. *)
Lemma filter_replace_scan_erase (a : char) (old s : pystr) (skip : nat) :
  forallb is_cjk (a :: old) = true ->
  forallb is_cjk (firstn skip s) = true ->
  filter not_cjk (replace_scan (a :: old) [] s skip) = filter not_cjk s.
Proof.
  intros Hold. revert skip; induction s as [|c s IH]; intros skip Hskip;
    [reflexivity|].
  destruct skip as [|k].
  - cbn [replace_scan].
    destruct (startswith (a :: old) (c :: s)) eqn:E.
    + apply startswith_firstn in E. cbn [length firstn] in E.
      injection E as Hc Hrest. subst c.
      cbn [app]. replace (length (a :: old) - 1) with (length old) by (simpl; lia).
      cbn [forallb] in Hold. apply andb_true_iff in Hold as [Ha Hold'].
      rewrite IH by (now rewrite Hrest).
      cbn [filter]. unfold not_cjk at 2. now rewrite Ha.
    + cbn [filter]. rewrite (IH 0 eq_refl). reflexivity.
  - cbn [firstn forallb] in Hskip. apply andb_true_iff in Hskip as [Hc Hrest].
    cbn [replace_scan filter]. unfold not_cjk at 2. rewrite Hc. cbn [negb].
    now apply IH.
Qed.

Lemma filter_replace_erase (run s : pystr) :
  forallb is_cjk run = true ->
  filter not_cjk (replace s run []) = filter not_cjk s.
Proof.
  intros Hrun. destruct run as [|a run]; simpl.
  - now rewrite flat_map_singleton.
  - now apply filter_replace_scan_erase.
Qed.

Lemma findall_cjk_runs (text run : pystr) :
  forallb is_cjk run = true ->
  Forall (fun r => forallb is_cjk r = true) (findall_cjk text run).
Proof.
  revert run; induction text as [|c text IH]; intros run Hrun; simpl.
  - destruct run; constructor; [|constructor].
    apply forallb_forall. intros x Hx. apply in_rev in Hx.
    rewrite forallb_forall in Hrun. now apply Hrun.
  - destruct (is_cjk c) eqn:Hc.
    + apply IH. simpl. now rewrite Hc.
    + destruct run as [|r run'].
      * now apply IH.
      * constructor; [|now apply IH].
        apply forallb_forall. intros x Hx. apply in_rev in Hx.
        rewrite forallb_forall in Hrun. now apply Hrun.
Qed.

Lemma erase_runs_keeps_other_text (runs : list pystr) (s : pystr) :
  Forall (fun r => forallb is_cjk r = true) runs ->
  filter not_cjk (fold_left (fun t cjk_ => replace t cjk_ []) runs s)
  = filter not_cjk s.
Proof.
  revert s; induction runs as [|r runs IH]; intros s Hruns; simpl; [reflexivity|].
  inversion Hruns as [|r' runs' Hr Hrest]; subst.
  rewrite IH by exact Hrest. now apply filter_replace_erase.
Qed.

Lemma erase_runs_adds_nothing (runs : list pystr) (s : pystr) (x : char) :
  In x (fold_left (fun t cjk_ => replace t cjk_ []) runs s) -> In x s.
Proof.
  revert s; induction runs as [|r runs IH]; intros s H; simpl in H; [exact H|].
  apply IH in H. apply In_replace in H as [H|[]]. exact H.
Qed.

(** X4. [remove_cjk] leaves every character that is not a CJK ideograph
    where it is, in order, and its result has no character that the text
    does not have. *)
Theorem remove_cjk_keeps_other_text (text : pystr) :
  filter not_cjk (remove_cjk text) = filter not_cjk text /\
  Forall (fun c => In c text) (remove_cjk text).
Proof.
  unfold remove_cjk. split.
  - apply erase_runs_keeps_other_text. now apply findall_cjk_runs.
  - apply Forall_forall. intros x. apply erase_runs_adds_nothing.
Qed.

Lemma findall_cjk_without_cjk (text : pystr) :
  forallb not_cjk text = true -> findall_cjk text [] = [].
Proof.
  induction text as [|c text IH]; intros H; simpl in *; [reflexivity|].
  apply andb_true_iff in H as [Hc Htext]. unfold not_cjk in Hc.
  apply negb_true_iff in Hc. rewrite Hc. now apply IH.
Qed.

(** X5. A text without CJK ideographs comes back from [remove_cjk] as it
    is. *)
Theorem remove_cjk_without_cjk (text : pystr) :
  forallb not_cjk text = true -> remove_cjk text = text.
Proof.
  intros H. unfold remove_cjk. now rewrite findall_cjk_without_cjk.
Qed.

Lemma remove_cjk_without_cjk_witness :
  forallb not_cjk (py "He plays [] well") = true /\
  remove_cjk (py "He plays [] well") = py "He plays [] well".
Proof.
  split; [reflexivity|].
  apply (remove_cjk_without_cjk (py "He plays [] well")). reflexivity.
Defined.

(** X6. [remove_cjk] can leave an ideograph behind.  The runs of ideographs
    are erased one after the other, each wherever it occurs: in a text made
    of the run [a b], another character [c] and the run [b a b], erasing
    [a b] breaks the second run, which is then not found, and its first
    ideograph stays. *)
Theorem remove_cjk_leaves_ideograph (a b c : char) :
  is_cjk a = true -> is_cjk b = true -> is_cjk c = false ->
  remove_cjk [a; b; c; b; a; b] = [c; b].
Proof.
  intros Ha Hb Hc.
  assert (Hac : N.eqb a c = false).
  { apply N.eqb_neq. intros ->. congruence. }
  assert (Hbc : N.eqb b c = false).
  { apply N.eqb_neq. intros ->. congruence. }
  assert (Hca : N.eqb c a = false) by (now rewrite N.eqb_sym).
  assert (Hcb : N.eqb c b = false) by (now rewrite N.eqb_sym).
  unfold remove_cjk. cbn [findall_cjk]. rewrite Ha, Hb, Hc. cbn [rev app fold_left].
  unfold replace.
  destruct (N.eqb a b) eqn:Hab.
  - apply N.eqb_eq in Hab. subst b.
    repeat progress (cbn [replace_scan startswith length Nat.sub app andb];
                     unfold char_eqb; rewrite ?N.eqb_refl, ?Hac, ?Hca).
    reflexivity.
  - assert (Hba : N.eqb b a = false) by (now rewrite N.eqb_sym).
    repeat progress (cbn [replace_scan startswith length Nat.sub app andb];
                     unfold char_eqb;
                     rewrite ?N.eqb_refl, ?Hac, ?Hca, ?Hbc, ?Hcb, ?Hab, ?Hba).
    reflexivity.
Qed.

Lemma remove_cjk_leaves_ideograph_witness :
  is_cjk 37504%N = true /\ is_cjk 33394%N = true /\ is_cjk 46%N = false /\
  remove_cjk [37504; 33394; 46; 33394; 37504; 33394]%N = [46; 33394]%N.
Proof.
  split; [reflexivity|]. split; [reflexivity|]. split; [reflexivity|].
  apply (remove_cjk_leaves_ideograph 37504%N 33394%N 46%N); reflexivity.
Defined.

(** *** The placeholder *)

Lemma replace_scan_before_first (a : char) (old new s1 s2 : pystr) :
  ~ In a s1 ->
  replace_scan (a :: old) new (s1 ++ s2) 0 = s1 ++ replace_scan (a :: old) new s2 0.
Proof.
  induction s1 as [|c s1 IH]; intros H; [reflexivity|].
  cbn [app replace_scan startswith].
  assert (Hc : char_eqb a c = false).
  { unfold char_eqb. apply N.eqb_neq. intros ->. apply H. now left. }
  rewrite Hc. cbn [andb]. rewrite IH; [reflexivity|].
  intros Hin. apply H. now right.
Qed.

(** X7. For a sentence without an opening bracket and indices in order,
    replacing the placeholder in the sentence that goes to the normalizer
    (line 166) by the span (line 151) gives the sentence back. *)
Theorem placeholder_round_trip (sent : pystr) (start end_ : Z) :
  (0 <= start <= end_)%Z ->
  ~ In 91%N sent ->
  replace (slice_to sent start ++ replace_token ++ slice_from sent end_)
    replace_token (slice sent start end_)
  = sent.
Proof.
  intros Horder Hbracket.
  assert (Hpre : ~ In 91%N (slice_to sent start)).
  { intros H. apply Hbracket. unfold slice_to in H. now apply In_firstn_part in H. }
  assert (Hpost : ~ In 91%N (slice_from sent end_)).
  { intros H. apply Hbracket. unfold slice_from in H. now apply In_skipn_part in H. }
  change replace_token with [91%N; 93%N]. unfold replace.
  rewrite replace_scan_before_first by exact Hpre.
  cbn [app replace_scan startswith length Nat.sub].
  unfold char_eqb. rewrite !N.eqb_refl. cbn [andb replace_scan].
  rewrite <- (app_nil_r (slice_from sent end_)) at 1.
  rewrite replace_scan_before_first by exact Hpost.
  cbn [replace_scan]. rewrite app_nil_r.
  apply slice_parts.
  rewrite !slice_bound_nonneg by lia. lia.
Qed.

Lemma placeholder_round_trip_witness :
  (0 <= 9 <= 13)%Z /\ ~ In 91%N (py "He plays bass well") /\
  replace (slice_to (py "He plays bass well") 9 ++ replace_token
             ++ slice_from (py "He plays bass well") 13)
    replace_token (slice (py "He plays bass well") 9 13)
  = py "He plays bass well".
Proof.
  assert (H1 : (0 <= 9 <= 13)%Z) by lia.
  assert (H2 : ~ In 91%N (py "He plays bass well")).
  { apply lacks_In. reflexivity. }
  split; [exact H1|]. split; [exact H2|].
  exact (placeholder_round_trip (py "He plays bass well") 9 13 H1 H2).
Defined.

End PrepareHelpersSpec.

(* ================================================================== *)
(** ** More properties of [normalize_wikihomograph_data] *)
(* ================================================================== *)

Module PrepareWikiDataMoreSpec.

Import PrepareWikiData PrepareWikiDataMore PrepareWikiDataSpec.

Section RelocateFacts.

Context {env : NormalizeEnv}.

(** X8. On a sentence where lower-casing goes with slicing, and for a
    homograph in lower case, the relocation of lines 152-156 never raises:
    [index] finds the occurrence that [count] saw, and the assertion holds.
    The span is the one the indices give, or, once relocated, the homograph
    itself, found in the lower-cased sentence at the new indices. *)
Theorem relocate_returns (sent homograph : pystr) (start end_ : Z) (s : state) :
  lower_goes_with_slicing sent ->
  lower homograph = homograph ->
  exists start' end' span,
    relocate sent homograph start end_ s = (Ok (start', end', span), s) /\
    ((start' = start /\ end' = end_ /\ span = slice sent start end_) \/
     (span = homograph /\ slice (lower sent) start' end' = homograph)).
Proof.
  intros Hslicing Hlow. unfold relocate.
  destruct (negb (eqb (lower (slice sent start end_)) homograph)
            && Nat.eqb (count (lower sent) homograph) 1) eqn:Hcond.
  - apply andb_true_iff in Hcond as [_ Hcount]. apply Nat.eqb_eq in Hcount.
    destruct (count_find (lower sent) homograph) as [idx Hidx]; [lia|].
    rewrite Hidx.
    pose proof (slice_at_find _ _ _ Hidx) as Hslice.
    rewrite Hslicing, Hslice, Hlow, eqb_refl.
    eexists _, _, _. split; [reflexivity|]. right. split; [reflexivity | exact Hslice].
  - eexists _, _, _. split; [reflexivity|]. left. repeat split.
Qed.

End RelocateFacts.

Section RunFacts.

Context {env : NormalizeEnv}.

(** *** A directory that is already processed *)

Lemma process_file_skips (output_dir file : pystr) (s : state) :
  In (output_path output_dir file) (existing s) ->
  process_file output_dir file s = (Ok tt, s).
Proof.
  intros Hin. unfold process_file, path_exists.
  rewrite (bind_run _ _ s s true); [reflexivity|].
  rewrite bind_get_store. unfold ret. f_equal. f_equal.
  apply existsb_exists. exists (output_path output_dir file).
  split; [exact Hin | apply eqb_refl].
Qed.

Lemma files_all_skipped (output_dir : pystr) (files : list pystr) (s : state) :
  (forall file, In file files -> In (output_path output_dir file) (existing s)) ->
  forall i, for_enumerate_from i files (fun _ => process_file output_dir) s = (Ok tt, s).
Proof.
  induction files as [|file files IH]; intros H i; simpl; [reflexivity|].
  rewrite (bind_run _ _ s s tt).
  - apply IH. intros f Hf. apply H. now right.
  - apply process_file_skips. apply H. now left.
Qed.

(** X9. When the output file of every TSV file exists already, a run reads
    no row, opens and writes nothing, and reports zero removed lines. *)
Theorem rerun_writes_nothing (subset post_fix data_folder : pystr)
  (files existing0 : list pystr) :
  (forall file, In file files ->
     In (output_path (output_dir_of subset post_fix data_folder) file) existing0) ->
  normalize_wikihomograph_data subset post_fix data_folder files (initial_state existing0)
  = (Ok tt,
     mkState 0 None existing0
       [EvPrintSummary (output_dir_of subset post_fix data_folder) 0]).
Proof.
  intros H. unfold normalize_wikihomograph_data, for_each, for_enumerate.
  rewrite (bind_run _ _ _ (initial_state existing0) tt).
  - reflexivity.
  - now apply files_all_skipped.
Qed.

(** *** Output files are fresh *)

Lemma same_outputs_emit (paths existing1 : list pystr) (e : event) :
  match e with EvOpenW _ => False | _ => True end ->
  preserves (same_outputs paths existing1) (emit e).
Proof.
  intros He. apply preserves_modify. intros s [Ho Hx]. split; [|exact Hx].
  unfold opened in *. simpl. destruct e; simpl; try exact Ho. contradiction.
Qed.

Lemma same_outputs_process_row (paths existing1 : list pystr)
  (file_name output_f : pystr) (start_end_indices : list (Z * Z))
  (word_ids : list json) (i : nat) (sent : pystr) :
  preserves (same_outputs paths existing1)
    (process_row file_name output_f start_end_indices word_ids i sent).
Proof.
  assert (Hkeep : forall f, (forall s, opened (f s) = opened s /\ existing (f s) = existing s) ->
                            preserves (same_outputs paths existing1) (modify f)).
  { intros f Hf. apply preserves_modify. intros s [Ho Hx].
    destruct (Hf s) as [H1 H2]. split; congruence. }
  unfold process_row.
  apply preserves_bind; [apply preserves_getitem|]. intros [start end_].
  destruct (correct_wikihomograph_data sent start end_) as [[sent' start'] end'].
  apply preserves_bind.
  { intros s Hs. now rewrite relocate_pure. }
  intros [[start'' end''] span].
  destruct (negb (eqb (lower span) (homograph_of file_name))).
  - apply preserves_bind.
    + unfold pdb_set_trace. apply preserves_bind; [now apply same_outputs_emit|].
      intros _. destruct (pdb_resume file_name i);
        [apply preserves_ret | apply preserves_raise].
    + intros _. apply Hkeep. intros s. now split.
  - unfold write_normalized. apply preserves_bind.
    { destruct (normalize _).
      - apply Hkeep. intros s. now split.
      - apply preserves_bind; [now apply same_outputs_emit|]. intros _.
        apply Hkeep. intros s. now split. }
    intros _. apply preserves_bind; [apply preserves_get|]. intros s0.
    apply preserves_bind; [apply preserves_read_local|]. intros t.
    apply preserves_bind; [apply Hkeep; intros s; now split|]. intros _.
    apply preserves_bind; [apply preserves_getitem|]. intros word_id.
    now apply same_outputs_emit.
Qed.

Lemma fresh_outputs_process_file (existing0 : list pystr) (output_dir file : pystr) :
  preserves (fresh_outputs existing0) (process_file output_dir file).
Proof.
  intros s Hs. unfold process_file, path_exists.
  rewrite (bind_run _ _ s s (existsb (eqb (output_path output_dir file)) (existing s)))
    by reflexivity.
  destruct (existsb (eqb (output_path output_dir file)) (existing s)) eqn:Hex.
  { exact Hs. }
  destruct (read_wikihomograph_file file) as [[[sentences sei] hs] wids].
  set (output_f := output_path output_dir file) in *.
  set (s1 := mkState (num_removed s) (norm_text s) (output_f :: existing s)
               (EvOpenW output_f :: trace s)).
  rewrite (bind_run (open_w output_f) _ s s1 tt) by reflexivity.
  destruct Hs as [Hexist [Hnodup [Hfresh Hwrites]]].
  assert (Hnew : ~ In output_f (existing s)).
  { intros Hin. assert (Ht : existsb (eqb output_f) (existing s) = true).
    { apply existsb_exists. exists output_f. split; [exact Hin | apply eqb_refl]. }
    congruence. }
  assert (Hopened1 : opened s1 = output_f :: opened s) by reflexivity.
  set (loop := for_enumerate sentences
                 (process_row (basename file) output_f sei wids)).
  assert (Hsame : same_outputs (output_f :: opened s) (output_f :: existing s)
                    (snd (loop s1))).
  { unfold loop, for_enumerate. apply preserves_for_enumerate_from.
    - intros i sent _. apply same_outputs_process_row.
    - split; reflexivity. }
  assert (Hw : writes_satisfy (fun p _ => In p (output_f :: opened s)) (snd (loop s1))).
  { unfold loop, for_enumerate. apply preserves_for_enumerate_from.
    - intros i sent _. apply PrepareWikiDataSpec.preserves_process_row.
      intros. now left.
    - intros p d [Heq|Hin]; [discriminate|]. right. now apply (Hwrites p d). }
  destruct Hsame as [Ho Hx].
  split; [|split; [|split]].
  - rewrite Ho, Hx, Hexist. reflexivity.
  - rewrite Ho. constructor; [|exact Hnodup].
    intros Hin. apply Hnew. rewrite Hexist. apply in_or_app. now left.
  - rewrite Ho. intros p [Heq|Hin].
    + subst p. intros Hin0. apply Hnew. rewrite Hexist. apply in_or_app. now right.
    + now apply Hfresh.
  - rewrite Ho. exact Hw.
Qed.

(** X10. A run never opens a file that was in the output directory before,
    never opens a file twice, also when two TSV files come to the same
    output name, and writes every line to a file that it opened. *)
Theorem outputs_are_fresh (subset post_fix data_folder : pystr)
  (files existing0 : list pystr) :
  let s := snd (normalize_wikihomograph_data subset post_fix data_folder files
                  (initial_state existing0)) in
  NoDup (opened s) /\
  Forall (fun p => ~ In p existing0) (opened s) /\
  Forall (fun pd => In (fst pd) (opened s)) (written s).
Proof.
  intros s.
  assert (H : fresh_outputs existing0 s).
  { unfold s, normalize_wikihomograph_data.
    apply preserves_bind.
    - apply preserves_for_each. intros file _. apply fresh_outputs_process_file.
    - intros _. apply preserves_bind; [apply preserves_get|]. intros s0.
      apply preserves_modify. intros s1 [H1 [H2 [H3 H4]]].
      repeat split; try assumption.
      intros p d [Heq|Hin]; [discriminate | now apply (H4 p d)].
    - repeat split; try constructor.
      + intros p [].
      + intros p d []. }
  destruct H as [_ [Hnodup [Hfresh Hwrites]]].
  split; [exact Hnodup|]. split.
  - apply Forall_forall. exact Hfresh.
  - apply Forall_forall. intros [p d] Hin. simpl.
    apply PrepareWikiDataSpec.written_iff in Hin. now apply (Hwrites p d).
Qed.

(** *** What the counter counts *)

Lemma tn_errors_cons (n : nat) (t : option pystr) (x : list pystr)
  (n' : nat) (t' : option pystr) (x' : list pystr) (e : event) (events : list event) :
  length (tn_errors (mkState n t x (e :: events)))
  = length (tn_errors (mkState n' t' x' events))
    + match e with EvPrintTNError _ => 1 | _ => 0 end.
Proof.
  unfold tn_errors. simpl. rewrite flat_map_app, length_app. simpl.
  destruct e; simpl; lia.
Qed.

Lemma counter_explained_emit (e : event) :
  match e with EvPrintTNError _ | EvPdbSetTrace _ _ => False | _ => True end ->
  preserves counter_explained (emit e).
Proof.
  intros He. apply preserves_modify. intros s Hs. unfold counter_explained in *.
  destruct s as [n t x events]. simpl.
  rewrite (tn_errors_cons _ _ _ n t x). unfold resumed_breakpoints in *. simpl in *.
  destruct e; simpl; try contradiction; lia.
Qed.

Lemma counter_explained_set_norm_text (t : pystr) :
  preserves counter_explained (set_norm_text t).
Proof. apply preserves_modify. intros s Hs. exact Hs. Qed.

Lemma counter_explained_breakpoint (file_name : pystr) (i : nat) :
  preserves counter_explained (bind (pdb_set_trace file_name i) (fun _ => incr_num_removed)).
Proof.
  intros s Hs. unfold pdb_set_trace, bind, emit, incr_num_removed, modify.
  simpl. unfold counter_explained in *.
  destruct s as [n t x events]. unfold resumed_breakpoints in *. simpl in *.
  destruct (pdb_resume file_name i) eqn:Hresume; simpl;
    rewrite (tn_errors_cons _ _ _ n t x); simpl; rewrite ?Hresume; simpl; lia.
Qed.

Lemma counter_explained_tn_error (sentence : pystr) :
  preserves counter_explained
    (bind (emit (EvPrintTNError sentence)) (fun _ => incr_num_removed)).
Proof.
  intros s Hs. unfold bind, emit, incr_num_removed, modify. simpl.
  unfold counter_explained in *.
  destruct s as [n t x events]. unfold resumed_breakpoints in *. simpl in *.
  rewrite (tn_errors_cons _ _ _ n t x). simpl. lia.
Qed.

Lemma counter_explained_process_row (file_name output_f : pystr)
  (start_end_indices : list (Z * Z)) (word_ids : list json) (i : nat) (sent : pystr) :
  preserves counter_explained
    (process_row file_name output_f start_end_indices word_ids i sent).
Proof.
  unfold process_row.
  apply preserves_bind; [apply preserves_getitem|]. intros [start end_].
  destruct (correct_wikihomograph_data sent start end_) as [[sent' start'] end'].
  apply preserves_bind.
  { intros s Hs. now rewrite relocate_pure. }
  intros [[start'' end''] span].
  destruct (negb (eqb (lower span) (homograph_of file_name))).
  - apply counter_explained_breakpoint.
  - unfold write_normalized. apply preserves_bind.
    { destruct (normalize _).
      - apply counter_explained_set_norm_text.
      - apply counter_explained_tn_error. }
    intros _. apply preserves_bind; [apply preserves_get|]. intros s0.
    apply preserves_bind; [apply preserves_read_local|]. intros t.
    apply preserves_bind; [apply counter_explained_set_norm_text|]. intros _.
    apply preserves_bind; [apply preserves_getitem|]. intros word_id.
    now apply counter_explained_emit.
Qed.

(** X11. Whatever a run does and however it ends, [num_removed] is the
    number of normalization errors reported plus the number of breakpoints
    after which the operator resumed the run. *)
Theorem num_removed_is_errors_and_breakpoints (subset post_fix data_folder : pystr)
  (files existing0 : list pystr) :
  let s := snd (normalize_wikihomograph_data subset post_fix data_folder files
                  (initial_state existing0)) in
  num_removed s = length (tn_errors s) + length (resumed_breakpoints s).
Proof.
  intros s.
  change (counter_explained s). unfold s, normalize_wikihomograph_data.
  apply preserves_bind.
  - apply preserves_for_each. intros file _. unfold process_file.
    apply preserves_bind.
    { unfold path_exists. apply preserves_bind; [apply preserves_get|].
      intros s0. apply preserves_ret. }
    intros [|]; [apply preserves_ret|].
    destruct (read_wikihomograph_file file) as [[[sentences sei] hs] wids].
    apply preserves_bind.
    { apply preserves_modify. intros s0 Hs0. unfold counter_explained in *.
      destruct s0 as [n t x events]. unfold resumed_breakpoints in *. simpl in *.
      rewrite (tn_errors_cons _ _ _ n t x). simpl. lia. }
    intros _. unfold for_enumerate. apply preserves_for_enumerate_from.
    intros i sent _. apply counter_explained_process_row.
  - intros _. apply preserves_bind; [apply preserves_get|]. intros s0.
    now apply counter_explained_emit.
  - reflexivity.
Qed.

End RunFacts.

Import Scenarios.

Lemma In_slice (s : pystr) (a b : Z) (x : char) : In x (slice s a b) -> In x s.
Proof.
  unfold slice. intros H. apply In_firstn_part in H. now apply In_skipn_part in H.
Qed.

Lemma dotted_lower_plain (s : pystr) :
  ~ In 304%N s -> dotted_lower s = map ascii_lower_char s.
Proof.
  induction s as [|c s IH]; intros H; [reflexivity|].
  unfold dotted_lower in *. cbn [flat_map map].
  destruct (N.eqb c 304) eqn:E.
  - apply N.eqb_eq in E. exfalso. apply H. now left.
  - cbn [app]. f_equal. apply IH. intros Hin. apply H. now right.
Qed.

(** Without a capital I with a dot above in the sentence, [dotted_lower]
    goes with slicing. *)
Lemma dotted_lower_goes_with_slicing (sent : pystr) :
  ~ In 304%N sent -> lower_goes_with_slicing (env := dotted_env) sent.
Proof.
  intros H a b. change (dotted_lower (slice sent a b) = slice (dotted_lower sent) a b).
  rewrite !dotted_lower_plain.
  - symmetry. apply slice_map.
  - exact H.
  - intros Hin. apply H. now apply In_slice in Hin.
Qed.

Lemma relocate_returns_witness :
  lower_goes_with_slicing (env := dotted_env) (py "A Bass swam") /\
  lower (NormalizeEnv := dotted_env) (py "bass") = py "bass" /\
  exists start' end' span,
    relocate (env := dotted_env) (py "A Bass swam") (py "bass") 0 1 (initial_state [])
    = (Ok (start', end', span), initial_state []) /\
    ((start' = 0%Z /\ end' = 1%Z /\ span = slice (py "A Bass swam") 0 1) \/
     (span = py "bass" /\
      slice (lower (NormalizeEnv := dotted_env) (py "A Bass swam")) start' end'
      = py "bass")).
Proof.
  assert (H1 : lower_goes_with_slicing (env := dotted_env) (py "A Bass swam")).
  { apply dotted_lower_goes_with_slicing. vm_compute. intuition discriminate. }
  assert (H2 : lower (NormalizeEnv := dotted_env) (py "bass") = py "bass")
    by reflexivity.
  split; [exact H1|]. split; [exact H2|].
  exact (relocate_returns (env := dotted_env) (py "A Bass swam") (py "bass") 0 1
           (initial_state []) H1 H2).
Defined.

(** The relocation at work: the span [A] does not match, [bass] occurs once,
    and the indices move to it. *)
Example relocate_moves_indices :
  relocate (env := dotted_env) (py "A Bass swam") (py "bass") 0 1 (initial_state [])
  = (Ok (2%Z, 6%Z, py "bass"), initial_state []).
Proof. reflexivity. Qed.

Lemma rerun_writes_nothing_witness :
  (forall file, In file [bass_tsv] ->
     In (output_path (output_dir_of (py "train") (py "norm") (py "data")) file)
       [bass_json]) /\
  normalize_wikihomograph_data (env := wiki_env rows_all_fine true)
    (py "train") (py "norm") (py "data") [bass_tsv] (initial_state [bass_json])
  = (Ok tt,
     mkState 0 None [bass_json]
       [EvPrintSummary (output_dir_of (py "train") (py "norm") (py "data")) 0]).
Proof.
  assert (H : forall file, In file [bass_tsv] ->
     In (output_path (output_dir_of (py "train") (py "norm") (py "data")) file)
       [bass_json]).
  { intros file [<-|[]]. left. vm_compute. reflexivity. }
  split; [exact H|].
  exact (rerun_writes_nothing (env := wiki_env rows_all_fine true)
           (py "train") (py "norm") (py "data") [bass_tsv] [bass_json] H).
Defined.

(** Python lower-cases the capital I with a dot above to two code points.
    On a sentence with that letter before the homograph, the indices found
    in the lower-cased sentence do not fit the sentence, and the assertion
    of line 156 fails. *)
Example relocate_assertion_fails :
  relocate (env := dotted_env) ([304; 304; 32]%N ++ py "bass") (py "bass") 0 2
    (initial_state [])
  = (Raise AssertionError, initial_state []).
Proof. reflexivity. Qed.

End PrepareWikiDataMoreSpec.

(* ================================================================== *)
(** ** More properties of [_prepare_wikihomograph_data] *)
(* ================================================================== *)

Module PrepareStage2Spec.

Import PrepareWikiData PrepareWikiDataMore.

Section Stage2Facts.

Context {env : PrepareEnv}.

Lemma dict_getitem_pure (d : dict) (k : string) (s : prep_state) :
  snd (dict_getitem d k s) = s.
Proof. unfold dict_getitem. destruct (dict_get k d); reflexivity. Qed.

Lemma as_str_pure (v : json) (s : prep_state) : snd (as_str v s) = s.
Proof. destruct v; reflexivity. Qed.

Lemma lookup_wordid_pure (word_id : json) (s : prep_state) :
  snd (lookup_wordid word_id s) = s.
Proof.
  destruct word_id; try reflexivity. simpl.
  destruct (wordid_to_nemo_cmu s0); reflexivity.
Qed.

(** *** Every line is written or dropped *)

Lemma handled_set_graphemes_ (k : nat) (g : pystr) :
  returns (handled k) (set_graphemes_ g) (fun _ => handled k).
Proof. apply returns_modify. intros s H. exact H. Qed.

Lemma handled_prepare_line (k : nat) (line : json) :
  returns (handled k) (prepare_line line) (fun _ => handled (S k)).
Proof.
  destruct line as [| | | | |l|d]; try apply returns_raise.
  unfold prepare_line.
  apply returns_bind with (Q := fun _ => handled k).
  { apply returns_pure. apply dict_getitem_pure. }
  intros graphemes. apply returns_bind with (Q := fun _ => handled k).
  { apply returns_pure. apply as_str_pure. }
  intros g. destruct (negb (is_valid (remove_cjk g))).
  - apply returns_bind with (Q := fun _ => handled k).
    { apply returns_pure. reflexivity. }
    intros s0. apply returns_bind with (Q := fun _ => handled k).
    { apply returns_pure. apply read_local_pure. }
    intros g0. apply returns_modify. intros s H. unfold handled in *. simpl.
    rewrite length_app. simpl. lia.
  - destruct (ipa_tok (remove_cjk g)) as [ipa_ g_].
    apply returns_bind with (Q := fun _ => handled k);
      [apply handled_set_graphemes_|]. intros _.
    apply returns_bind with (Q := fun _ => handled k).
    { apply returns_pure. apply dict_getitem_pure. }
    intros span. apply returns_bind with (Q := fun _ => handled k).
    { apply returns_pure. apply as_str_pure. }
    intros span'. apply returns_bind with (Q := fun _ => handled k);
      [apply handled_set_graphemes_|]. intros _.
    apply returns_bind with (Q := fun _ => handled k).
    { apply returns_pure. apply dict_getitem_pure. }
    intros word_id. apply returns_bind with (Q := fun _ => handled k).
    { apply returns_pure. apply lookup_wordid_pure. }
    intros heteronym_ipa. apply returns_bind with (Q := fun _ => handled k);
      [apply handled_set_graphemes_|]. intros _.
    apply returns_modify. intros s H. unfold handled in *. simpl. lia.
Qed.

Lemma handled_files (files : list pystr) :
  forall (k i : nat),
    returns (handled k)
      (for_enumerate_from i files
         (fun _ file => for_each (read_manifest file) prepare_line))
      (fun _ => handled (k + length (input_lines files))).
Proof.
  induction files as [|file files IH]; intros k i; simpl.
  - intros s H. simpl. unfold handled in *. lia.
  - apply returns_bind with (Q := fun _ => handled (k + length (read_manifest file))).
    + unfold for_each, for_enumerate.
      eapply returns_weaken.
      * apply (returns_for_enumerate_from (fun n => handled (k + n))
                 (read_manifest file)) with (k := 0).
        intros n j x. cbv beta. rewrite Nat.add_succ_r. apply handled_prepare_line.
      * intros s Hs. cbv beta. now rewrite Nat.add_0_r.
      * intros a s Hs. exact Hs.
    + intros u. eapply returns_weaken;
        [apply (IH (k + length (read_manifest file)) (S i)) | auto |].
      intros a s H. unfold handled, input_lines in *. simpl.
      rewrite length_app. lia.
Qed.

(** X12. When [_prepare_wikihomograph_data] returns, every line of the
    normalized files was either written to the manifest or put on [drop]:
    the two numbers add up to the number of lines read.  The report gives
    the length of [drop], and the value returned is the path of the
    manifest in the output directory. *)
Theorem prepare_accounts_for_every_line (output_dir split : pystr)
  (files : list pystr) (manifest : pystr) :
  let run := _prepare_wikihomograph_data output_dir split files initial_prep_state in
  fst run = Ok manifest ->
  length (manifest_lines (snd run)) + length (drop (snd run))
    = length (input_lines files) /\
  reported (snd run) = Some (length (drop (snd run))) /\
  manifest = output_dir ++ py "/" ++ split ++ py "_wikihomograph.json".
Proof.
  intros run Hok.
  assert (H : returns (handled 0)
                (_prepare_wikihomograph_data output_dir split files)
                (fun m s =>
                   handled (length (input_lines files)) s /\
                   reported s = Some (length (drop s)) /\
                   m = output_dir ++ py "/" ++ split ++ py "_wikihomograph.json")).
  { unfold _prepare_wikihomograph_data.
    apply returns_bind with (Q := fun _ => handled (length (input_lines files))).
    - unfold for_each at 1, for_enumerate. apply (handled_files files 0 0).
    - intros u.
      apply returns_bind
        with (Q := fun _ s => handled (length (input_lines files)) s /\
                              reported s = Some (length (drop s))).
      + apply returns_modify. intros s Hs. split; [exact Hs | reflexivity].
      + intros u'. intros s [H1 H2]. simpl. repeat split; assumption. }
  specialize (H initial_prep_state). fold run in H.
  destruct run as [[m|e] s']; simpl in *; [|discriminate].
  injection Hok as ->.
  destruct H as [H1 [H2 H3]]; [reflexivity|].
  unfold manifest_lines. rewrite length_rev. unfold handled in H1.
  repeat split; assumption.
Qed.

(** *** What is put on [drop] *)

Lemma is_written_text_more (s s' : prep_state) (g : pystr) :
  (forall line, In line (manifest_out s) -> In line (manifest_out s')) ->
  is_written_text s g -> is_written_text s' g.
Proof. intros Hincl [line [Hin Hg]]. exists line. split; [now apply Hincl | exact Hg]. Qed.

Lemma drop_only_set_graphemes_ (g : pystr) :
  returns drop_only (set_graphemes_ g) (fun _ => drop_only).
Proof. apply returns_modify. intros s H. exact H. Qed.

Lemma drop_prepare_line (line : json) :
  returns drop_is_written_text (prepare_line line) (fun _ => drop_is_written_text).
Proof.
  destruct line as [| | | | |l|d]; try apply returns_raise.
  unfold prepare_line.
  apply returns_bind with (Q := fun _ => drop_is_written_text).
  { apply returns_pure. apply dict_getitem_pure. }
  intros graphemes. apply returns_bind with (Q := fun _ => drop_is_written_text).
  { apply returns_pure. apply as_str_pure. }
  intros g. destruct (negb (is_valid (remove_cjk g))).
  - intros s Hs. unfold bind, get, read_local.
    destruct (graphemes_ s) as [g0|] eqn:Hg0; simpl; [|exact I].
    destruct Hs as [Hdrop Hlocal]. split.
    + simpl. apply Forall_app. split.
      * eapply Forall_impl; [|exact Hdrop]. intros x Hx.
        now apply (is_written_text_more s).
      * constructor; [|constructor].
        apply (is_written_text_more s); [auto|]. now apply Hlocal.
    + simpl. intros g' Hg'. apply (is_written_text_more s); [auto|].
      now apply Hlocal.
  - destruct (ipa_tok (remove_cjk g)) as [ipa_ g_].
    apply returns_bind with (Q := fun _ => drop_only).
    { apply returns_modify. intros s [H _]. exact H. }
    intros _. apply returns_bind with (Q := fun _ => drop_only).
    { apply returns_pure. apply dict_getitem_pure. }
    intros span. apply returns_bind with (Q := fun _ => drop_only).
    { apply returns_pure. apply as_str_pure. }
    intros span'. apply returns_bind with (Q := fun _ => drop_only);
      [apply drop_only_set_graphemes_|]. intros _.
    apply returns_bind with (Q := fun _ => drop_only).
    { apply returns_pure. apply dict_getitem_pure. }
    intros word_id. apply returns_bind with (Q := fun _ => drop_only).
    { apply returns_pure. apply lookup_wordid_pure. }
    intros heteronym_ipa.
    intros s Hs. unfold bind, set_graphemes_, write_line, modify. simpl.
    split.
    + simpl. eapply Forall_impl; [|exact Hs]. intros x Hx.
      apply (is_written_text_more s); [|exact Hx]. intros line Hin. now right.
    + simpl. intros g' Hg'. injection Hg' as <-.
      eexists. split; [now left|].
      repeat (rewrite dict_get_set_neq by discriminate).
      apply dict_get_set_eq.
Qed.

(** X13. When [_prepare_wikihomograph_data] returns, every entry of [drop]
    is the [text_graphemes] of a line written to the manifest: on a failed
    validity check, line 208 records the graphemes of the last line that
    passed, not those of the line that failed. *)
Theorem drop_holds_written_text (output_dir split : pystr) (files : list pystr)
  (manifest : pystr) :
  let run := _prepare_wikihomograph_data output_dir split files initial_prep_state in
  fst run = Ok manifest ->
  Forall (fun g => exists line,
              In line (manifest_lines (snd run)) /\
              dict_get "text_graphemes" line = Some (JStr g))
    (drop (snd run)).
Proof.
  intros run Hok.
  assert (H : returns drop_is_written_text
                (_prepare_wikihomograph_data output_dir split files)
                (fun _ => drop_is_written_text)).
  { unfold _prepare_wikihomograph_data.
    apply returns_bind with (Q := fun _ => drop_is_written_text).
    - unfold for_each at 1, for_enumerate.
      assert (Hloop : forall (l : list json) i,
                 returns drop_is_written_text
                   (for_enumerate_from i l (fun _ => prepare_line))
                   (fun _ => drop_is_written_text)).
      { intros l i. eapply returns_weaken.
        - apply (returns_for_enumerate_from (fun _ => drop_is_written_text) l)
            with (k := 0).
          intros n j x. apply drop_prepare_line.
        - auto.
        - auto. }
      eapply returns_weaken.
      + apply (returns_for_enumerate_from (fun _ => drop_is_written_text) files)
          with (k := 0).
        intros n j file. unfold for_each, for_enumerate. apply Hloop.
      + auto.
      + auto.
    - intros u. apply returns_bind with (Q := fun _ => drop_is_written_text).
      + apply returns_modify. intros s Hs. exact Hs.
      + intros u'. apply returns_pure. reflexivity. }
  specialize (H initial_prep_state). fold run in H.
  destruct run as [[m|e] s']; simpl in *; [|discriminate].
  destruct H as [Hdrop _].
  { split; [constructor | discriminate]. }
  eapply Forall_impl; [|exact Hdrop].
  intros g [line [Hin Hg]]. exists line. split; [|exact Hg].
  unfold manifest_lines. now apply in_rev in Hin.
Qed.

End Stage2Facts.

Import Scenarios.

Lemma prepare_accounts_for_every_line_witness :
  fst (run_prepare normalized_lines) = Ok (py "TMP/eval_wikihomograph.json") /\
  (length (manifest_lines (snd (run_prepare normalized_lines)))
     + length (drop (snd (run_prepare normalized_lines)))
   = length (input_lines (env := prep_env normalized_lines) [bass_json]) /\
   reported (snd (run_prepare normalized_lines))
   = Some (length (drop (snd (run_prepare normalized_lines)))) /\
   py "TMP/eval_wikihomograph.json" = py "TMP" ++ py "/" ++ py "eval" ++ py "_wikihomograph.json").
Proof.
  assert (H : fst (run_prepare normalized_lines) = Ok (py "TMP/eval_wikihomograph.json"))
    by (vm_compute; reflexivity).
  split; [exact H|].
  exact (prepare_accounts_for_every_line (env := prep_env normalized_lines)
           (py "TMP") (py "eval") [bass_json] (py "TMP/eval_wikihomograph.json") H).
Defined.

(** The line that failed is not on [drop]; the text of the line before is. *)
Example second_invalid_drop :
  run_prepare lines_second_invalid
  = (Ok (py "TMP/eval_wikihomograph.json"),
     mkPrep [py "He plays bass well"] (Some (py "He plays bass well"))
       (manifest_out (snd (run_prepare lines_second_invalid))) (Some 1)) /\
  length (manifest_out (snd (run_prepare lines_second_invalid))) = 1.
Proof. vm_compute. split; reflexivity. Qed.

Lemma drop_holds_written_text_witness :
  fst (run_prepare lines_second_invalid) = Ok (py "TMP/eval_wikihomograph.json") /\
  Forall (fun g => exists line,
              In line (manifest_lines (snd (run_prepare lines_second_invalid))) /\
              dict_get "text_graphemes" line = Some (JStr g))
    (drop (snd (run_prepare lines_second_invalid))).
Proof.
  assert (H : fst (run_prepare lines_second_invalid)
              = Ok (py "TMP/eval_wikihomograph.json")) by (vm_compute; reflexivity).
  split; [exact H|].
  exact (drop_holds_written_text (env := prep_env lines_second_invalid)
           (py "TMP") (py "eval") [bass_json] (py "TMP/eval_wikihomograph.json") H).
Defined.

End PrepareStage2Spec.

(* ================================================================== *)
(** ** Properties of [g2p_ctc.py] *)
(* ================================================================== *)

Module G2PCTCSpec.

Import G2PCTC.

Section InferFacts.

Context {env : InferEnv}.

Lemma train_sets_training (mode : bool) (s : state net) :
  fst (train mode s) = Ok tt /\
  training (model (snd (train mode s))) = mode /\
  fs (snd (train mode s)) = fs s /\
  log (snd (train mode s)) = log s.
Proof. repeat split. Qed.

(** C9. [_infer] leaves the model's [training] flag as it found it, whether
    the inference loop runs to its end or something in it raises, and
    whatever the calls on the model do to the module in between. *)
Theorem infer_restores_training (manifest_filepath : pystr)
  (batch_size num_workers : nat) (s : state net) :
  training (model (snd (_infer manifest_filepath batch_size num_workers s)))
  = training (model s).
Proof.
  unfold _infer. rewrite bind_get_store, try_finally_store.
  apply train_sets_training.
Qed.

(** *** The files are not touched by [_infer] *)

Lemma preserves_on_model {A} (files : list (pystr * list dict)) (l : list log_event)
  (m : M (module net) A) :
  preserves (same_files files l) (on_model m).
Proof.
  intros s [Hfs Hlog]. unfold on_model. destruct (m (model s)) as [r mdl].
  split; assumption.
Qed.

Lemma preserves_infer_batches (files : list (pystr * list dict)) (l : list log_event)
  (dev : device) (batches : list batch) :
  forall all_preds, preserves (same_files files l) (infer_batches dev batches all_preds).
Proof.
  induction batches as [|b batches IH]; intros all_preds; simpl.
  - apply preserves_ret.
  - apply preserves_bind; [apply preserves_on_model|]. intros lp.
    apply preserves_bind; [apply preserves_on_model|]. intros preds. apply IH.
Qed.

Lemma preserves_infer (files : list (pystr * list dict)) (l : list log_event)
  (manifest_filepath : pystr) (batch_size num_workers : nat) :
  preserves (same_files files l) (_infer manifest_filepath batch_size num_workers).
Proof.
  unfold _infer. apply preserves_bind; [apply preserves_get|]. intros s0.
  apply preserves_try_finally.
  - apply preserves_bind; [apply preserves_on_model|]. intros _.
    apply preserves_bind; [apply preserves_on_model|]. intros _.
    apply preserves_bind; [apply preserves_on_model|]. intros batches.
    apply preserves_infer_batches.
  - apply preserves_on_model.
Qed.

(** *** The loop over the lines, without a target field *)

Lemma skipn_nth_error {A} (l : list A) (i : nat) (x : A) :
  nth_error l i = Some x -> skipn i l = x :: skipn (S i) l.
Proof.
  revert i; induction l as [|a l IH]; intros [|i] H; simpl in *; try discriminate.
  - now injection H as ->.
  - now apply IH.
Qed.

Lemma fs_lookup_same (files : list (pystr * list dict)) (path : pystr) (lines : list dict) :
  fs_lookup ((path, lines) :: files) path = Some lines.
Proof. simpl. now rewrite eqb_refl. Qed.

Lemma convert_lines_without_target (manifest_filepath output_manifest_filepath : pystr)
  (all_preds : list pystr) (lines : list dict) :
  forall (i : nat) (all_targets : list json) (written : list dict) (s : state net),
    fs_lookup (fs s) output_manifest_filepath = Some written ->
    i + length lines <= length all_preds ->
    exists s',
      convert_lines manifest_filepath output_manifest_filepath None all_preds
        all_targets i lines s = (Ok all_targets, s') /\
      fs_lookup (fs s') output_manifest_filepath
        = Some (written ++ expected_output lines (skipn i all_preds)) /\
      model s' = model s /\ log s' = log s.
Proof.
  induction lines as [|line lines IH]; intros i all_targets written s Hout Hlen.
  - exists s. simpl. rewrite app_nil_r. repeat split; trivial.
  - simpl in Hlen.
    destruct (nth_error all_preds i) as [pred|] eqn:Hpred.
    2:{ apply nth_error_None in Hpred. lia. }
    pose (s1 := mkState (model s)
                  ((output_manifest_filepath,
                    written ++ [with_pred_text line pred]) :: fs s) (log s)).
    destruct (IH (S i) all_targets (written ++ [with_pred_text line pred]) s1)
      as [s' [Hrun [Hfs [Hmodel Hlog]]]].
    { apply fs_lookup_same. }
    { lia. }
    exists s'. split; [|split; [|split]].
    + simpl. unfold convert_line, bind, ret, getitem, write_line, modify.
      rewrite Hpred. simpl. rewrite Hout. exact Hrun.
    + rewrite Hfs, (skipn_nth_error _ _ _ Hpred). simpl.
      now rewrite <- app_assoc.
    + exact Hmodel.
    + exact Hlog.
Qed.

Lemma expected_output_length (lines : list dict) (all_preds : list pystr) :
  length lines <= length all_preds ->
  length (expected_output lines all_preds) = length lines.
Proof.
  revert all_preds; induction lines as [|line lines IH]; intros [|p preds] H;
    simpl in *; try lia.
  rewrite IH; lia.
Qed.

Lemma expected_output_nth (lines : list dict) (all_preds : list pystr) (i : nat)
  (line : dict) (pred : pystr) :
  nth_error lines i = Some line -> nth_error all_preds i = Some pred ->
  nth_error (expected_output lines all_preds) i = Some (with_pred_text line pred).
Proof.
  revert all_preds i; induction lines as [|l lines IH]; intros [|p preds] [|i] Hl Hp;
    simpl in *; try discriminate.
  - now injection Hl as ->; injection Hp as ->.
  - now apply IH.
Qed.

Lemma open_r_run (path : pystr) (s : state net) (lines : list dict) :
  fs_lookup (fs s) path = Some lines -> open_r path s = (Ok tt, s).
Proof. intros H. unfold open_r. rewrite bind_get_store. now rewrite H. Qed.

Lemma read_lines_run (path : pystr) (s : state net) (lines : list dict) :
  fs_lookup (fs s) path = Some lines -> read_lines path s = (Ok lines, s).
Proof. intros H. unfold read_lines. rewrite bind_get_store. now rewrite H. Qed.

(** C8, as the code has it.  Without a target field, with an output path
    other than the input path, and when [_infer] returns at least one
    prediction per line of the manifest, [convert_graphemes_to_phonemes]
    returns the list of all predictions, and the output manifest holds
    exactly one line per input line, in the same order, each the input object
    with [pred_text] set to the prediction of the same index. *)
Theorem convert_writes_predictions
  (manifest_filepath output_manifest_filepath : pystr)
  (batch_size num_workers : nat) (s : state net)
  (lines : list dict) (all_preds : list pystr) :
  manifest_filepath <> output_manifest_filepath ->
  fs_lookup (fs s) manifest_filepath = Some lines ->
  fst (_infer manifest_filepath batch_size num_workers s) = Ok all_preds ->
  length lines <= length all_preds ->
  let run := convert_graphemes_to_phonemes manifest_filepath output_manifest_filepath
               batch_size num_workers None s in
  fst run = Ok all_preds /\
  fs_lookup (fs (snd run)) output_manifest_filepath
    = Some (expected_output lines all_preds) /\
  length (expected_output lines all_preds) = length lines.
Proof.
  intros Hpaths Hin Hinfer Hlen run. subst run.
  assert (Hsame : same_files (fs s) (log s)
                    (snd (_infer manifest_filepath batch_size num_workers s))).
  { apply preserves_infer. split; reflexivity. }
  destruct (_infer manifest_filepath batch_size num_workers s) as [r s1] eqn:Hrun1.
  simpl in Hinfer, Hsame. subst r. destruct Hsame as [Hfs1 Hlog1].
  assert (Hin1 : fs_lookup (fs s1) manifest_filepath = Some lines) by now rewrite Hfs1.
  assert (Hne : eqb manifest_filepath output_manifest_filepath = false).
  { destruct (eqb manifest_filepath output_manifest_filepath) eqn:E; trivial.
    apply eqb_eq in E. contradiction. }
  pose (s2 := mkState (model s1) ((output_manifest_filepath, []) :: fs s1) (log s1)).
  assert (Hin2 : fs_lookup (fs s2) manifest_filepath = Some lines).
  { simpl. now rewrite Hne. }
  destruct (convert_lines_without_target manifest_filepath output_manifest_filepath
              all_preds lines 0 [] [] s2)
    as [s3 [Hrun3 [Hfs3 [Hmodel3 Hlog3]]]].
  { apply fs_lookup_same. }
  { simpl. exact Hlen. }
  unfold convert_graphemes_to_phonemes.
  rewrite (bind_run _ _ _ _ _ Hrun1).
  rewrite (bind_run _ _ _ _ _ (open_r_run _ _ _ Hin1)).
  rewrite (bind_run (open_w output_manifest_filepath) _ s1 s2 tt eq_refl).
  rewrite (bind_run _ _ _ _ _ (read_lines_run _ _ _ Hin2)).
  rewrite (bind_run _ _ _ _ _ Hrun3).
  simpl. split; [reflexivity|]. split.
  - exact Hfs3.
  - now apply expected_output_length.
Qed.

End InferFacts.

Import Scenarios.

Example infer_toy_predictions :
  _infer (env := toy_g2p true) in_manifest 32 0 (g2p_state true)
  = (Ok [py "cba"; py "ed"], g2p_state true).
Proof. reflexivity. Qed.

(** A forward pass that raises: the exception leaves [_infer], and the model
    is back in training mode. *)
Example infer_toy_raises :
  _infer (env := toy_g2p false) in_manifest 32 0 (g2p_state true)
  = (Raise (ExternalError (py "forward")), g2p_state true).
Proof. reflexivity. Qed.

Example convert_toy_output :
  fs_lookup
    (fs (snd (convert_graphemes_to_phonemes (env := toy_g2p true)
                in_manifest out_manifest 32 0 None (g2p_state false))))
    out_manifest
  = Some
      [ [("text_graphemes", JStr (py "abc")); ("text", JStr (py "x"));
         ("phonemes", JStr (py "ph1")); ("pred_text", JStr (py "cba"))];
        [("text_graphemes", JStr (py "de")); ("text", JStr (py "y"));
         ("phonemes", JStr (py "ph2")); ("pred_text", JStr (py "ed"))] ]%string.
Proof. reflexivity. Qed.

Lemma convert_writes_predictions_witness :
  in_manifest <> out_manifest /\
  fs_lookup (fs (g2p_state false)) in_manifest = Some g2p_lines /\
  fst (_infer (env := toy_g2p true) in_manifest 32 0 (g2p_state false))
    = Ok [py "cba"; py "ed"] /\
  length g2p_lines <= length [py "cba"; py "ed"] /\
  (let run := convert_graphemes_to_phonemes (env := toy_g2p true)
                in_manifest out_manifest 32 0 None (g2p_state false) in
   fst run = Ok [py "cba"; py "ed"] /\
   fs_lookup (fs (snd run)) out_manifest
     = Some (expected_output g2p_lines [py "cba"; py "ed"]) /\
   length (expected_output g2p_lines [py "cba"; py "ed"]) = length g2p_lines).
Proof.
  assert (H1 : in_manifest <> out_manifest) by (vm_compute; discriminate).
  assert (H2 : fs_lookup (fs (g2p_state false)) in_manifest = Some g2p_lines)
    by reflexivity.
  assert (H3 : fst (_infer (env := toy_g2p true) in_manifest 32 0 (g2p_state false))
               = Ok [py "cba"; py "ed"]) by reflexivity.
  assert (H4 : length g2p_lines <= length [py "cba"; py "ed"]) by (simpl; lia).
  split; [exact H1|]. split; [exact H2|]. split; [exact H3|]. split; [exact H4|].
  exact (convert_writes_predictions (env := toy_g2p true) in_manifest out_manifest
           32 0 (g2p_state false) g2p_lines [py "cba"; py "ed"] H1 H2 H3 H4).
Defined.

(** Converting a manifest in place: opening it for writing empties it before
    the first line is read, so nothing is written. *)
Example convert_in_place_empties_manifest :
  let run := convert_graphemes_to_phonemes (env := toy_g2p true)
               in_manifest in_manifest 32 0 None (g2p_state false) in
  fst run = Ok [py "cba"; py "ed"] /\
  fs_lookup (fs (snd run)) in_manifest = Some [].
Proof. vm_compute. split; reflexivity. Qed.

(** With a target field that the lines carry, the lines written are not the
    input lines with [pred_text] set: [text] is overwritten, and [graphemes]
    and [PER] are added. *)
Lemma convert_with_target_field_counterexample :
  let run := convert_graphemes_to_phonemes (env := toy_g2p true)
               in_manifest out_manifest 32 0 (Some "phonemes"%string) (g2p_state false) in
  fs_lookup (fs (g2p_state false)) in_manifest = Some g2p_lines /\
  fst run = Ok [py "cba"; py "ed"] /\
  fs_lookup (fs (snd run)) out_manifest
    <> Some (expected_output g2p_lines [py "cba"; py "ed"]) /\
  option_map (map (dict_get "text")) (fs_lookup (fs (snd run)) out_manifest)
    = Some [Some (JStr (py "ph1")); Some (JStr (py "ph2"))] /\
  option_map (map (dict_mem "PER")) (fs_lookup (fs (snd run)) out_manifest)
    = Some [true; true].
Proof.
  vm_compute. repeat split; try reflexivity. discriminate.
Qed.

End G2PCTCSpec.

(* ================================================================== *)
(** ** More properties of [g2p_ctc.py] *)
(* ================================================================== *)

Module G2PCTCMoreSpec.

Import G2PCTC G2PCTCMore G2PCTCSpec.

Section ConvertFacts.

Context {env : InferEnv}.

(** *** Fewer predictions than lines *)

Lemma expected_output_min (lines : list dict) (all_preds : list pystr) :
  length (expected_output lines all_preds) = Nat.min (length lines) (length all_preds).
Proof.
  revert all_preds; induction lines as [|line lines IH]; intros [|p preds];
    simpl; try reflexivity.
  now rewrite IH.
Qed.

Lemma convert_lines_short (manifest_filepath output_manifest_filepath : pystr)
  (all_preds : list pystr) (lines : list dict) :
  forall (i : nat) (all_targets : list json) (written : list dict) (s : state net),
    fs_lookup (fs s) output_manifest_filepath = Some written ->
    i <= length all_preds ->
    length all_preds < i + length lines ->
    exists s',
      convert_lines manifest_filepath output_manifest_filepath None all_preds
        all_targets i lines s = (Raise IndexError, s') /\
      fs_lookup (fs s') output_manifest_filepath
        = Some (written ++ expected_output lines (skipn i all_preds)) /\
      model s' = model s /\ log s' = log s.
Proof.
  induction lines as [|line lines IH]; intros i all_targets written s Hout Hi Hlen.
  - simpl in Hlen. lia.
  - simpl in Hlen.
    destruct (nth_error all_preds i) as [pred|] eqn:Hpred.
    + assert (Hlt : i < length all_preds).
      { apply nth_error_Some. congruence. }
      pose (s1 := mkState (model s)
                    ((output_manifest_filepath,
                      written ++ [with_pred_text line pred]) :: fs s) (log s)).
      destruct (IH (S i) all_targets (written ++ [with_pred_text line pred]) s1)
        as [s' [Hrun [Hfs [Hmodel Hlog]]]].
      { apply fs_lookup_same. }
      { lia. }
      { lia. }
      exists s'. split; [|split; [|split]].
      * simpl. unfold convert_line, bind, ret, getitem, write_line, modify.
        rewrite Hpred. simpl. rewrite Hout. exact Hrun.
      * rewrite Hfs, (skipn_nth_error _ _ _ Hpred). simpl.
        now rewrite <- app_assoc.
      * exact Hmodel.
      * exact Hlog.
    + exists s. split; [|split; [|split]]; try reflexivity.
      * simpl. unfold convert_line, bind, ret, getitem.
        rewrite Hpred. reflexivity.
      * apply nth_error_None in Hpred.
        rewrite skipn_all2 by exact Hpred.
        simpl. now rewrite app_nil_r.
Qed.

(** X14. When the model returns fewer predictions than the manifest has
    lines, and there is no target field, [convert_graphemes_to_phonemes]
    raises [IndexError] at the first line without a prediction; the output
    manifest is left with the lines that had one, as many as there are
    predictions. *)
Theorem convert_with_too_few_predictions
  (manifest_filepath output_manifest_filepath : pystr)
  (batch_size num_workers : nat) (s : state net)
  (lines : list dict) (all_preds : list pystr) :
  manifest_filepath <> output_manifest_filepath ->
  fs_lookup (fs s) manifest_filepath = Some lines ->
  fst (_infer manifest_filepath batch_size num_workers s) = Ok all_preds ->
  length all_preds < length lines ->
  let run := convert_graphemes_to_phonemes manifest_filepath output_manifest_filepath
               batch_size num_workers None s in
  fst run = Raise IndexError /\
  fs_lookup (fs (snd run)) output_manifest_filepath
    = Some (expected_output lines all_preds) /\
  length (expected_output lines all_preds) = length all_preds.
Proof.
  intros Hpaths Hin Hinfer Hlen run. subst run.
  assert (Hsame : same_files (fs s) (log s)
                    (snd (_infer manifest_filepath batch_size num_workers s))).
  { apply preserves_infer. split; reflexivity. }
  destruct (_infer manifest_filepath batch_size num_workers s) as [r s1] eqn:Hrun1.
  simpl in Hinfer, Hsame. subst r. destruct Hsame as [Hfs1 Hlog1].
  assert (Hin1 : fs_lookup (fs s1) manifest_filepath = Some lines) by now rewrite Hfs1.
  assert (Hne : eqb manifest_filepath output_manifest_filepath = false).
  { destruct (eqb manifest_filepath output_manifest_filepath) eqn:E; trivial.
    apply eqb_eq in E. contradiction. }
  pose (s2 := mkState (model s1) ((output_manifest_filepath, []) :: fs s1) (log s1)).
  assert (Hin2 : fs_lookup (fs s2) manifest_filepath = Some lines).
  { simpl. now rewrite Hne. }
  destruct (convert_lines_short manifest_filepath output_manifest_filepath
              all_preds lines 0 [] [] s2)
    as [s3 [Hrun3 [Hfs3 [Hmodel3 Hlog3]]]].
  { apply fs_lookup_same. }
  { lia. }
  { simpl. exact Hlen. }
  unfold convert_graphemes_to_phonemes.
  rewrite (bind_run _ _ _ _ _ Hrun1).
  rewrite (bind_run _ _ _ _ _ (open_r_run _ _ _ Hin1)).
  rewrite (bind_run (open_w output_manifest_filepath) _ s1 s2 tt eq_refl).
  rewrite (bind_run _ _ _ _ _ (read_lines_run _ _ _ Hin2)).
  rewrite (bind_run_raise _ _ _ _ _ Hrun3).
  simpl. split; [reflexivity|]. split.
  - exact Hfs3.
  - rewrite expected_output_min. lia.
Qed.

(** *** Converting a manifest in place *)

(** X15. With the input manifest as the output path, opening it for
    writing empties it before the first line is read: whatever the target
    field, the manifest is empty after the call, and without a target field
    the call returns the predictions as if nothing had happened. *)
Theorem convert_in_place_loses_manifest (manifest_filepath : pystr)
  (batch_size num_workers : nat) (target_field : option string) (s : state net)
  (lines : list dict) (all_preds : list pystr) :
  fs_lookup (fs s) manifest_filepath = Some lines ->
  fst (_infer manifest_filepath batch_size num_workers s) = Ok all_preds ->
  let run := convert_graphemes_to_phonemes manifest_filepath manifest_filepath
               batch_size num_workers target_field s in
  fs_lookup (fs (snd run)) manifest_filepath = Some [] /\
  (target_field = None -> fst run = Ok all_preds).
Proof.
  intros Hin Hinfer run. subst run.
  assert (Hsame : same_files (fs s) (log s)
                    (snd (_infer manifest_filepath batch_size num_workers s))).
  { apply preserves_infer. split; reflexivity. }
  destruct (_infer manifest_filepath batch_size num_workers s) as [r s1] eqn:Hrun1.
  simpl in Hinfer, Hsame. subst r. destruct Hsame as [Hfs1 Hlog1].
  assert (Hin1 : fs_lookup (fs s1) manifest_filepath = Some lines) by now rewrite Hfs1.
  pose (s2 := mkState (model s1) ((manifest_filepath, []) :: fs s1) (log s1)).
  assert (Hin2 : fs_lookup (fs s2) manifest_filepath = Some []).
  { apply fs_lookup_same. }
  unfold convert_graphemes_to_phonemes.
  rewrite (bind_run _ _ _ _ _ Hrun1).
  rewrite (bind_run _ _ _ _ _ (open_r_run _ _ _ Hin1)).
  rewrite (bind_run (open_w manifest_filepath) _ s1 s2 tt eq_refl).
  rewrite (bind_run _ _ _ _ _ (read_lines_run _ _ _ Hin2)).
  cbn [convert_lines]. rewrite (bind_run (ret []) _ s2 s2 [] eq_refl).
  destruct target_field as [tf|].
  - destruct (word_error_rate all_preds []) as [per|].
    + split; [apply fs_lookup_same | discriminate].
    + split; [apply fs_lookup_same | discriminate].
  - split; [apply fs_lookup_same | reflexivity].
Qed.

(** *** A target field that no line has *)

Lemma target_missing_errors_cons (e : log_event) (l : list log_event) :
  target_missing_errors (e :: l)
  = match e with LogErrorTargetFieldMissing _ _ => 1 | _ => 0 end
    + target_missing_errors l.
Proof. unfold target_missing_errors. simpl. destruct e; reflexivity. Qed.

Lemma convert_lines_target_absent (manifest_filepath output_manifest_filepath : pystr)
  (tf : string) (all_preds : list pystr) (lines : list dict) :
  Forall (fun line => dict_mem tf line = false) lines ->
  forall (i : nat) (all_targets : list json) (written : list dict) (s : state net),
    fs_lookup (fs s) output_manifest_filepath = Some written ->
    i + length lines <= length all_preds ->
    exists s',
      convert_lines manifest_filepath output_manifest_filepath (Some tf) all_preds
        all_targets i lines s = (Ok all_targets, s') /\
      fs_lookup (fs s') output_manifest_filepath
        = Some (written ++ expected_output lines (skipn i all_preds)) /\
      model s' = model s /\
      target_missing_errors (log s')
      = target_missing_errors (log s)
        + match lines with
          | [] => 0
          | _ :: _ => if Nat.eqb i 0 then 1 else 0
          end.
Proof.
  intros Habsent.
  induction Habsent as [|line lines Hline Hrest IH];
    intros i all_targets written s Hout Hlen.
  - exists s. simpl. rewrite app_nil_r. repeat split; trivial.
  - simpl in Hlen.
    destruct (nth_error all_preds i) as [pred|] eqn:Hpred.
    2:{ apply nth_error_None in Hpred. lia. }
    set (log1 := if Nat.eqb i 0
                 then LogErrorTargetFieldMissing tf manifest_filepath :: log s
                 else log s).
    pose (s1 := mkState (model s)
                  ((output_manifest_filepath,
                    written ++ [with_pred_text line pred]) :: fs s) log1).
    destruct (IH (S i) all_targets (written ++ [with_pred_text line pred]) s1)
      as [s' [Hrun [Hfs [Hmodel Hlog]]]].
    { apply fs_lookup_same. }
    { lia. }
    exists s'. split; [|split; [|split]].
    + simpl. unfold convert_line. rewrite Hline. simpl.
      unfold bind, ret, getitem, write_line, modify, emit_log.
      destruct (Nat.eqb i 0) eqn:Hi; simpl; rewrite Hpred; simpl; rewrite Hout;
        exact Hrun.
    + rewrite Hfs, (skipn_nth_error _ _ _ Hpred). simpl.
      now rewrite <- app_assoc.
    + exact Hmodel.
    + rewrite Hlog. simpl. unfold log1.
      destruct (Nat.eqb i 0); [rewrite target_missing_errors_cons|];
        destruct lines; simpl; lia.
Qed.

(** X16. With a target field that no line of the manifest has, the output
    manifest is the one written without a target field, and the missing
    field is reported once (at the first line), not once per line.  The
    call then asks for the error rate of the predictions against no
    target at all, and returns the predictions when that call returns. *)
Theorem convert_with_absent_target_field
  (manifest_filepath output_manifest_filepath : pystr)
  (batch_size num_workers : nat) (tf : string) (s : state net)
  (lines : list dict) (all_preds : list pystr) :
  manifest_filepath <> output_manifest_filepath ->
  fs_lookup (fs s) manifest_filepath = Some lines ->
  fst (_infer manifest_filepath batch_size num_workers s) = Ok all_preds ->
  length lines <= length all_preds ->
  Forall (fun line => dict_mem tf line = false) lines ->
  let run := convert_graphemes_to_phonemes manifest_filepath output_manifest_filepath
               batch_size num_workers (Some tf) s in
  fs_lookup (fs (snd run)) output_manifest_filepath
    = Some (expected_output lines all_preds) /\
  target_missing_errors (log (snd run))
    = target_missing_errors (log s) + match lines with [] => 0 | _ :: _ => 1 end /\
  fst run = match word_error_rate all_preds [] with
            | Some _ => Ok all_preds
            | None => Raise (ExternalError (py "word_error_rate"))
            end.
Proof.
  intros Hpaths Hin Hinfer Hlen Habsent run. subst run.
  assert (Hsame : same_files (fs s) (log s)
                    (snd (_infer manifest_filepath batch_size num_workers s))).
  { apply preserves_infer. split; reflexivity. }
  destruct (_infer manifest_filepath batch_size num_workers s) as [r s1] eqn:Hrun1.
  simpl in Hinfer, Hsame. subst r. destruct Hsame as [Hfs1 Hlog1].
  assert (Hin1 : fs_lookup (fs s1) manifest_filepath = Some lines) by now rewrite Hfs1.
  assert (Hne : eqb manifest_filepath output_manifest_filepath = false).
  { destruct (eqb manifest_filepath output_manifest_filepath) eqn:E; trivial.
    apply eqb_eq in E. contradiction. }
  pose (s2 := mkState (model s1) ((output_manifest_filepath, []) :: fs s1) (log s1)).
  assert (Hin2 : fs_lookup (fs s2) manifest_filepath = Some lines).
  { simpl. now rewrite Hne. }
  destruct (convert_lines_target_absent manifest_filepath output_manifest_filepath
              tf all_preds lines Habsent 0 [] [] s2)
    as [s3 [Hrun3 [Hfs3 [Hmodel3 Hlog3]]]].
  { apply fs_lookup_same. }
  { simpl. exact Hlen. }
  simpl in Hlog3. rewrite Hlog1 in Hlog3.
  unfold convert_graphemes_to_phonemes.
  rewrite (bind_run _ _ _ _ _ Hrun1).
  rewrite (bind_run _ _ _ _ _ (open_r_run _ _ _ Hin1)).
  rewrite (bind_run (open_w output_manifest_filepath) _ s1 s2 tt eq_refl).
  rewrite (bind_run _ _ _ _ _ (read_lines_run _ _ _ Hin2)).
  rewrite (bind_run _ _ _ _ _ Hrun3).
  destruct (word_error_rate all_preds []) as [per|]; simpl.
  - split; [exact Hfs3|]. split; [|reflexivity].
    rewrite !target_missing_errors_cons. simpl. exact Hlog3.
  - split; [exact Hfs3|]. split; [exact Hlog3 | reflexivity].
Qed.

(** *** The training mode *)

Lemma in_mode_infer (mode : bool) (manifest_filepath : pystr)
  (batch_size num_workers : nat) :
  preserves (in_mode mode) (_infer manifest_filepath batch_size num_workers).
Proof.
  intros s Hs. unfold in_mode in *. unfold _infer.
  rewrite bind_get_store, try_finally_store. rewrite <- Hs.
  apply train_sets_training.
Qed.

Lemma in_mode_keeps {A} (mode : bool) (m : M (state net) A) :
  (forall s, model (snd (m s)) = model s) -> preserves (in_mode mode) m.
Proof. intros H s Hs. unfold in_mode in *. now rewrite H. Qed.

Lemma model_dict_getitem (d : dict) (k : string) (s : state net) :
  model (snd (getitem_json d k s)) = model s.
Proof. unfold getitem_json, dict_getitem. destruct (dict_get k d); reflexivity. Qed.

Lemma model_getitem {A} (l : list A) (i : nat) (s : state net) :
  model (snd (getitem l i s)) = model s.
Proof. now rewrite getitem_pure. Qed.

Lemma in_mode_convert_line (mode : bool)
  (manifest_filepath output_manifest_filepath : pystr)
  (target_field : option string) (all_preds : list pystr)
  (all_targets : list json) (i : nat) (line : dict) :
  preserves (in_mode mode)
    (convert_line manifest_filepath output_manifest_filepath target_field
       all_preds all_targets i line).
Proof.
  unfold convert_line. apply preserves_bind.
  - destruct target_field as [tf|]; [|apply preserves_ret].
    destruct (negb (dict_mem tf line)).
    + apply preserves_bind.
      * destruct (Nat.eqb i 0); [|apply preserves_ret].
        apply in_mode_keeps. reflexivity.
      * intros _. apply preserves_ret.
    + apply preserves_bind; [apply in_mode_keeps, model_dict_getitem|]. intros text.
      apply preserves_bind; [apply in_mode_keeps, model_dict_getitem|]. intros target.
      apply preserves_bind; [apply in_mode_keeps, model_getitem|]. intros pred.
      apply preserves_bind; [apply in_mode_keeps, model_dict_getitem|]. intros target'.
      destruct (word_error_rate [pred] [target']); [|apply preserves_raise].
      apply preserves_bind; [apply in_mode_keeps, model_dict_getitem|]. intros target''.
      apply preserves_ret.
  - intros [line' all_targets'].
    apply preserves_bind; [apply in_mode_keeps, model_getitem|]. intros pred.
    apply preserves_bind; [apply in_mode_keeps; reflexivity|]. intros _.
    apply preserves_ret.
Qed.

Lemma in_mode_convert_lines (mode : bool)
  (manifest_filepath output_manifest_filepath : pystr)
  (target_field : option string) (all_preds : list pystr) (lines : list dict) :
  forall (all_targets : list json) (i : nat),
    preserves (in_mode mode)
      (convert_lines manifest_filepath output_manifest_filepath target_field
         all_preds all_targets i lines).
Proof.
  induction lines as [|line lines IH]; intros all_targets i; simpl.
  - apply preserves_ret.
  - apply preserves_bind; [apply in_mode_convert_line|]. intros targets. apply IH.
Qed.

(** X17. [convert_graphemes_to_phonemes] leaves the model in the mode it
    found it in, training or evaluation, with or without a target field,
    whether it returns or raises, in the inference or at a line of the
    manifest. *)
Theorem convert_restores_training
  (manifest_filepath output_manifest_filepath : pystr)
  (batch_size num_workers : nat) (target_field : option string) (s : state net) :
  training (model (snd (convert_graphemes_to_phonemes manifest_filepath
                          output_manifest_filepath batch_size num_workers
                          target_field s)))
  = training (model s).
Proof.
  change (in_mode (training (model s))
            (snd (convert_graphemes_to_phonemes manifest_filepath
                    output_manifest_filepath batch_size num_workers target_field s))).
  assert (H : preserves (in_mode (training (model s)))
                (convert_graphemes_to_phonemes manifest_filepath
                   output_manifest_filepath batch_size num_workers target_field)).
  { unfold convert_graphemes_to_phonemes.
    apply preserves_bind; [apply in_mode_infer|]. intros all_preds.
    apply preserves_bind.
    { unfold open_r. apply preserves_bind; [apply preserves_get|]. intros s0.
      destruct (fs_lookup (fs s0) manifest_filepath);
        [apply preserves_ret | apply preserves_raise]. }
    intros _. apply preserves_bind; [apply in_mode_keeps; reflexivity|]. intros _.
    apply preserves_bind.
    { unfold read_lines. apply preserves_bind; [apply preserves_get|]. intros s0.
      destruct (fs_lookup (fs s0) manifest_filepath); apply preserves_ret. }
    intros lines. apply preserves_bind; [apply in_mode_convert_lines|].
    intros all_targets. apply preserves_bind.
    { destruct target_field as [tf|]; [|apply preserves_ret].
      destruct (word_error_rate all_preds all_targets);
        [apply in_mode_keeps; reflexivity | apply preserves_raise]. }
    intros _. apply preserves_bind; [apply in_mode_keeps; reflexivity|].
    intros _. apply preserves_ret. }
  apply H. reflexivity.
Qed.

End ConvertFacts.

Import Scenarios.

(** With a data loader that leaves out the first line, the only prediction
    is that of the second line, and it is written to the first. *)
Example convert_misaligned_predictions :
  fs_lookup
    (fs (snd (convert_graphemes_to_phonemes (env := filtering_g2p 2)
                in_manifest out_manifest 32 0 None (g2p_state false))))
    out_manifest
  = Some
      [ [("text_graphemes", JStr (py "abc")); ("text", JStr (py "x"));
         ("phonemes", JStr (py "ph1")); ("pred_text", JStr (py "ed"))] ]%string.
Proof. reflexivity. Qed.

Lemma convert_with_too_few_predictions_witness :
  in_manifest <> out_manifest /\
  fs_lookup (fs (g2p_state false)) in_manifest = Some g2p_lines /\
  fst (_infer (env := filtering_g2p 2) in_manifest 32 0 (g2p_state false))
    = Ok [py "ed"] /\
  length [py "ed"] < length g2p_lines /\
  (let run := convert_graphemes_to_phonemes (env := filtering_g2p 2)
                in_manifest out_manifest 32 0 None (g2p_state false) in
   fst run = Raise IndexError /\
   fs_lookup (fs (snd run)) out_manifest = Some (expected_output g2p_lines [py "ed"]) /\
   length (expected_output g2p_lines [py "ed"]) = length [py "ed"]).
Proof.
  assert (H1 : in_manifest <> out_manifest) by (vm_compute; discriminate).
  assert (H2 : fs_lookup (fs (g2p_state false)) in_manifest = Some g2p_lines)
    by reflexivity.
  assert (H3 : fst (_infer (env := filtering_g2p 2) in_manifest 32 0 (g2p_state false))
               = Ok [py "ed"]) by reflexivity.
  assert (H4 : length [py "ed"] < length g2p_lines) by (simpl; lia).
  split; [exact H1|]. split; [exact H2|]. split; [exact H3|]. split; [exact H4|].
  exact (convert_with_too_few_predictions (env := filtering_g2p 2)
           in_manifest out_manifest 32 0 (g2p_state false) g2p_lines [py "ed"]
           H1 H2 H3 H4).
Defined.

Lemma convert_in_place_loses_manifest_witness :
  fs_lookup (fs (g2p_state false)) in_manifest = Some g2p_lines /\
  fst (_infer (env := toy_g2p true) in_manifest 32 0 (g2p_state false))
    = Ok [py "cba"; py "ed"] /\
  (let run := convert_graphemes_to_phonemes (env := toy_g2p true)
                in_manifest in_manifest 32 0 None (g2p_state false) in
   fs_lookup (fs (snd run)) in_manifest = Some [] /\
   (@None string = None -> fst run = Ok [py "cba"; py "ed"])).
Proof.
  assert (H1 : fs_lookup (fs (g2p_state false)) in_manifest = Some g2p_lines)
    by reflexivity.
  assert (H2 : fst (_infer (env := toy_g2p true) in_manifest 32 0 (g2p_state false))
               = Ok [py "cba"; py "ed"]) by reflexivity.
  split; [exact H1|]. split; [exact H2|].
  exact (convert_in_place_loses_manifest (env := toy_g2p true)
           in_manifest 32 0 None (g2p_state false) g2p_lines [py "cba"; py "ed"]
           H1 H2).
Defined.

Lemma convert_with_absent_target_field_witness :
  in_manifest <> out_manifest /\
  fs_lookup (fs (g2p_state false)) in_manifest = Some g2p_lines /\
  fst (_infer (env := toy_g2p true) in_manifest 32 0 (g2p_state false))
    = Ok [py "cba"; py "ed"] /\
  length g2p_lines <= length [py "cba"; py "ed"] /\
  Forall (fun line => dict_mem "ipa" line = false) g2p_lines /\
  (let run := convert_graphemes_to_phonemes (env := toy_g2p true)
                in_manifest out_manifest 32 0 (Some "ipa"%string) (g2p_state false) in
   fs_lookup (fs (snd run)) out_manifest
     = Some (expected_output g2p_lines [py "cba"; py "ed"]) /\
   target_missing_errors (log (snd run))
     = target_missing_errors (log (g2p_state false))
       + match g2p_lines with [] => 0 | _ :: _ => 1 end /\
   fst run = match word_error_rate (InferEnv := toy_g2p true) [py "cba"; py "ed"] [] with
             | Some _ => Ok [py "cba"; py "ed"]
             | None => Raise (ExternalError (py "word_error_rate"))
             end).
Proof.
  assert (H1 : in_manifest <> out_manifest) by (vm_compute; discriminate).
  assert (H2 : fs_lookup (fs (g2p_state false)) in_manifest = Some g2p_lines)
    by reflexivity.
  assert (H3 : fst (_infer (env := toy_g2p true) in_manifest 32 0 (g2p_state false))
               = Ok [py "cba"; py "ed"]) by reflexivity.
  assert (H4 : length g2p_lines <= length [py "cba"; py "ed"]) by (simpl; lia).
  assert (H5 : Forall (fun line => dict_mem "ipa" line = false) g2p_lines)
    by (repeat constructor).
  split; [exact H1|]. split; [exact H2|]. split; [exact H3|]. split; [exact H4|].
  split; [exact H5|].
  exact (convert_with_absent_target_field (env := toy_g2p true)
           in_manifest out_manifest 32 0 "ipa" (g2p_state false) g2p_lines
           [py "cba"; py "ed"] H1 H2 H3 H4 H5).
Defined.

End G2PCTCMoreSpec.

(* ================================================================== *)
(** ** Properties of the character vocabulary *)
(* ================================================================== *)

Module GraphemeVocabSpec.

Import G2PCTCMore.

Lemma distinct_NoDup (s : pystr) : distinct s = true -> NoDup s.
Proof.
  induction s as [|c s IH]; intros H; [constructor|].
  simpl in H. apply andb_true_iff in H as [Hc Hs].
  constructor; [|now apply IH].
  intros Hin. apply negb_true_iff in Hc.
  assert (Ht : existsb (N.eqb c) s = true).
  { apply existsb_exists. exists c. split; [exact Hin | apply N.eqb_refl]. }
  congruence.
Qed.

Lemma all_among (l base : pystr) (c : char) :
  forallb (fun x => existsb (N.eqb x) base) l = true -> In c l -> In c base.
Proof.
  intros H Hin. rewrite forallb_forall in H. specialize (H c Hin).
  apply existsb_exists in H as [y [Hy Heq]]. apply N.eqb_eq in Heq. now subst.
Qed.

Lemma NoDup_app_shared {A} (l1 l2 : list A) (x : A) :
  NoDup (l1 ++ l2) -> In x l1 -> In x l2 -> False.
Proof.
  induction l1 as [|a l1 IH]; intros Hnd H1 H2; [contradiction|].
  simpl in Hnd. inversion Hnd as [|a' l' Hnotin Hnd']; subst.
  destruct H1 as [->|H1].
  - apply Hnotin. apply in_or_app. now right.
  - now apply IH.
Qed.

Lemma NoDup_snoc {A} (l : list A) (x : A) :
  NoDup l -> ~ In x l -> NoDup (l ++ [x]).
Proof.
  induction l as [|a l IH]; intros Hnd Hx; simpl.
  - constructor; [tauto | constructor].
  - inversion Hnd as [|a' l' Hnotin Hnd']; subst. constructor.
    + intros Hin. apply in_app_or in Hin as [Hin|[Heq|[]]]; [contradiction|].
      subst. apply Hx. now left.
    + apply IH; [exact Hnd'|]. intros Hin. apply Hx. now right.
Qed.

Lemma NoDup_insert {A} (l1 l2 : list A) (x : A) :
  NoDup (l1 ++ l2) -> ~ In x (l1 ++ l2) -> NoDup (l1 ++ x :: l2).
Proof.
  induction l1 as [|a l1 IH]; intros Hnd Hx; simpl in *.
  - now constructor.
  - inversion Hnd as [|a' l' Hnotin Hnd']; subst. constructor.
    + intros Hin. apply in_app_or in Hin as [Hin|[Heq|Hin]].
      * apply Hnotin. apply in_or_app. now left.
      * subst. apply Hx. now left.
      * apply Hnotin. apply in_or_app. now right.
    + apply IH; [exact Hnd'|]. intros Hin. apply Hx. now right.
Qed.

Lemma NoDup_quoted (s : pystr) :
  NoDup s -> NoDup (map (fun ch => [dquote; ch; dquote; 10%N]) s).
Proof.
  induction s as [|c s IH]; intros H; simpl; [constructor|].
  inversion H as [|c' s' Hnotin Hnd]; subst. constructor; [|now apply IH].
  intros Hin. apply in_map_iff in Hin as [x [Heq Hx]].
  injection Heq as ->. contradiction.
Qed.

Lemma grapheme_chars_parts (cfg : tokenizer_grapheme) :
  grapheme_chars cfg
  = ascii_lowercase
    ++ match unk_token cfg with Some u => u | None => [] end
    ++ chars_after_unk cfg.
Proof.
  unfold grapheme_chars, chars_after_unk.
  destruct (do_lower cfg), (add_punctuation cfg); cbn [negb];
    rewrite <- ?app_assoc, ?app_nil_r; reflexivity.
Qed.

Lemma chars_after_unk_among_base (cfg : tokenizer_grapheme) (c : char) :
  In c (ascii_lowercase ++ chars_after_unk cfg) -> In c base_chars.
Proof.
  apply all_among. unfold chars_after_unk.
  destruct (do_lower cfg), (add_punctuation cfg); vm_compute; reflexivity.
Qed.

Lemma chars_without_unk_distinct (cfg : tokenizer_grapheme) :
  NoDup (ascii_lowercase ++ chars_after_unk cfg).
Proof.
  apply distinct_NoDup. unfold chars_after_unk.
  destruct (do_lower cfg), (add_punctuation cfg); vm_compute; reflexivity.
Qed.

Lemma chars_without_unk_keep_lines (cfg : tokenizer_grapheme) :
  ~ In 10%N (ascii_lowercase ++ chars_after_unk cfg).
Proof.
  intros Hin.
  assert (Hf : existsb (N.eqb 10%N) (ascii_lowercase ++ chars_after_unk cfg) = false).
  { unfold chars_after_unk.
    destruct (do_lower cfg), (add_punctuation cfg); vm_compute; reflexivity. }
  assert (Ht : existsb (N.eqb 10%N) (ascii_lowercase ++ chars_after_unk cfg) = true).
  { apply existsb_exists. exists 10%N. split; [exact Hin | reflexivity]. }
  congruence.
Qed.

(** *** The lines of the file *)

Lemma lines_from_line (body rest cur : pystr) :
  ~ In 10%N body ->
  lines_from (body ++ 10%N :: rest) cur
  = (rev cur ++ body ++ [10%N]) :: lines_from rest [].
Proof.
  revert cur. induction body as [|c body IH]; intros cur H.
  - cbn [app lines_from]. rewrite N.eqb_refl. cbn [rev]. reflexivity.
  - cbn [app lines_from].
    destruct (N.eqb c 10) eqn:E.
    + apply N.eqb_eq in E. exfalso. apply H. now left.
    + rewrite IH by (intros Hin; apply H; now right).
      cbn [rev]. now rewrite <- app_assoc.
Qed.

(** Strings that each end with their only line feed are the lines of the
    text they make up. *)
Lemma file_lines_concat (ls : list pystr) :
  Forall (fun l => exists body, l = body ++ [10%N] /\ ~ In 10%N body) ls ->
  file_lines (concat ls) = ls.
Proof.
  unfold file_lines. induction 1 as [|l ls [body [-> Hbody]] _ IH]; [reflexivity|].
  cbn [concat]. rewrite <- app_assoc. cbn [app].
  rewrite lines_from_line by exact Hbody. cbn [rev app]. now rewrite IH.
Qed.

Lemma char_vocab_lines_are_lines (cfg : tokenizer_grapheme) :
  ~ In 10%N (grapheme_chars cfg) ->
  file_lines (char_vocab_text cfg) = char_vocab_lines cfg.
Proof.
  intros H. apply file_lines_concat. unfold char_vocab_lines.
  apply Forall_app. split.
  - apply Forall_forall. intros l Hl. apply in_map_iff in Hl as [ch [<- Hch]].
    exists [dquote; ch; dquote]. split; [reflexivity|].
    intros [E|[E|[E|[]]]]; try discriminate. subst ch. contradiction.
  - constructor; [|constructor].
    exists [dquote; 92%N; dquote; dquote]. split; [reflexivity|].
    intros [E|[E|[E|[E|[]]]]]; discriminate.
Qed.

Lemma NoDup_char_vocab_lines (cfg : tokenizer_grapheme) :
  NoDup (grapheme_chars cfg) -> NoDup (char_vocab_lines cfg).
Proof.
  intros H. unfold char_vocab_lines. apply NoDup_snoc.
  - now apply NoDup_quoted.
  - intros Hin. apply in_map_iff in Hin as [x [Heq _]]. discriminate.
Qed.

(** X18. Without an unknown token, or with one that is a single character
    other than the letters, the space, the apostrophe, the punctuation marks
    and the line breaks, every call of [f.write] makes one line of the
    vocabulary file and no two lines of the file are the same, whatever
    [do_lower] and [add_punctuation]. *)
Theorem char_vocab_lines_distinct (cfg : tokenizer_grapheme) :
  unk_is_one_new_char cfg ->
  file_lines (char_vocab_text cfg) = char_vocab_lines cfg /\
  NoDup (file_lines (char_vocab_text cfg)).
Proof.
  intros Hunk.
  assert (H : ~ In 10%N (grapheme_chars cfg) /\ NoDup (grapheme_chars cfg)).
  { rewrite grapheme_chars_parts. unfold unk_is_one_new_char in Hunk.
    destruct (unk_token cfg) as [u|].
    - destruct Hunk as [c [-> [Hc [Hlf _]]]]. cbn [app]. split.
      + intros Hin. apply in_app_or in Hin as [Hin|[Heq|Hin]].
        * apply (chars_without_unk_keep_lines cfg). apply in_or_app. now left.
        * now apply Hlf.
        * apply (chars_without_unk_keep_lines cfg). apply in_or_app. now right.
      + apply NoDup_insert; [apply chars_without_unk_distinct|].
        intros Hin. apply Hc. exact (chars_after_unk_among_base cfg c Hin).
    - split; [apply chars_without_unk_keep_lines | apply chars_without_unk_distinct]. }
  destruct H as [Hlf Hnd].
  rewrite (char_vocab_lines_are_lines cfg Hlf).
  split; [reflexivity | now apply NoDup_char_vocab_lines].
Qed.

Lemma char_vocab_lines_distinct_witness :
  unk_is_one_new_char (mkTokenizerGrapheme (Some (py "҂")) false true) /\
  file_lines (char_vocab_text (mkTokenizerGrapheme (Some (py "҂")) false true))
  = char_vocab_lines (mkTokenizerGrapheme (Some (py "҂")) false true) /\
  NoDup (file_lines (char_vocab_text (mkTokenizerGrapheme (Some (py "҂")) false true))).
Proof.
  assert (H : unk_is_one_new_char (mkTokenizerGrapheme (Some (py "҂")) false true)).
  { exists 1154%N. split; [reflexivity|]. split; [|split; discriminate].
    intros Hin.
    assert (Hb : existsb (N.eqb 1154%N) base_chars = false) by (vm_compute; reflexivity).
    assert (Ht : existsb (N.eqb 1154%N) base_chars = true).
    { apply existsb_exists. exists 1154%N. split; [exact Hin | reflexivity]. }
    congruence. }
  split; [exact H|].
  exact (char_vocab_lines_distinct _ H).
Defined.

(** With a line feed as the unknown token, its call of [f.write] makes two
    lines, and the line with a double quote alone is in the file twice. *)
Example char_vocab_line_feed :
  file_lines (char_vocab_text (mkTokenizerGrapheme (Some [10%N]) true false))
  = map (fun ch => [dquote; ch; dquote; 10%N]) ascii_lowercase
    ++ [ [dquote; 10%N]; [dquote; 10%N];
         [dquote; 32%N; dquote; 10%N]; [dquote; 39%N; dquote; 10%N];
         [dquote; 92%N; dquote; dquote; 10%N] ].
Proof. reflexivity. Qed.

(** X19. An unknown token is taken apart into its characters.  When one of
    them is a lower-case letter, as in a token spelled with letters between
    brackets, that letter is in the vocabulary file twice. *)
Theorem char_vocab_lines_repeat (cfg : tokenizer_grapheme) (u : pystr) (c : char) :
  unk_token cfg = Some u -> In c u -> In c ascii_lowercase ->
  ~ NoDup (char_vocab_lines cfg) /\
  count_occ (list_eq_dec N.eq_dec) (char_vocab_lines cfg) [dquote; c; dquote; 10%N] >= 2.
Proof.
  intros Hu Hcu Hcl.
  assert (Hchars : exists l2, grapheme_chars cfg = ascii_lowercase ++ u ++ l2).
  { rewrite grapheme_chars_parts, Hu. exists (chars_after_unk cfg). reflexivity. }
  destruct Hchars as [l2 Hchars].
  assert (Hcount : count_occ (list_eq_dec N.eq_dec) (char_vocab_lines cfg)
                     [dquote; c; dquote; 10%N] >= 2).
  { unfold char_vocab_lines. rewrite Hchars, !map_app, !count_occ_app.
    match goal with
    | |- ?n1 + (?n2 + ?n3) + ?n4 >= 2 =>
        assert (H1 : n1 > 0)
          by (apply count_occ_In; apply in_map_iff; exists c;
              split; [reflexivity | exact Hcl]);
        assert (H2 : n2 > 0)
          by (apply count_occ_In; apply in_map_iff; exists c;
              split; [reflexivity | exact Hcu]);
        revert H1 H2; generalize n1 n2 n3 n4
    end.
    clear. intros na nb nc nd H1 H2. lia. }
  split; [|exact Hcount].
  intros Hnd.
  rewrite (NoDup_count_occ (list_eq_dec N.eq_dec)) in Hnd.
  specialize (Hnd [dquote; c; dquote; 10%N]).
  revert Hnd Hcount. generalize (count_occ (list_eq_dec N.eq_dec) (char_vocab_lines cfg)
                                   [dquote; c; dquote; 10%N]).
  clear. intros n Hnd Hcount. lia.
Qed.

Lemma char_vocab_lines_repeat_witness :
  unk_token (mkTokenizerGrapheme (Some (py "<unk>")) true false) = Some (py "<unk>") /\
  In 117%N (py "<unk>") /\ In 117%N ascii_lowercase /\
  (~ NoDup (char_vocab_lines (mkTokenizerGrapheme (Some (py "<unk>")) true false)) /\
   count_occ (list_eq_dec N.eq_dec)
     (char_vocab_lines (mkTokenizerGrapheme (Some (py "<unk>")) true false))
     [dquote; 117%N; dquote; 10%N] >= 2).
Proof.
  assert (H1 : unk_token (mkTokenizerGrapheme (Some (py "<unk>")) true false)
               = Some (py "<unk>")) by reflexivity.
  assert (H2 : In 117%N (py "<unk>")) by (vm_compute; tauto).
  assert (H3 : In 117%N ascii_lowercase) by (vm_compute; tauto).
  split; [exact H1|]. split; [exact H2|]. split; [exact H3|].
  exact (char_vocab_lines_repeat _ (py "<unk>") 117%N H1 H2 H3).
Defined.

(** The vocabulary for lower-cased input without punctuation and without
    an unknown token. *)
Example char_vocab_smallest :
  grapheme_chars (mkTokenizerGrapheme None true false) = py "abcdefghijklmnopqrstuvwxyz '"
  /\ length (char_vocab_lines (mkTokenizerGrapheme None true false)) = 29.
Proof. split; reflexivity. Qed.

(** With punctuation, the double quote, the backslash and the apostrophe
    are taken out of the marks; the apostrophe is in the vocabulary once. *)
Example char_vocab_punctuation :
  grapheme_chars (mkTokenizerGrapheme None true true)
  = py "abcdefghijklmnopqrstuvwxyz '!#$%&()*+,-./:;<=>?@[]^_`{|}~".
Proof. reflexivity. Qed.

End GraphemeVocabSpec.

(* ================================================================== *)
(** ** Properties of [adversarial_loss] *)
(* ================================================================== *)

Module FastPitchAdversarialSpec.

Import FastPitchAdversarial.

Section AdversarialLossFacts.

Context {env : TorchEnv}.

Lemma adversarial_loss_unstacked (l : list tensor) (e : exn) (labels : Z) (u : unit) :
  vstack l = Raise e ->
  adversarial_loss (PredList l) labels u = (Raise e, u).
Proof.
  intros H. unfold adversarial_loss, bind, torch_call. simpl. now rewrite H.
Qed.

Lemma adversarial_loss_one (pred : pred_arg tensor) (p : tensor) (u : unit) :
  stacked pred = Ok p ->
  adversarial_loss pred 1 u = compare_against p Ones u.
Proof.
  intros Hp. unfold adversarial_loss, compare_against, bind, torch_call.
  rewrite Hp. simpl. destruct (size0 p); reflexivity.
Qed.

Lemma adversarial_loss_zero (pred : pred_arg tensor) (p : tensor) (u : unit) :
  stacked pred = Ok p ->
  adversarial_loss pred 0 u = compare_against p Zeros u.
Proof.
  intros Hp. unfold adversarial_loss, compare_against, bind, torch_call.
  rewrite Hp. simpl. destruct (size0 p); reflexivity.
Qed.

Lemma adversarial_loss_other (pred : pred_arg tensor) (p : tensor) (labels : Z) (u : unit) :
  stacked pred = Ok p -> labels <> 0%Z -> labels <> 1%Z ->
  adversarial_loss pred labels u = (Raise (ValueError (labels_error_message labels)), u).
Proof.
  intros Hp H0 H1. unfold adversarial_loss, bind, torch_call. rewrite Hp. simpl.
  apply Z.eqb_neq in H0, H1. now rewrite H0, H1.
Qed.

(** C10, amended.  A list of predictions is stacked first, and what the
    stacking raises leaves the method before [labels] is looked at.  After
    that, for [labels] equal to 1 the call is the loss of the predictions
    against an all-ones tensor, and for [labels] equal to 0 against an
    all-zeros tensor, of shape (number of predictions, 1), with whatever
    torch returns or raises for them; for any other [labels] it raises the
    [ValueError] of line 319.  So [ValueError] is raised if and only if
    [labels] is neither 0 nor 1, or the comparison itself raises it. *)
Theorem adversarial_loss_labels (pred : pred_arg tensor) (labels : Z) (u : unit) :
  match stacked pred with
  | Raise e => adversarial_loss pred labels u = (Raise e, u)
  | Ok p =>
      (labels = 1%Z -> adversarial_loss pred labels u = compare_against p Ones u) /\
      (labels = 0%Z -> adversarial_loss pred labels u = compare_against p Zeros u) /\
      (labels <> 0%Z /\ labels <> 1%Z ->
       adversarial_loss pred labels u
       = (Raise (ValueError (labels_error_message labels)), u)) /\
      (raises_ValueError (fst (adversarial_loss pred labels u))
       <-> (labels <> 0%Z /\ labels <> 1%Z)
           \/ (labels = 1%Z /\ raises_ValueError (fst (compare_against p Ones u)))
           \/ (labels = 0%Z /\ raises_ValueError (fst (compare_against p Zeros u))))
  end.
Proof.
  destruct (stacked pred) as [p|e] eqn:Hp.
  - split; [|split; [|split]].
    + intros ->. now apply adversarial_loss_one.
    + intros ->. now apply adversarial_loss_zero.
    + intros [H0 H1]. now apply adversarial_loss_other with (p := p).
    + destruct (Z.eq_dec labels 1) as [->|H1]; [|destruct (Z.eq_dec labels 0) as [->|H0]].
      * rewrite (adversarial_loss_one _ _ _ Hp). split.
        -- intros H. right. left. now split.
        -- intros [[_ H]|[[_ H]|[H _]]]; [contradiction | exact H | discriminate].
      * rewrite (adversarial_loss_zero _ _ _ Hp). split.
        -- intros H. right. right. now split.
        -- intros [[H _]|[[H _]|[_ H]]]; [contradiction | discriminate | exact H].
      * rewrite (adversarial_loss_other _ _ _ _ Hp H0 H1). split.
        -- intros _. left. now split.
        -- intros _. now exists (labels_error_message labels).
  - destruct pred as [l|t]; [|discriminate].
    now apply adversarial_loss_unstacked.
Qed.

End AdversarialLossFacts.

Import Scenarios.

(** *** With the shapes of torch *)

Example adversarial_loss_real_scores :
  adversarial_loss (env := shape_torch) (PredList [[2; 1]; [3; 1]]) 1 tt = (Ok Ones, tt).
Proof. reflexivity. Qed.

Example adversarial_loss_generated_scores :
  adversarial_loss (env := shape_torch) (PredTensor [4; 1]) 0 tt = (Ok Zeros, tt).
Proof. reflexivity. Qed.

Example adversarial_loss_bad_label :
  adversarial_loss (env := shape_torch) (PredTensor [4; 1]) (-2) tt
  = (Raise (ValueError (py "labels can take value either 0 or 1 but got -2")), tt).
Proof. reflexivity. Qed.

(** A list of scores that do not fit together is refused by [torch.vstack],
    whatever [labels]. *)
Example adversarial_loss_ragged_scores :
  adversarial_loss (env := shape_torch) (PredList [[2; 1]; [3; 2]]) 7 tt
  = (Raise (ExternalError (py "RuntimeError")), tt).
Proof. reflexivity. Qed.

(** For scores of shape (n, 1), the shape the label tensor is given, the
    comparison goes through and [ValueError] is the one of line 319 alone. *)
Lemma adversarial_loss_column_scores (n : nat) (labels : Z) :
  raises_ValueError
    (fst (adversarial_loss (env := shape_torch) (PredTensor [n; 1]) labels tt))
  <-> (labels <> 0 /\ labels <> 1)%Z.
Proof.
  unfold adversarial_loss, bind, torch_call, ret, raise. cbn [stacked fst snd].
  destruct (Z.eqb_spec labels 1) as [->|H1]; [|destruct (Z.eqb_spec labels 0) as [->|H0]];
    cbn [size0 shape_torch binary_cross_entropy shape entries fst snd].
  - destruct (list_eq_dec Nat.eq_dec [n; 1] [n; 1]) as [_|Hne]; [|contradiction].
    split; [intros [msg H]; discriminate | intros [_ H]; now contradiction H].
  - destruct (list_eq_dec Nat.eq_dec [n; 1] [n; 1]) as [_|Hne]; [|contradiction].
    split; [intros [msg H]; discriminate | intros [H _]; now contradiction H].
  - split; [intros _; now split | intros _; now eexists].
Qed.

(** C10, as the claim states it, at predictions of shape (2, 2) and [labels]
    equal to 1: the label tensor has shape (2, 1), [binary_cross_entropy]
    refuses the pair, and [ValueError] is raised although [labels] is 1. *)
Lemma adversarial_loss_size_counterexample :
  adversarial_loss (env := shape_torch) (PredTensor [2; 2]) 1 tt
  = (Raise (ValueError
              (py "Using a target size (torch.Size([2, 1])) that is different to the input size (torch.Size([2, 2])) is deprecated. Please ensure they have the same size.")),
     tt) /\
  raises_ValueError
    (fst (adversarial_loss (env := shape_torch) (PredTensor [2; 2]) 1 tt)) /\
  ~ (1 <> 0 /\ 1 <> 1)%Z.
Proof.
  split; [vm_compute; reflexivity|]. split.
  - eexists. vm_compute. reflexivity.
  - intros [_ H]. now apply H.
Qed.

End FastPitchAdversarialSpec.

(* ================================================================== *)
(** ** Properties of the splices and of [tb_logger] *)
(* ================================================================== *)

Module FastPitchMoreSpec.

Import FastPitchMore.

Section SpliceFacts.

Context {X : Type}.
Variable tape : nat -> Z.

Lemma slice_frames_width (m : mel X) (start splice_length : Z) :
  (0 <= start)%Z -> (0 <= splice_length)%Z ->
  (start + splice_length <= Z.of_nat (n_frames m))%Z ->
  n_frames (slice_frames m start (start + splice_length)) = Z.to_nat splice_length.
Proof.
  intros H1 H2 H3. unfold slice_frames. cbn [n_frames].
  rewrite !slice_bound_nonneg by lia. lia.
Qed.

Lemma slice_frames_well_shaped (m : mel X) (a b : Z) :
  well_shaped m -> well_shaped (slice_frames m a b).
Proof.
  unfold well_shaped, slice_frames. cbn [n_frames rows]. intros H.
  apply Forall_forall. intros r Hr. apply in_map_iff in Hr as [r0 [<- Hr0]].
  rewrite Forall_forall in H. specialize (H r0 Hr0).
  unfold slice_row. rewrite H.
  rewrite length_firstn, length_skipn, H.
  pose proof (slice_bound_le (n_frames m) a).
  pose proof (slice_bound_le (n_frames m) b). lia.
Qed.

Lemma randint_in_range (high : Z) (k : nat) :
  (0 < high)%Z ->
  exists start, randint tape high k = (Ok start, S k) /\ (0 <= start < high)%Z.
Proof.
  intros H. unfold randint.
  destruct (Z.leb_spec high 0); [lia|].
  exists (tape k mod high)%Z. split; [reflexivity|].
  apply Z.mod_pos_bound. exact H.
Qed.

(** X20. When every spectrogram has more frames than [splice_length], the
    loop returns one splice per spectrogram, each with exactly
    [splice_length] frames and with rows of that length, whatever numbers
    are drawn: the splices can be stacked. *)
Theorem random_splices_width (splice_length : Z) (mels : list (mel X)) (k : nat) :
  (0 <= splice_length)%Z ->
  Forall (fun m => well_shaped m /\ (splice_length < Z.of_nat (n_frames m))%Z) mels ->
  exists preds,
    random_splices tape splice_length mels k = (Ok preds, length mels + k) /\
    length preds = length mels /\
    Forall (fun p => n_frames p = Z.to_nat splice_length /\ well_shaped p) preds.
Proof.
  intros Hlen Hmels. revert k.
  induction Hmels as [|m mels [Hwf Hm] Hrest IH]; intros k.
  - exists []. repeat split. constructor.
  - destruct (randint_in_range (Z.of_nat (n_frames m) - splice_length) k)
      as [start [Hrand Hstart]]; [lia|].
    destruct (IH (S k)) as [preds [Hrun [Hcount Hall]]].
    exists (slice_frames m start (start + splice_length) :: preds).
    split; [|split].
    + cbn [random_splices]. rewrite (bind_run _ _ _ _ _ Hrand).
      rewrite (bind_run _ _ _ _ _ Hrun). unfold ret. f_equal. simpl. lia.
    + simpl. now rewrite Hcount.
    + constructor; [|exact Hall]. split.
      * apply slice_frames_width; lia.
      * now apply slice_frames_well_shaped.
Qed.

(** X21. When one of the spectrograms has no more frames than
    [splice_length], the loop raises the [ValueError] of
    [np.random.randint], whatever numbers are drawn: a batch has to be
    longer than the splice. *)
Theorem random_splices_too_short (splice_length : Z) (mels : list (mel X)) (k : nat) :
  Exists (fun m => (Z.of_nat (n_frames m) <= splice_length)%Z) mels ->
  fst (random_splices tape splice_length mels k) = Raise (ValueError (py "low >= high")).
Proof.
  intros Hex. revert k. induction Hex as [m mels Hm|m mels Hex IH]; intros k.
  - cbn [random_splices]. unfold randint.
    destruct (Z.leb_spec (Z.of_nat (n_frames m) - splice_length) 0); [|lia].
    reflexivity.
  - cbn [random_splices]. unfold randint.
    destruct (Z.leb_spec (Z.of_nat (n_frames m) - splice_length) 0); [reflexivity|].
    unfold bind at 1. cbn.
    specialize (IH (S k)).
    unfold bind.
    destruct (random_splices tape splice_length mels (S k)) as [[preds|e] k'];
      simpl in *; [discriminate | exact IH].
Qed.

End SpliceFacts.

Lemma random_splices_width_witness :
  (0 <= 2)%Z /\
  Forall (fun m => well_shaped m /\ (2 < Z.of_nat (n_frames m))%Z)
    [mkMel 4 [[1; 2; 3; 4]; [5; 6; 7; 8]]; mkMel 3 [[1; 2; 3]; [4; 5; 6]]] /\
  exists preds,
    random_splices (fun k => Z.of_nat (7 * k + 5)) 2
      [mkMel 4 [[1; 2; 3; 4]; [5; 6; 7; 8]]; mkMel 3 [[1; 2; 3]; [4; 5; 6]]] 0
    = (Ok preds, 2 + 0) /\
    length preds = 2 /\
    Forall (fun p => n_frames p = Z.to_nat 2 /\ well_shaped p) preds.
Proof.
  assert (H1 : (0 <= 2)%Z) by lia.
  assert (H2 : Forall (fun m => well_shaped m /\ (2 < Z.of_nat (n_frames m))%Z)
                 [mkMel 4 [[1; 2; 3; 4]; [5; 6; 7; 8]]; mkMel 3 [[1; 2; 3]; [4; 5; 6]]]).
  { repeat constructor; simpl; lia. }
  split; [exact H1|]. split; [exact H2|].
  exact (random_splices_width (fun k => Z.of_nat (7 * k + 5)) 2 _ 0 H1 H2).
Defined.

Example random_splices_drawn :
  random_splices (fun k => Z.of_nat (7 * k + 5)) 2
    [mkMel 4 [[1; 2; 3; 4]; [5; 6; 7; 8]]; mkMel 3 [[1; 2; 3]; [4; 5; 6]]] 0
  = (Ok [mkMel 2 [[2; 3]; [6; 7]]; mkMel 2 [[1; 2]; [4; 5]]], 2).
Proof. reflexivity. Qed.

Lemma random_splices_too_short_witness :
  Exists (fun m => (Z.of_nat (n_frames m) <= 3)%Z)
    [mkMel 4 [[1; 2; 3; 4]]; mkMel 3 [[1; 2; 3]]] /\
  fst (random_splices (fun k => Z.of_nat k) 3
         [mkMel 4 [[1; 2; 3; 4]]; mkMel 3 [[1; 2; 3]]] 0)
  = Raise (ValueError (py "low >= high")).
Proof.
  assert (H : Exists (fun m => (Z.of_nat (n_frames m) <= 3)%Z)
                [mkMel 4 [[1; 2; 3; 4]]; mkMel 3 [[1; 2; 3]]]).
  { apply Exists_cons_tl. apply Exists_cons_hd. simpl. lia. }
  split; [exact H|].
  exact (random_splices_too_short (fun k => Z.of_nat k) 3 _ 0 H).
Defined.

Section TbLoggerFacts.

Context {experiment_t : Type}.
Variable the_logger : option (logger experiment_t).

(** X22. Reading [tb_logger] twice gives what reading it once gives, and
    leaves the same [_tb_logger] behind: a value found is kept, and neither
    [None] nor the error is.  With nothing kept and no logger the property
    does not return [None], it raises. *)
Theorem tb_logger_twice (cached : option experiment_t) :
  bind (tb_logger the_logger) (fun _ => tb_logger the_logger) cached
  = tb_logger the_logger cached /\
  tb_logger (experiment_t := experiment_t) None None
  = (Raise (ExternalError (py "AttributeError")), None).
Proof.
  split; [|reflexivity].
  unfold tb_logger, bind, get, modify, ret, raise.
  destruct cached as [e|]; [reflexivity|].
  destruct the_logger as [lg|]; [|reflexivity].
  destruct lg as [m|e members]; cbn.
  - destruct (member_experiment m); reflexivity.
  - destruct (first_tensorboard members e); reflexivity.
Qed.

(** X23. With a LoggerCollection and nothing kept, [tb_logger] is the
    experiment of the first TensorBoardLogger of the collection, whatever
    stands before it, and not the experiment of the collection. *)
Theorem tb_logger_first_tensorboard (e : option experiment_t)
  (before after : list (member_logger experiment_t)) (tb : option experiment_t) :
  the_logger = Some (LoggerCollection e (before ++ TensorBoardLogger tb :: after)) ->
  Forall (fun l => match l with TensorBoardLogger _ => False | OtherLogger _ => True end)
    before ->
  tb_logger the_logger None = (Ok tb, tb).
Proof.
  intros -> Hbefore. unfold tb_logger, bind, get, modify, ret. cbn.
  assert (H : first_tensorboard (before ++ TensorBoardLogger tb :: after) e = tb).
  { induction Hbefore as [|l before Hl Hrest IH]; [reflexivity|].
    destruct l; [contradiction | exact IH]. }
  now rewrite H.
Qed.

End TbLoggerFacts.

Lemma tb_logger_first_tensorboard_witness :
  Some (LoggerCollection (Some 0) ([OtherLogger (Some 1)] ++ TensorBoardLogger (Some 2)
                                     :: [TensorBoardLogger (Some 3)]))
  = Some (LoggerCollection (Some 0) ([OtherLogger (Some 1)] ++ TensorBoardLogger (Some 2)
                                       :: [TensorBoardLogger (Some 3)])) /\
  Forall (fun l : member_logger nat =>
            match l with TensorBoardLogger _ => False | OtherLogger _ => True end)
    [OtherLogger (Some 1)] /\
  tb_logger
    (Some (LoggerCollection (Some 0) ([OtherLogger (Some 1)] ++ TensorBoardLogger (Some 2)
                                        :: [TensorBoardLogger (Some 3)])))
    None
  = (Ok (Some 2), Some 2).
Proof.
  assert (H : Forall (fun l : member_logger nat =>
                        match l with TensorBoardLogger _ => False | OtherLogger _ => True end)
                [OtherLogger (Some 1)]) by (repeat constructor).
  split; [reflexivity|]. split; [exact H|].
  exact (tb_logger_first_tensorboard _ (Some 0) [OtherLogger (Some 1)]
           [TensorBoardLogger (Some 3)] (Some 2) eq_refl H).
Defined.

End FastPitchMoreSpec.

